(** * FSP 2.0 memory initialisation (drivers/intel/fsp2_0/memory_init.c)

    A shallow embedding of the romstage flow that prepares, invokes and
    reconciles the FSP-M memory-training module, with the properties its
    design document states about it.

    Conventions.
    - Unsigned C integers are [Z] with the wrap-around written out
      ([u8], [u32], [uintptr]).
    - Pointers are addresses in [Z]; [NULL] is [0].
    - Kconfig options, linker symbols and the helpers that live in other
      compilation units are fields of the records [Config], [Symbols] and
      [Platform]; every theorem quantifies over them.
    - Calls that leave this file (post codes, resets, cache accesses, the
      module call itself) are recorded in an event trace; [printk] is not
      recorded, and neither is the return value of [mrc_cache_stash_data],
      which only selects a log line. *)

From Stdlib Require Import String ZArith List Bool Lia.
Import ListNotations.
Local Open Scope Z_scope.

(** ** Machine integers and pointers *)

Definition u8 (x : Z) : Z := x mod 2 ^ 8.
Definition u32 (x : Z) : Z := x mod 2 ^ 32.
Definition NULL : Z := 0.

(** ** Enumerations *)

Inductive cb_err := CB_SUCCESS | CB_ERR.

Definition cb_err_eqb (a b : cb_err) : bool :=
  match a, b with
  | CB_SUCCESS, CB_SUCCESS | CB_ERR, CB_ERR => true
  | _, _ => false
  end.

Inductive fsp_boot_mode :=
| FSP_BOOT_WITH_FULL_CONFIGURATION
| FSP_BOOT_WITH_MINIMAL_CONFIGURATION
| FSP_BOOT_ASSUMING_NO_CONFIGURATION_CHANGES
| FSP_BOOT_ON_S4_RESUME
| FSP_BOOT_ON_S3_RESUME
| FSP_BOOT_ON_FLASH_UPDATE
| FSP_BOOT_IN_RECOVERY_MODE.

Inductive mrc_kind := MRC_TRAINING_DATA | MRC_VARIABLE_DATA.

Inductive post_code_id :=
| POST_MEM_PREINIT_PREP_START
| POST_MEM_PREINIT_PREP_END
| POST_FSP_MEMORY_INIT
| POST_FSP_MEMORY_EXIT
| POST_INVALID_VENDOR_BINARY
| POST_RAM_FAILURE.

Inductive timestamp_id :=
| TS_BEFORE_INITRAM
| TS_AFTER_INITRAM
| TS_FSP_MEMORY_INIT_START
| TS_FSP_MEMORY_INIT_END.

Inductive cbmem_id := CBMEM_ID_FSP_RESERVED_MEMORY.

Definition FSP_SUCCESS : Z := 0.

(** ** Structures *)

Record fsp_header := {
  fsp_revision : Z;
  image_base : Z;
  cfg_region_offset : Z;
  memory_init_entry_offset : Z
}.

Record FSPM_ARCH_UPD := {
  StackBase : Z;
  StackSize : Z;
  BootLoaderTolumSize : Z;
  BootMode : fsp_boot_mode;
  NvsBufferPtr : Z
}.

Record FSPM_UPD := {
  Signature : Z;
  FspmArchUpd : FSPM_ARCH_UPD;
  FspmConfig : Z
}.

Definition set_StackBase (a : FSPM_ARCH_UPD) (v : Z) : FSPM_ARCH_UPD :=
  {| StackBase := v; StackSize := StackSize a;
     BootLoaderTolumSize := BootLoaderTolumSize a;
     BootMode := BootMode a; NvsBufferPtr := NvsBufferPtr a |}.

Definition set_StackSize (a : FSPM_ARCH_UPD) (v : Z) : FSPM_ARCH_UPD :=
  {| StackBase := StackBase a; StackSize := v;
     BootLoaderTolumSize := BootLoaderTolumSize a;
     BootMode := BootMode a; NvsBufferPtr := NvsBufferPtr a |}.

Definition set_BootLoaderTolumSize (a : FSPM_ARCH_UPD) (v : Z)
  : FSPM_ARCH_UPD :=
  {| StackBase := StackBase a; StackSize := StackSize a;
     BootLoaderTolumSize := v;
     BootMode := BootMode a; NvsBufferPtr := NvsBufferPtr a |}.

Definition set_BootMode (a : FSPM_ARCH_UPD) (v : fsp_boot_mode)
  : FSPM_ARCH_UPD :=
  {| StackBase := StackBase a; StackSize := StackSize a;
     BootLoaderTolumSize := BootLoaderTolumSize a;
     BootMode := v; NvsBufferPtr := NvsBufferPtr a |}.

Definition set_NvsBufferPtr (a : FSPM_ARCH_UPD) (v : Z) : FSPM_ARCH_UPD :=
  {| StackBase := StackBase a; StackSize := StackSize a;
     BootLoaderTolumSize := BootLoaderTolumSize a;
     BootMode := BootMode a; NvsBufferPtr := v |}.

Definition set_FspmArchUpd (u : FSPM_UPD) (a : FSPM_ARCH_UPD) : FSPM_UPD :=
  {| Signature := Signature u; FspmArchUpd := a;
     FspmConfig := FspmConfig u |}.

Definition set_FspmConfig (u : FSPM_UPD) (c : Z) : FSPM_UPD :=
  {| Signature := Signature u; FspmArchUpd := FspmArchUpd u;
     FspmConfig := c |}.

(** Modelled from the spec: [struct range_entry] and its accessors are
    declared in memrange.h, which is not among the sources.  The spec gives
    a region entry as a base address with a length. *)
Record range_entry := {
  re_base : Z;
  re_size : Z
}.

Definition range_entry_base (r : range_entry) : Z := re_base r.
Definition range_entry_end (r : range_entry) : Z := re_base r + re_size r.
Definition range_entry_size (r : range_entry) : Z := re_size r.

(** Modelled from the spec: [struct memranges] (memrange.h, lib/memrange.c)
    is not among the sources.  The spec describes an ordered set of region
    entries that is queried and never merged. *)
Definition memranges := list range_entry.

Definition memranges_init_empty : memranges := [].

Fixpoint memranges_insert (ranges : memranges) (base size : Z)
  : memranges :=
  match ranges with
  | [] => [{| re_base := base; re_size := size |}]
  | r :: rest =>
      if base <? range_entry_base r
      then {| re_base := base; re_size := size |} :: r :: rest
      else r :: memranges_insert rest base size
  end.

Record fspm_context := {
  header : fsp_header;
  memmap : memranges
}.

(** The hand-off blob list the module fills in, seen through the two
    queries the flow makes. *)
Record hob_list := {
  hob_nv_storage_data : Z * Z;
  hob_reserved_memory : range_entry
}.

(** ** Build configuration, linker symbols, external helpers *)

(** Kconfig options and build constants.  [uintptr_bits] is the width of
    [uintptr_t] in the stage being built. *)
Record Config := {
  CACHE_MRC_SETTINGS : bool;
  HAS_RECOVERY_MRC_CACHE : bool;
  FSP2_0_USES_TPM_MRC_HASH : bool;
  VBOOT_STARTS_IN_BOOTBLOCK : bool;
  BOOT_DEVICE_MEMORY_MAPPED : bool;
  FATAL_ASSERTS : bool;
  FSP_USES_CB_STACK : bool;
  ENV_CACHE_AS_RAM : bool;
  FSP_PLATFORM_MEMORY_SETTINGS_VERSIONS : bool;
  MMA : bool;
  HAVE_ACPI_RESUME : bool;
  FSP_M_XIP : bool;
  CONFIG_FSP_M_ADDR : Z;
  CONFIG_FSP_TEMP_RAM_SIZE : Z;
  FSPM_UPD_SIGNATURE : Z;
  uintptr_bits : Z
}.

(** Addresses the linker script provides, and the address of the static
    [temp_ram] buffer. *)
Record Symbols := {
  _car_region_start : Z;
  _car_unallocated_start : Z;
  _car_region_end : Z;
  _program : Z;
  region_size_program : Z;
  temp_ram : Z
}.

(** What the helpers outside this file answer on one boot: the two weak
    version hooks as linked, the vboot and cache queries, the platform
    callback, cbmem, the memory the configuration region is read from, the
    module itself ([fsp_raminit], given its entry address and
    configuration, yields its status and hand-off list), whether a status
    is a reset request, and the component loader's view of the image
    (its size and source region, header validation, mapping address). *)
Record Platform := {
  fsp_memory_mainboard_version : Z;
  fsp_memory_soc_version : Z;
  vboot_recovery_mode_enabled : bool;
  get_recovery_mode_retrain_switch : bool;
  mrc_cache_current_mmap_leak : mrc_kind -> Z -> Z * Z;
  mrc_cache_verify_hash : Z -> Z -> bool;
  platform_fsp_memory_init_params_cb : FSPM_UPD -> Z -> FSPM_UPD;
  setup_mma : Z -> Z;
  cbmem_overhead_size : Z;
  cbmem_initialize_id_size : cbmem_id -> Z -> Z;
  cbmem_find : cbmem_id -> Z;
  upd_region : Z -> FSPM_UPD;
  fsp_raminit : Z -> FSPM_UPD -> Z * hob_list;
  fsp_reset_requested : Z -> bool;
  cbfs_fspm : option (Z * Z);
  fsp_validate_component : Z -> cb_err * fsp_header;
  rdev_mmap_full : Z -> Z
}.

(** The weak defaults of the two version hooks. *)
Definition fsp_memory_mainboard_version_weak : Z := 0.
Definition fsp_memory_soc_version_weak : Z := 0.

(** ** Event traces and the flow monad *)

Inductive event :=
| EvElogBootNotify (s3wake : bool)
| EvPostCode (c : post_code_id)
| EvTimestamp (t : timestamp_id)
| EvAssertFail
| EvHlt
| EvDie
| EvFullReset
| EvMrcCacheLookup (k : mrc_kind) (version : Z)
| EvMrcCacheVerifyHash (data size : Z)
| EvMrcCacheStash (k : mrc_kind) (version data size : Z)
| EvMrcCacheUpdateHash (data size : Z)
| EvPlatformCb (version : Z)
| EvSetupMma
| EvDebugBeforeMemoryInit
| EvFspMemoryInit (entry : Z) (upd : FSPM_UPD)
| EvFspHandleReset (status : Z)
| EvCbmemInitializeEmpty (id : cbmem_id) (size : Z)
| EvCbmemInitialize (id : cbmem_id) (size : Z)
| EvRomstageHandoffInit (s3wake : bool)
| EvDebugAfterMemoryInit (status : Z).

(** Why control left the flow for good. *)
Inductive stop :=
| StopFullReset
| StopDie (code : option post_code_id)
| StopHlt.

Inductive result (A : Type) :=
| Ret (a : A)
| Stop (s : stop).

Arguments Ret {A} a.
Arguments Stop {A} s.

(** A computation yields the calls it made, in order, and either a value
    or the reason it never returned. *)
Definition M (A : Type) : Type := list event * result A.

Definition ret {A} (a : A) : M A := ([], Ret a).

Definition bind {A B} (m : M A) (f : A -> M B) : M B :=
  match m with
  | (t, Ret a) => let '(t', r) := f a in (t ++ t', r)
  | (t, Stop s) => (t, Stop s)
  end.

Notation "x <- c1 ;; c2" := (bind c1 (fun x => c2))
  (at level 61, c1 at next level, right associativity).
Notation "c1 ;; c2" := (bind c1 (fun _ => c2))
  (at level 61, right associativity).

Definition emit (e : event) : M unit := ([e], Ret tt).

Definition post_code (c : post_code_id) : M unit := emit (EvPostCode c).
Definition timestamp_add_now (t : timestamp_id) : M unit :=
  emit (EvTimestamp t).

Definition full_reset {A} : M A := ([EvFullReset], Stop StopFullReset).
Definition die {A} : M A := ([EvDie], Stop (StopDie None)).
Definition die_with_post_code {A} (c : post_code_id) : M A :=
  ([EvPostCode c; EvDie], Stop (StopDie (Some c))).

Definition trace {A} (m : M A) : list event := fst m.
Definition outcome {A} (m : M A) : result A := snd m.

(** Event classifiers used by the statements below. *)
Definition is_module_call (e : event) : bool :=
  match e with EvFspMemoryInit _ _ => true | _ => false end.

Definition is_cache_write (e : event) : bool :=
  match e with
  | EvMrcCacheStash _ _ _ _ | EvMrcCacheUpdateHash _ _ => true
  | _ => false
  end.

Definition is_stash (e : event) : bool :=
  match e with EvMrcCacheStash _ _ _ _ => true | _ => false end.

Definition is_post_init (e : event) : bool :=
  match e with
  | EvCbmemInitializeEmpty _ _ | EvCbmemInitialize _ _
  | EvMrcCacheStash _ _ _ _ | EvMrcCacheUpdateHash _ _
  | EvRomstageHandoffInit _ | EvDebugAfterMemoryInit _ => true
  | _ => false
  end.

Definition count_events (p : event -> bool) (t : list event) : nat :=
  length (filter p t).

(** Two half-open address ranges share an address. *)
Definition intersects (b1 e1 b2 e2 : Z) : Prop :=
  exists x, (b1 <= x < e1) /\ (b2 <= x < e2).

Definition disjoint_from_map (ranges : memranges) (b e : Z) : Prop :=
  forall r, In r ranges ->
            ~ intersects b e (range_entry_base r) (range_entry_end r).

(** ** The region map query *)

Fixpoint check_region_overlap (ranges : memranges) (description : string)
  (begin end_ : Z) : cb_err :=
  match ranges with
  | [] => CB_SUCCESS
  | r :: rest =>
      if end_ <=? range_entry_base r
      then check_region_overlap rest description begin end_
      else if begin >=? range_entry_end r
      then check_region_overlap rest description begin end_
      else CB_ERR
  end.

Section Flow.

Variable cfg : Config.
Variable sym : Symbols.
Variable plat : Platform.

Definition uintptr (x : Z) : Z := x mod 2 ^ uintptr_bits cfg.

(** The build-time assertion at the top of the file. *)
Definition static_assert_ok : bool :=
  negb (FSP2_0_USES_TPM_MRC_HASH cfg) || VBOOT_STARTS_IN_BOOTBLOCK cfg.

(** [assert(x)].  assert.h is not among the sources: a failed assertion is
    reported, and whether it then halts is the build option
    [FATAL_ASSERTS]. *)
Definition assert (x : bool) : M unit :=
  if x then ret tt
  else emit EvAssertFail ;;
       if FATAL_ASSERTS cfg then ([EvHlt], Stop StopHlt) else ret tt.

(** Modelled from the spec: [fsp_handle_reset] (fsp2_0/util.c) is not among
    the sources.  The module may request an immediate platform reset
    instead of returning an error; if it does, the flow performs a full
    platform reset and never returns. *)
Definition fsp_handle_reset (status : Z) : M unit :=
  emit (EvFspHandleReset status) ;;
  if fsp_reset_requested plat status then full_reset else ret tt.

Definition save_memory_training_data (hobs : hob_list) (s3wake : bool)
  (fsp_version : Z) : M unit :=
  if negb (CACHE_MRC_SETTINGS cfg) || s3wake then ret tt
  else
    let '(mrc_data, mrc_data_size) := hob_nv_storage_data hobs in
    if mrc_data =? NULL then ret tt
    else
      emit (EvMrcCacheStash MRC_TRAINING_DATA fsp_version mrc_data
              mrc_data_size) ;;
      if FSP2_0_USES_TPM_MRC_HASH cfg
      then emit (EvMrcCacheUpdateHash mrc_data mrc_data_size)
      else ret tt.

Definition do_fsp_post_memory_init (hobs : hob_list) (s3wake : bool)
  (fsp_version : Z) : M unit :=
  let fsp_mem := hob_reserved_memory hobs in
  (if negb s3wake
   then emit (EvCbmemInitializeEmpty CBMEM_ID_FSP_RESERVED_MEMORY
                (range_entry_size fsp_mem))
   else
     emit (EvCbmemInitialize CBMEM_ID_FSP_RESERVED_MEMORY
             (range_entry_size fsp_mem)) ;;
     if negb (cbmem_initialize_id_size plat CBMEM_ID_FSP_RESERVED_MEMORY
                (range_entry_size fsp_mem) =? 0)
     then if HAVE_ACPI_RESUME cfg then full_reset else ret tt
     else ret tt) ;;
  (if negb (range_entry_base fsp_mem =?
            cbmem_find plat CBMEM_ID_FSP_RESERVED_MEMORY)
   then die else ret tt) ;;
  save_memory_training_data hobs s3wake fsp_version ;;
  emit (EvRomstageHandoffInit s3wake).

Definition fsp_fill_mrc_cache (arch_upd : FSPM_ARCH_UPD) (fsp_version : Z)
  : M FSPM_ARCH_UPD :=
  let arch_upd := set_NvsBufferPtr arch_upd NULL in
  if negb (CACHE_MRC_SETTINGS cfg) then ret arch_upd
  else
    let consult : M FSPM_ARCH_UPD :=
      assert (BOOT_DEVICE_MEMORY_MAPPED cfg) ;;
      emit (EvMrcCacheLookup MRC_TRAINING_DATA fsp_version) ;;
      let '(data, mrc_size) :=
        mrc_cache_current_mmap_leak plat MRC_TRAINING_DATA fsp_version in
      if data =? NULL then ret arch_upd
      else
        hash_rejects <-
          (if FSP2_0_USES_TPM_MRC_HASH cfg
           then emit (EvMrcCacheVerifyHash data mrc_size) ;;
                ret (negb (mrc_cache_verify_hash plat data mrc_size))
           else ret false) ;;
        if (hash_rejects : bool) then ret arch_upd
        else ret (set_NvsBufferPtr arch_upd data) in
    if vboot_recovery_mode_enabled plat
    then
      if negb (HAS_RECOVERY_MRC_CACHE cfg) then ret arch_upd
      else if get_recovery_mode_retrain_switch plat then ret arch_upd
      else consult
    else consult.

Definition setup_fsp_stack_frame (arch_upd : FSPM_ARCH_UPD)
  (memmap : memranges) : cb_err * FSPM_ARCH_UPD :=
  let stack_end := uintptr (_car_region_end sym) in
  let stack_begin := uintptr (stack_end - StackSize arch_upd) in
  if negb (cb_err_eqb
             (check_region_overlap memmap "FSPM stack" stack_begin stack_end)
             CB_SUCCESS)
  then (CB_ERR, arch_upd)
  else (CB_SUCCESS, set_StackBase arch_upd stack_begin).

Definition fsp_fill_common_arch_params (arch_upd : FSPM_ARCH_UPD)
  (s3wake : bool) (fsp_version : Z) (memmap : memranges)
  : M (cb_err * FSPM_ARCH_UPD) :=
  let continue (arch_upd : FSPM_ARCH_UPD) : M (cb_err * FSPM_ARCH_UPD) :=
    arch_upd <- fsp_fill_mrc_cache arch_upd fsp_version ;;
    let arch_upd :=
      if s3wake then set_BootMode arch_upd FSP_BOOT_ON_S3_RESUME
      else if negb (NvsBufferPtr arch_upd =? NULL)
      then set_BootMode arch_upd FSP_BOOT_ASSUMING_NO_CONFIGURATION_CHANGES
      else set_BootMode arch_upd FSP_BOOT_WITH_FULL_CONFIGURATION in
    ret (CB_SUCCESS, arch_upd) in
  if FSP_USES_CB_STACK cfg || negb (ENV_CACHE_AS_RAM cfg)
  then continue (set_StackSize (set_StackBase arch_upd (temp_ram sym))
                   (CONFIG_FSP_TEMP_RAM_SIZE cfg))
  else
    let '(r, arch_upd) := setup_fsp_stack_frame arch_upd memmap in
    if negb (cb_err_eqb r CB_SUCCESS) then ret (CB_ERR, arch_upd)
    else continue arch_upd.

Definition fsp_memory_settings_version (hdr : fsp_header) : Z :=
  let ver := fsp_revision hdr in
  if negb (FSP_PLATFORM_MEMORY_SETTINGS_VERSIONS cfg) then ver
  else
    let ver := Z.land ver (u32 (Z.lnot 255)) in
    let ver :=
      u32 (Z.lor ver
             (Z.shiftl (Z.land 15 (u8 (fsp_memory_mainboard_version plat)))
                4)) in
    let ver :=
      u32 (Z.lor ver
             (Z.shiftl (Z.land 15 (u8 (fsp_memory_soc_version plat))) 0)) in
    ver.

Definition do_fsp_memory_init (context : fspm_context) (s3wake : bool)
  : M unit :=
  let hdr := header context in
  let memmap := memmap context in
  post_code POST_MEM_PREINIT_PREP_START ;;
  let fsp_version := fsp_memory_settings_version hdr in
  let upd := upd_region plat (uintptr (cfg_region_offset hdr + image_base hdr)) in
  (if negb (Signature upd =? FSPM_UPD_SIGNATURE cfg)
   then die_with_post_code POST_INVALID_VENDOR_BINARY else ret tt) ;;
  let fspm_upd := upd in
  let arch_upd :=
    set_BootLoaderTolumSize (FspmArchUpd fspm_upd)
      (cbmem_overhead_size plat) in
  ra <- fsp_fill_common_arch_params arch_upd s3wake fsp_version memmap ;;
  (if negb (cb_err_eqb (fst ra) CB_SUCCESS)
   then die_with_post_code POST_INVALID_VENDOR_BINARY else ret tt) ;;
  let fspm_upd := set_FspmArchUpd fspm_upd (snd ra) in
  emit (EvPlatformCb fsp_version) ;;
  let fspm_upd :=
    platform_fsp_memory_init_params_cb plat fspm_upd fsp_version in
  (if s3wake && (NvsBufferPtr (FspmArchUpd fspm_upd) =? NULL)
   then full_reset else ret tt) ;;
  fspm_upd <-
    (if MMA cfg
     then emit EvSetupMma ;;
          ret (set_FspmConfig fspm_upd (setup_mma plat (FspmConfig fspm_upd)))
     else ret fspm_upd) ;;
  post_code POST_MEM_PREINIT_PREP_END ;;
  let fsp_raminit_entry :=
    uintptr (image_base hdr + memory_init_entry_offset hdr) in
  emit EvDebugBeforeMemoryInit ;;
  post_code POST_FSP_MEMORY_INIT ;;
  timestamp_add_now TS_FSP_MEMORY_INIT_START ;;
  emit (EvFspMemoryInit fsp_raminit_entry fspm_upd) ;;
  let '(status, hobs) := fsp_raminit plat fsp_raminit_entry fspm_upd in
  post_code POST_FSP_MEMORY_EXIT ;;
  timestamp_add_now TS_FSP_MEMORY_INIT_END ;;
  fsp_handle_reset status ;;
  (if negb (status =? FSP_SUCCESS)
   then die_with_post_code POST_RAM_FAILURE else ret tt) ;;
  do_fsp_post_memory_init hobs s3wake fsp_version ;;
  emit (EvDebugAfterMemoryInit status).

Definition fspm_get_dest (context : fspm_context) (dest : Z) (size : Z)
  (source : Z) : Z * Z * fspm_context :=
  let hdr := header context in
  let memmap := memmap context in
  if FSP_M_XIP cfg then
    let '(v, hdr) := fsp_validate_component plat source in
    let context := {| header := hdr; memmap := memmap |} in
    if negb (cb_err_eqb v CB_SUCCESS) then (-1, dest, context)
    else
      let dest := rdev_mmap_full plat source in
      if negb (uintptr dest =? image_base hdr) then (-1, dest, context)
      else (0, dest, context)
  else
    let fspm_begin := uintptr (CONFIG_FSP_M_ADDR cfg) in
    let fspm_end := uintptr (fspm_begin + size) in
    if negb (cb_err_eqb
               (check_region_overlap memmap "FSPM" fspm_begin fspm_end)
               CB_SUCCESS)
    then (-1, dest, context)
    else (0, fspm_begin, context).

(** Modelled from the spec: [fsp_load_component] (fsp2_0/util.c) is not among
    the sources.  It locates the module image under its fixed component
    identifier, asks the descriptor's [get_destination] callback where the
    image goes, and validates the header of an image that was copied. *)
Definition fsp_load_component (context : fspm_context)
  : cb_err * fspm_context :=
  match cbfs_fspm plat with
  | None => (CB_ERR, context)
  | Some (size, source) =>
      let '(r, dest, context) := fspm_get_dest context NULL size source in
      if r <? 0 then (CB_ERR, context)
      else if FSP_M_XIP cfg then (CB_SUCCESS, context)
      else
        let '(v, hdr) := fsp_validate_component plat source in
        (v, {| header := hdr; memmap := memmap context |})
  end.

(** The region map as [fsp_memory_init] seeds it. *)
Definition seed_memmap : memranges :=
  let memmap := memranges_init_empty in
  let memmap :=
    if ENV_CACHE_AS_RAM cfg
    then memranges_insert memmap (uintptr (_car_region_start sym))
           (_car_unallocated_start sym - _car_region_start sym)
    else memmap in
  memranges_insert memmap (uintptr (_program sym)) (region_size_program sym).

Definition fsp_memory_init (hdr0 : fsp_header) (s3wake : bool) : M unit :=
  emit (EvElogBootNotify s3wake) ;;
  let context := {| header := hdr0; memmap := seed_memmap |} in
  let '(r, context) := fsp_load_component context in
  (if negb (cb_err_eqb r CB_SUCCESS) then die else ret tt) ;;
  timestamp_add_now TS_BEFORE_INITRAM ;;
  do_fsp_memory_init context s3wake ;;
  timestamp_add_now TS_AFTER_INITRAM.

End Flow.

(** ** Auxiliary definitions for the statements *)

(** The part of [do_fsp_memory_init] that runs once the module has
    returned [status] and left [hobs] behind. *)
Definition after_module_call (cfg : Config) (plat : Platform)
  (status : Z) (hobs : hob_list) (s3wake : bool) (fsp_version : Z)
  : M unit :=
  post_code POST_FSP_MEMORY_EXIT ;;
  timestamp_add_now TS_FSP_MEMORY_INIT_END ;;
  fsp_handle_reset plat status ;;
  (if negb (status =? FSP_SUCCESS)
   then die_with_post_code POST_RAM_FAILURE else ret tt) ;;
  do_fsp_post_memory_init cfg plat hobs s3wake fsp_version ;;
  emit (EvDebugAfterMemoryInit status).

(** A trace free of the events that [p] selects. *)
Definition free_of {A} (p : event -> bool) (m : M A) : Prop :=
  filter p (trace m) = [].

Arguments after_module_call : simpl never.

(** Events that belong to the call into the module and to what follows
    it. *)
Definition from_module_call_on (e : event) : bool :=
  match e with
  | EvFspMemoryInit _ _ | EvFspHandleReset _
  | EvCbmemInitializeEmpty _ _ | EvCbmemInitialize _ _
  | EvMrcCacheStash _ _ _ _ | EvMrcCacheUpdateHash _ _
  | EvRomstageHandoffInit _ | EvDebugAfterMemoryInit _ => true
  | _ => false
  end.

(** What [do_fsp_memory_init] does from the return of the module on, the
    module having been entered at [entry] with [upd]. *)
Definition module_tail (cfg : Config) (plat : Platform) (s3wake : bool)
  (fsp_version entry : Z) (upd : FSPM_UPD) : M unit :=
  let '(status, hobs) := fsp_raminit plat entry upd in
  after_module_call cfg plat status hobs s3wake fsp_version.

(** A computation either stops without having called the module, or its
    trace splits at the one call into the module: a prefix without any
    event of the call or of what follows it, the call with a configuration
    that satisfies [Q], and the tail of the flow. *)
Definition splits_at_module_call (entry : Z) (Q : FSPM_UPD -> Prop)
  (tail : FSPM_UPD -> M unit) (m : M unit) : Prop :=
  (free_of from_module_call_on m /\ exists s, outcome m = Stop s) \/
  (exists pre upd,
      filter from_module_call_on pre = [] /\ Q upd /\
      m = (pre ++ EvFspMemoryInit entry upd :: trace (tail upd),
           outcome (tail upd))).

(** Recovery mode forces retraining. *)
Definition recovery_bypass (cfg : Config) (plat : Platform) : bool :=
  vboot_recovery_mode_enabled plat &&
  (negb (HAS_RECOVERY_MRC_CACHE cfg) || get_recovery_mode_retrain_switch plat).

(** A matching, verified cache entry exists and may be used. *)
Definition cache_usable (cfg : Config) (plat : Platform) (fsp_version : Z)
  : bool :=
  let '(data, size) :=
    mrc_cache_current_mmap_leak plat MRC_TRAINING_DATA fsp_version in
  CACHE_MRC_SETTINGS cfg && negb (recovery_bypass cfg plat) &&
  negb (data =? NULL) &&
  (negb (FSP2_0_USES_TPM_MRC_HASH cfg) || mrc_cache_verify_hash plat data size).

(** The same platform with another cache lookup. *)
Definition with_cache_lookup (plat : Platform)
  (lookup : mrc_kind -> Z -> Z * Z) : Platform :=
  {| fsp_memory_mainboard_version := fsp_memory_mainboard_version plat;
     fsp_memory_soc_version := fsp_memory_soc_version plat;
     vboot_recovery_mode_enabled := vboot_recovery_mode_enabled plat;
     get_recovery_mode_retrain_switch := get_recovery_mode_retrain_switch plat;
     mrc_cache_current_mmap_leak := lookup;
     mrc_cache_verify_hash := mrc_cache_verify_hash plat;
     platform_fsp_memory_init_params_cb :=
       platform_fsp_memory_init_params_cb plat;
     setup_mma := setup_mma plat;
     cbmem_overhead_size := cbmem_overhead_size plat;
     cbmem_initialize_id_size := cbmem_initialize_id_size plat;
     cbmem_find := cbmem_find plat;
     upd_region := upd_region plat;
     fsp_raminit := fsp_raminit plat;
     fsp_reset_requested := fsp_reset_requested plat;
     cbfs_fspm := cbfs_fspm plat;
     fsp_validate_component := fsp_validate_component plat;
     rdev_mmap_full := rdev_mmap_full plat |}.

Definition cache_miss : mrc_kind -> Z -> Z * Z := fun _ _ => (NULL, 0).

(** ** A concrete board, for examples

    A 32-bit cache-as-RAM platform that copies the module into
    cache-as-RAM: the region 0x10000..0x20000 is cache-as-RAM, of which
    0x10000..0x14000 is in use; romstage runs from 0x100000..0x110000; the
    module image (0x8000 bytes) is placed at 0x18000 and asks for a stack
    of 0x4000 bytes. *)
Module Board.

Definition cfg : Config :=
  {| CACHE_MRC_SETTINGS := true;
     HAS_RECOVERY_MRC_CACHE := false;
     FSP2_0_USES_TPM_MRC_HASH := false;
     VBOOT_STARTS_IN_BOOTBLOCK := true;
     BOOT_DEVICE_MEMORY_MAPPED := true;
     FATAL_ASSERTS := false;
     FSP_USES_CB_STACK := false;
     ENV_CACHE_AS_RAM := true;
     FSP_PLATFORM_MEMORY_SETTINGS_VERSIONS := true;
     MMA := false;
     HAVE_ACPI_RESUME := true;
     FSP_M_XIP := false;
     CONFIG_FSP_M_ADDR := 0x18000;
     CONFIG_FSP_TEMP_RAM_SIZE := 0x4000;
     FSPM_UPD_SIGNATURE := 0x4D5F4450;
     uintptr_bits := 32 |}.

Definition sym : Symbols :=
  {| _car_region_start := 0x10000;
     _car_unallocated_start := 0x14000;
     _car_region_end := 0x20000;
     _program := 0x100000;
     region_size_program := 0x10000;
     temp_ram := 0x12000 |}.

Definition hdr : fsp_header :=
  {| fsp_revision := 5;
     image_base := 0x18000;
     cfg_region_offset := 0x100;
     memory_init_entry_offset := 0x200 |}.

Definition default_arch_upd : FSPM_ARCH_UPD :=
  {| StackBase := 0; StackSize := 0x4000; BootLoaderTolumSize := 0;
     BootMode := FSP_BOOT_WITH_FULL_CONFIGURATION; NvsBufferPtr := 0 |}.

Definition default_upd : FSPM_UPD :=
  {| Signature := 0x4D5F4450; FspmArchUpd := default_arch_upd;
     FspmConfig := 0 |}.

Definition hobs : hob_list :=
  {| hob_nv_storage_data := (0x7000000, 128);
     hob_reserved_memory := {| re_base := 0x7f000000; re_size := 0x400000 |} |}.

(** A hand-off list without a training-data blob. *)
Definition hobs_without_training_data : hob_list :=
  {| hob_nv_storage_data := (NULL, 0);
     hob_reserved_memory := {| re_base := 0x7f000000; re_size := 0x400000 |} |}.

(** [recovery], [retrain] and [verify] are what the vboot helpers and the
    hash check answer, [cached] is what the cache lookup returns,
    [module_result] what the module returns and leaves behind, and
    [cbmem_base] where the reserved-memory entry of cbmem is found. *)
Definition platform (recovery retrain verify : bool) (cached : Z * Z)
  (module_result : Z * hob_list) (cbmem_base : Z) : Platform :=
  {| fsp_memory_mainboard_version := 2;
     fsp_memory_soc_version := 9;
     vboot_recovery_mode_enabled := recovery;
     get_recovery_mode_retrain_switch := retrain;
     mrc_cache_current_mmap_leak := fun _ _ => cached;
     mrc_cache_verify_hash := fun _ _ => verify;
     platform_fsp_memory_init_params_cb := fun upd _ => upd;
     setup_mma := fun c => c;
     cbmem_overhead_size := 0x1000;
     cbmem_initialize_id_size := fun _ _ => 0;
     cbmem_find := fun _ => cbmem_base;
     upd_region := fun _ => default_upd;
     fsp_raminit := fun _ _ => module_result;
     fsp_reset_requested :=
       fun s => (0x40000001 <=? s) && (s <=? 0x40000008);
     cbfs_fspm := Some (0x8000, 1);
     fsp_validate_component := fun _ => (CB_SUCCESS, hdr);
     rdev_mmap_full := fun _ => 0x18000 |}.

(** The usual case: normal mode, the module returns [status] and the full
    hand-off list, cbmem agrees with the module. *)
Definition plat (cached : Z * Z) (status : Z) : Platform :=
  platform false false true cached (status, hobs) 0x7f000000.

(** The same build with training-data caching switched off, and with the
    cached data bound to a hash. *)
Definition cfg_with (cache hash : bool) : Config :=
  {| CACHE_MRC_SETTINGS := cache;
     HAS_RECOVERY_MRC_CACHE := false;
     FSP2_0_USES_TPM_MRC_HASH := hash;
     VBOOT_STARTS_IN_BOOTBLOCK := true;
     BOOT_DEVICE_MEMORY_MAPPED := true;
     FATAL_ASSERTS := false;
     FSP_USES_CB_STACK := false;
     ENV_CACHE_AS_RAM := true;
     FSP_PLATFORM_MEMORY_SETTINGS_VERSIONS := true;
     MMA := false;
     HAVE_ACPI_RESUME := true;
     FSP_M_XIP := false;
     CONFIG_FSP_M_ADDR := 0x18000;
     CONFIG_FSP_TEMP_RAM_SIZE := 0x4000;
     FSPM_UPD_SIGNATURE := 0x4D5F4450;
     uintptr_bits := 32 |}.

Definition context : fspm_context :=
  {| header := hdr; memmap := seed_memmap cfg sym |}.

End Board.


(** ** Further event classifiers *)

Definition is_cache_lookup (e : event) : bool :=
  match e with EvMrcCacheLookup _ _ => true | _ => false end.

Definition is_verify_hash (e : event) : bool :=
  match e with EvMrcCacheVerifyHash _ _ => true | _ => false end.

Definition is_update_hash (e : event) : bool :=
  match e with EvMrcCacheUpdateHash _ _ => true | _ => false end.

Definition is_platform_cb (e : event) : bool :=
  match e with EvPlatformCb _ => true | _ => false end.

Definition is_handoff (e : event) : bool :=
  match e with EvRomstageHandoffInit _ => true | _ => false end.

Definition is_cbmem_empty (e : event) : bool :=
  match e with EvCbmemInitializeEmpty _ _ => true | _ => false end.

Definition is_cbmem_recover (e : event) : bool :=
  match e with EvCbmemInitialize _ _ => true | _ => false end.

Definition is_full_reset (e : event) : bool :=
  match e with EvFullReset => true | _ => false end.

(** A cache lookup, if [e] is one, asks for the training data of version
    [v]. *)
Definition lookup_is_for (v : Z) (e : event) : Prop :=
  match e with
  | EvMrcCacheLookup k version => k = MRC_TRAINING_DATA /\ version = v
  | _ => True
  end.

(** ** The board reset hook (vendorcode/google/chromeos/cse_board_reset.c) *)

Module Cse.

Record cr50_firmware_version := {
  epoch : Z;
  major : Z;
  minor : Z
}.

Inductive cse_event :=
| EvTlclLibInit
| EvCr50GetFirmwareVersion
| EvDcacheCleanAll
| EvOutb (value port : Z)
| EvGoogleChromeecApReset
| EvHalt.

Inductive ending := Returned | Halted.

(** The reset-control register and its full-reset bit (cf9_reset.h), what
    [cr50_get_firmware_version] leaves in the version structure, and what
    [google_chromeec_ap_reset] returns. *)
Record Board := {
  RST_CNT : Z;
  FULL_RST : Z;
  cr50_version : cr50_firmware_version;
  google_chromeec_ap_reset : Z
}.

Definition cse_board_reset (b : Board) : list cse_event * ending :=
  let version := cr50_version b in
  let t := [EvTlclLibInit; EvCr50GetFirmwareVersion] in
  if negb (epoch version =? 0) || (major version >? 4) ||
     ((major version >=? 3) && (minor version >=? 20))
  then (t, Returned)
  else
    let t := t ++ [EvDcacheCleanAll; EvOutb (FULL_RST b) (RST_CNT b);
                   EvGoogleChromeecApReset] in
    if google_chromeec_ap_reset b =? 0
    then (t ++ [EvHalt], Halted)
    else (t, Returned).

End Cse.


(** ** Two more builds of the example board *)

Module Variants.

(** The module shares the caller's stack. *)
Definition cfg_shared_stack : Config :=
  {| CACHE_MRC_SETTINGS := true;
     HAS_RECOVERY_MRC_CACHE := false;
     FSP2_0_USES_TPM_MRC_HASH := false;
     VBOOT_STARTS_IN_BOOTBLOCK := true;
     BOOT_DEVICE_MEMORY_MAPPED := true;
     FATAL_ASSERTS := false;
     FSP_USES_CB_STACK := true;
     ENV_CACHE_AS_RAM := true;
     FSP_PLATFORM_MEMORY_SETTINGS_VERSIONS := true;
     MMA := false;
     HAVE_ACPI_RESUME := true;
     FSP_M_XIP := false;
     CONFIG_FSP_M_ADDR := 0x18000;
     CONFIG_FSP_TEMP_RAM_SIZE := 0x4000;
     FSPM_UPD_SIGNATURE := 0x4D5F4450;
     uintptr_bits := 32 |}.

(** The module executes in place. *)
Definition cfg_xip : Config :=
  {| CACHE_MRC_SETTINGS := true;
     HAS_RECOVERY_MRC_CACHE := false;
     FSP2_0_USES_TPM_MRC_HASH := false;
     VBOOT_STARTS_IN_BOOTBLOCK := true;
     BOOT_DEVICE_MEMORY_MAPPED := true;
     FATAL_ASSERTS := false;
     FSP_USES_CB_STACK := false;
     ENV_CACHE_AS_RAM := true;
     FSP_PLATFORM_MEMORY_SETTINGS_VERSIONS := true;
     MMA := false;
     HAVE_ACPI_RESUME := true;
     FSP_M_XIP := true;
     CONFIG_FSP_M_ADDR := 0x18000;
     CONFIG_FSP_TEMP_RAM_SIZE := 0x4000;
     FSPM_UPD_SIGNATURE := 0x4D5F4450;
     uintptr_bits := 32 |}.

(** Platform versioning of the cache tag is not built in. *)
Definition cfg_no_versioning : Config :=
  {| CACHE_MRC_SETTINGS := true;
     HAS_RECOVERY_MRC_CACHE := false;
     FSP2_0_USES_TPM_MRC_HASH := false;
     VBOOT_STARTS_IN_BOOTBLOCK := true;
     BOOT_DEVICE_MEMORY_MAPPED := true;
     FATAL_ASSERTS := false;
     FSP_USES_CB_STACK := false;
     ENV_CACHE_AS_RAM := true;
     FSP_PLATFORM_MEMORY_SETTINGS_VERSIONS := false;
     MMA := false;
     HAVE_ACPI_RESUME := true;
     FSP_M_XIP := false;
     CONFIG_FSP_M_ADDR := 0x18000;
     CONFIG_FSP_TEMP_RAM_SIZE := 0x4000;
     FSPM_UPD_SIGNATURE := 0x4D5F4450;
     uintptr_bits := 32 |}.

End Variants.


(** * Properties *)

(** ** The flow monad *)

Lemma trace_bind_ret {A B} (t : list event) (a : A) (f : A -> M B) :
  trace (bind (t, Ret a) f) = t ++ trace (f a).
Proof. unfold bind, trace. destruct (f a); reflexivity. Qed.

Lemma bind_stop {A B} (t : list event) (s : stop) (f : A -> M B) :
  bind (t, Stop s) f = (t, Stop s).
Proof. reflexivity. Qed.

Lemma bind_ret_nil {A B} (a : A) (f : A -> M B) : bind (ret a) f = f a.
Proof. unfold bind, ret. destruct (f a); reflexivity. Qed.

Lemma bind_emit {B} (e : event) (f : unit -> M B) :
  bind (emit e) f = (e :: trace (f tt), outcome (f tt)).
Proof. unfold bind, emit. destruct (f tt); reflexivity. Qed.

Lemma bind_eta {A B} (t : list event) (a : A) (f : A -> M B) :
  bind (t, Ret a) f = (t ++ trace (f a), outcome (f a)).
Proof. unfold bind. destruct (f a); reflexivity. Qed.

Lemma free_of_bind {A B} p (m : M A) (f : A -> M B) :
  free_of p m -> (forall a, free_of p (f a)) -> free_of p (bind m f).
Proof.
  unfold free_of. destruct m as [t [a|s]]; intros Hm Hf.
  - rewrite trace_bind_ret, filter_app, (Hf a), app_nil_r. exact Hm.
  - exact Hm.
Qed.

Lemma free_of_ret {A} p (a : A) : free_of p (ret a).
Proof. reflexivity. Qed.

Lemma free_of_emit p e : p e = false -> free_of p (emit e).
Proof. unfold free_of; simpl; intros ->; reflexivity. Qed.

(** ** The region map query *)

Lemma check_region_overlap_success (ranges : memranges) d b e :
  check_region_overlap ranges d b e = CB_SUCCESS <->
  (forall r, In r ranges ->
             e <= range_entry_base r \/ range_entry_end r <= b).
Proof.
  induction ranges as [|r rest IH]; simpl.
  - split; [intros _ r []|reflexivity].
  - destruct (Z.leb_spec e (range_entry_base r)) as [He|He].
    + rewrite IH. split.
      * intros H r' [<-|Hin]; [left; exact He|apply H, Hin].
      * intros H r' Hin. apply H. right; exact Hin.
    + destruct (Z.geb_spec b (range_entry_end r)) as [Hb|Hb].
      * rewrite IH. split.
        -- intros H r' [<-|Hin]; [right; lia|apply H, Hin].
        -- intros H r' Hin. apply H. right; exact Hin.
      * split; [discriminate|].
        intros H. destruct (H r (or_introl eq_refl)); lia.
Qed.

Lemma check_region_overlap_cases (ranges : memranges) d b e :
  check_region_overlap ranges d b e = CB_SUCCESS \/
  check_region_overlap ranges d b e = CB_ERR.
Proof. destruct (check_region_overlap ranges d b e); auto. Qed.

Lemma intersects_iff b1 e1 b2 e2 :
  intersects b1 e1 b2 e2 <-> (b1 < e1 /\ b2 < e2 /\ b1 < e2 /\ b2 < e1).
Proof.
  unfold intersects. split.
  - intros [x Hx]. lia.
  - intros H. exists (Z.max b1 b2). lia.
Qed.

Lemma check_region_overlap_accepts_disjoint (ranges : memranges) d b e :
  check_region_overlap ranges d b e = CB_SUCCESS ->
  disjoint_from_map ranges b e.
Proof.
  rewrite check_region_overlap_success.
  intros H r Hin Hint. apply intersects_iff in Hint.
  destruct (H r Hin); lia.
Qed.

Lemma check_region_overlap_rejects (ranges : memranges) d b e r :
  In r ranges ->
  intersects b e (range_entry_base r) (range_entry_end r) ->
  check_region_overlap ranges d b e = CB_ERR.
Proof.
  intros Hin Hint.
  destruct (check_region_overlap_cases ranges d b e) as [H|H]; [|exact H].
  exfalso. exact (check_region_overlap_accepts_disjoint _ _ _ _ H r Hin Hint).
Qed.

(** C10, as stated, fails: a zero-length candidate that lies strictly
    inside an entry is reported as an overlap. *)
Lemma zero_length_candidate_rejected :
  check_region_overlap [{| re_base := 0x1000; re_size := 0x1000 |}]
    "FSPM" 0x1800 0x1800 = CB_ERR /\
  ~ (forall ranges d x, check_region_overlap ranges d x x = CB_SUCCESS).
Proof.
  split; [reflexivity|].
  intros H.
  specialize (H [{| re_base := 0x1000; re_size := 0x1000 |}] "FSPM"%string
                0x1800).
  discriminate H.
Qed.

(** C10 (amended).  The overlap check treats ranges as half-open intervals:
    a candidate is accepted exactly when, for every entry, its end is at or
    below the entry's base or its begin is at or above the entry's end.  A
    candidate whose end equals an entry's base, or whose begin equals an
    entry's end, is not reported against that entry.  A zero-length
    candidate is accepted exactly when it does not lie strictly inside an
    entry. *)
Theorem check_region_overlap_half_open :
  forall (ranges : memranges) (d : string) (b e : Z),
    (check_region_overlap ranges d b e = CB_SUCCESS <->
     forall r, In r ranges ->
               e <= range_entry_base r \/ range_entry_end r <= b) /\
    (forall r, e = range_entry_base r \/ b = range_entry_end r ->
               check_region_overlap (r :: ranges) d b e =
               check_region_overlap ranges d b e) /\
    (check_region_overlap ranges d b b = CB_SUCCESS <->
     forall r, In r ranges ->
               ~ (range_entry_base r < b < range_entry_end r)).
Proof.
  intros ranges d b e. split; [apply check_region_overlap_success|]. split.
  - intros r [->| ->]; simpl.
    + rewrite Z.leb_refl. reflexivity.
    + destruct (e <=? range_entry_base r); [reflexivity|].
      rewrite (proj2 (Z.geb_le _ _)) by lia. reflexivity.
  - rewrite check_region_overlap_success. split; intros H r Hin.
    + destruct (H r Hin); lia.
    + specialize (H r Hin). lia.
Qed.

Lemma check_region_overlap_half_open_witness :
  check_region_overlap
    [{| re_base := 0x1000; re_size := 0x1000 |};
     {| re_base := 0x3000; re_size := 0x1000 |}] "FSPM" 0x2000 0x3000
  = CB_SUCCESS.
Proof.
  apply (check_region_overlap_half_open _ "FSPM"%string 0x2000 0x3000).
  intros r [<-|[<-|[]]]; vm_compute; [right|left]; discriminate.
Defined.

(** C1, as stated, fails: on the example board the image destination
    0x18000..0x20000 and the stack carve 0x1C000..0x20000 are both accepted
    against the seeded map, the module is called with that stack, and the
    two ranges share addresses. *)
Lemma accepted_stack_overlaps_accepted_image :
  let plat := Board.plat (0, 0) 0 in
  let stack := set_StackBase Board.default_arch_upd 0x1C000 in
  seed_memmap Board.cfg Board.sym =
    [{| re_base := 0x10000; re_size := 0x4000 |};
     {| re_base := 0x100000; re_size := 0x10000 |}] /\
  fspm_get_dest Board.cfg plat Board.context NULL 0x8000 1 =
    (0, 0x18000, Board.context) /\
  setup_fsp_stack_frame Board.cfg Board.sym Board.default_arch_upd
    (memmap Board.context) = (CB_SUCCESS, stack) /\
  intersects 0x18000 (0x18000 + 0x8000) 0x1C000 0x20000 /\
  (exists entry upd,
      In (EvFspMemoryInit entry upd)
         (trace (fsp_memory_init Board.cfg Board.sym plat Board.hdr false)) /\
      StackBase (FspmArchUpd upd) = 0x1C000 /\
      StackSize (FspmArchUpd upd) = 0x4000).
Proof.
  cbv zeta. split; [reflexivity|]. split; [reflexivity|].
  split; [reflexivity|]. split.
  - exists 0x1C000. lia.
  - eexists _, _. split.
    + vm_compute. do 9 right. left. reflexivity.
    + split; reflexivity.
Qed.

(** C1 (amended).  Every candidate range handed to [check_region_overlap]
    (the stack carve, the destination of an image that does not execute in
    place) that intersects an entry of the region map is rejected before it
    is used: the stack base and the destination are left unwritten and the
    parameter builder fails.  Hence every accepted candidate is disjoint
    from every entry of the region map. *)
Theorem candidates_checked_against_region_map :
  forall (cfg : Config) (sym : Symbols) (plat : Platform)
         (arch_upd : FSPM_ARCH_UPD) (context : fspm_context)
         (dest size source : Z) (s3wake : bool) (fsp_version : Z),
    let stack_end := uintptr cfg (_car_region_end sym) in
    let stack_begin := uintptr cfg (stack_end - StackSize arch_upd) in
    let fspm_begin := uintptr cfg (CONFIG_FSP_M_ADDR cfg) in
    let fspm_end := uintptr cfg (fspm_begin + size) in
    let hits b e :=
      exists r, In r (memmap context) /\
                intersects b e (range_entry_base r) (range_entry_end r) in
    (forall ranges d b e,
        check_region_overlap ranges d b e = CB_SUCCESS ->
        disjoint_from_map ranges b e) /\
    (hits stack_begin stack_end ->
     setup_fsp_stack_frame cfg sym arch_upd (memmap context) =
       (CB_ERR, arch_upd) /\
     (FSP_USES_CB_STACK cfg || negb (ENV_CACHE_AS_RAM cfg) = false ->
      fsp_fill_common_arch_params cfg sym plat arch_upd s3wake fsp_version
        (memmap context) = ([], Ret (CB_ERR, arch_upd)))) /\
    (fst (setup_fsp_stack_frame cfg sym arch_upd (memmap context))
       = CB_SUCCESS ->
     disjoint_from_map (memmap context) stack_begin stack_end /\
     snd (setup_fsp_stack_frame cfg sym arch_upd (memmap context))
       = set_StackBase arch_upd stack_begin) /\
    (FSP_M_XIP cfg = false -> hits fspm_begin fspm_end ->
     fspm_get_dest cfg plat context dest size source = (-1, dest, context)) /\
    (FSP_M_XIP cfg = false ->
     fst (fst (fspm_get_dest cfg plat context dest size source)) = 0 ->
     disjoint_from_map (memmap context) fspm_begin fspm_end /\
     fspm_get_dest cfg plat context dest size source
       = (0, fspm_begin, context)).
Proof.
  intros cfg sym plat arch_upd context dest size source s3wake fsp_version
         stack_end stack_begin fspm_begin fspm_end hits.
  split; [exact check_region_overlap_accepts_disjoint|].
  assert (Hstack : hits stack_begin stack_end ->
            setup_fsp_stack_frame cfg sym arch_upd (memmap context) =
              (CB_ERR, arch_upd)).
  { intros [r [Hin Hint]]. unfold setup_fsp_stack_frame.
    fold stack_end. fold stack_begin.
    rewrite (check_region_overlap_rejects _ _ _ _ r Hin Hint). reflexivity. }
  split.
  { intros Hh. split; [exact (Hstack Hh)|].
    intros Hc. unfold fsp_fill_common_arch_params.
    rewrite Hc, (Hstack Hh). reflexivity. }
  split.
  { unfold setup_fsp_stack_frame. fold stack_end. fold stack_begin.
    destruct (check_region_overlap (memmap context) "FSPM stack" stack_begin
                stack_end) eqn:Hc; simpl; [|discriminate].
    intros _. split; [|reflexivity].
    exact (check_region_overlap_accepts_disjoint _ _ _ _ Hc). }
  split.
  { intros Hx [r [Hin Hint]]. unfold fspm_get_dest. rewrite Hx.
    fold fspm_begin. fold fspm_end.
    rewrite (check_region_overlap_rejects _ _ _ _ r Hin Hint).
    destruct context; reflexivity. }
  intros Hx. unfold fspm_get_dest. rewrite Hx.
  fold fspm_begin. fold fspm_end.
  destruct (check_region_overlap (memmap context) "FSPM" fspm_begin fspm_end)
    eqn:Hc; simpl; [|discriminate].
  intros _. split.
  - exact (check_region_overlap_accepts_disjoint _ _ _ _ Hc).
  - destruct context; reflexivity.
Qed.

Lemma candidates_checked_against_region_map_witness :
  setup_fsp_stack_frame Board.cfg Board.sym
    (set_StackSize Board.default_arch_upd 0xE000) (memmap Board.context) =
    (CB_ERR, set_StackSize Board.default_arch_upd 0xE000) /\
  disjoint_from_map (memmap Board.context) 0x1C000 0x20000.
Proof.
  split.
  - apply (candidates_checked_against_region_map Board.cfg Board.sym
             (Board.plat (NULL, 0) 0)
             (set_StackSize Board.default_arch_upd 0xE000) Board.context
             NULL 0x8000 1 false 41).
    exists {| re_base := 0x10000; re_size := 0x4000 |}. split.
    + left. reflexivity.
    + exists 0x12000. vm_compute. repeat split; discriminate.
  - apply (candidates_checked_against_region_map Board.cfg Board.sym
             (Board.plat (NULL, 0) 0) Board.default_arch_upd Board.context
             NULL 0x8000 1 false 41).
    reflexivity.
Defined.

(** ** The cache-version tag *)

(** With platform versioning enabled the tag is, bit by bit: bits 3..0
    from the SoC hook, bits 7..4 from the mainboard hook, bits 31..8 from
    the revision. *)
Lemma fsp_memory_settings_version_bits cfg plat hdr n :
  FSP_PLATFORM_MEMORY_SETTINGS_VERSIONS cfg = true ->
  0 <= n ->
  Z.testbit (fsp_memory_settings_version cfg plat hdr) n =
    if n <? 4 then Z.testbit (fsp_memory_soc_version plat) n
    else if n <? 8 then Z.testbit (fsp_memory_mainboard_version plat) (n - 4)
    else if n <? 32 then Z.testbit (fsp_revision hdr) n
    else false.
Proof.
  intros Hv Hn. unfold fsp_memory_settings_version. rewrite Hv. simpl negb.
  cbv iota. unfold u32, u8.
  change (Z.lnot 255 mod 2 ^ 32) with 4294967040.
  destruct (Z.ltb_spec n 32) as [H32|H32].
  2:{ rewrite Z.mod_pow2_bits_high by lia.
      destruct (Z.ltb_spec n 4); [lia|]. destruct (Z.ltb_spec n 8); [lia|].
      reflexivity. }
  rewrite Z.mod_pow2_bits_low by lia.
  rewrite Z.shiftl_0_r, Z.lor_spec.
  rewrite Z.mod_pow2_bits_low by lia.
  rewrite Z.lor_spec, !Z.land_spec.
  rewrite Z.shiftl_spec by lia. rewrite Z.land_spec.
  destruct (Z.ltb_spec n 4) as [H4|H4]; [|destruct (Z.ltb_spec n 8) as [H8|H8]].
  - rewrite !(Z.testbit_neg_r _ (n - 4)) by lia.
    rewrite !Z.mod_pow2_bits_low by lia.
    destruct n as [|p|p]; [| |lia];
      try (do 3 (try destruct p as [p|p|]); try lia);
      simpl; rewrite ?andb_false_r; reflexivity.
  - rewrite Z.mod_pow2_bits_low by lia.
    replace (Z.testbit 15 n) with false.
    2:{ destruct n as [|p|p]; [lia| |lia].
        do 4 (try destruct p as [p|p|]); try lia; reflexivity. }
    replace (Z.testbit 4294967040 n) with false.
    2:{ destruct n as [|p|p]; [lia| |lia].
        do 4 (try destruct p as [p|p|]); try lia; reflexivity. }
    replace (Z.testbit 15 (n - 4)) with true.
    2:{ destruct n as [|p|p]; [lia| |lia].
        do 4 (try destruct p as [p|p|]); try lia; reflexivity. }
    rewrite andb_false_r. simpl. rewrite orb_false_r. reflexivity.
  - replace (Z.testbit 15 n) with false.
    2:{ destruct n as [|p|p]; [lia| |lia].
        do 6 (try destruct p as [p|p|]); try lia; reflexivity. }
    replace (Z.testbit 4294967040 n) with true.
    2:{ destruct n as [|p|p]; [lia| |lia].
        do 6 (try destruct p as [p|p|]); try lia; reflexivity. }
    replace (Z.testbit 15 (n - 4)) with false.
    2:{ destruct n as [|p|p]; [lia| |lia].
        do 6 (try destruct p as [p|p|]); try lia; reflexivity. }
    simpl. rewrite andb_true_r, !orb_false_r. reflexivity.
Qed.

Lemma fsp_memory_settings_version_closed_form cfg plat hdr :
  FSP_PLATFORM_MEMORY_SETTINGS_VERSIONS cfg = true ->
  0 <= fsp_revision hdr < 2 ^ 32 ->
  fsp_memory_settings_version cfg plat hdr =
    256 * (fsp_revision hdr / 256) +
    16 * (fsp_memory_mainboard_version plat mod 16) +
    fsp_memory_soc_version plat mod 16.
Proof.
  intros Hv Hrev.
  set (q := fsp_revision hdr / 256).
  set (mb := fsp_memory_mainboard_version plat mod 16).
  set (soc := fsp_memory_soc_version plat mod 16).
  assert (Hmb : 0 <= mb < 16) by (apply Z.mod_pos_bound; lia).
  assert (Hsoc : 0 <= soc < 16) by (apply Z.mod_pos_bound; lia).
  assert (Hlow : (256 * q + 16 * mb + soc) mod 16 = soc).
  { symmetry. apply (Z.mod_unique _ _ (16 * q + mb)); [left|]; lia. }
  assert (Hmid : (256 * q + 16 * mb + soc) / 16 = 16 * q + mb).
  { symmetry. apply (Z.div_unique _ _ _ soc); [left|]; lia. }
  assert (Hmid' : (16 * q + mb) mod 16 = mb).
  { symmetry. apply (Z.mod_unique _ _ q); [left|]; lia. }
  assert (Hhigh : (256 * q + 16 * mb + soc) / 256 = q).
  { symmetry. apply (Z.div_unique _ _ _ (16 * mb + soc)); [left|]; lia. }
  apply Z.bits_inj'. intros n Hn.
  rewrite fsp_memory_settings_version_bits by assumption.
  destruct (Z.ltb_spec n 4) as [H4|H4];
    [|destruct (Z.ltb_spec n 8) as [H8|H8]].
  - rewrite <- (Z.mod_pow2_bits_low (256 * q + 16 * mb + soc) 4 n) by lia.
    change (2 ^ 4) with 16. rewrite Hlow. unfold soc.
    change 16 with (2 ^ 4).
    rewrite Z.mod_pow2_bits_low by lia. reflexivity.
  - replace (Z.testbit (256 * q + 16 * mb + soc) n)
      with (Z.testbit ((256 * q + 16 * mb + soc) / 2 ^ 4) (n - 4)).
    2:{ rewrite Z.div_pow2_bits by lia. f_equal. lia. }
    change (2 ^ 4) with 16. rewrite Hmid.
    rewrite <- (Z.mod_pow2_bits_low (16 * q + mb) 4 (n - 4)) by lia.
    change (2 ^ 4) with 16. rewrite Hmid'. unfold mb.
    change 16 with (2 ^ 4).
    rewrite Z.mod_pow2_bits_low by lia. reflexivity.
  - replace (Z.testbit (256 * q + 16 * mb + soc) n)
      with (Z.testbit ((256 * q + 16 * mb + soc) / 2 ^ 8) (n - 8)).
    2:{ rewrite Z.div_pow2_bits by lia. f_equal. lia. }
    change (2 ^ 8) with 256. rewrite Hhigh.
    unfold q. change 256 with (2 ^ 8).
    rewrite Z.div_pow2_bits by lia.
    replace (n - 8 + 8) with n by lia.
    destruct (Z.ltb_spec n 32) as [H32|H32]; [reflexivity|].
    rewrite <- (Z.mod_small (fsp_revision hdr) (2 ^ 32)) by exact Hrev.
    rewrite Z.mod_pow2_bits_high by lia. reflexivity.
Qed.

(** C6.  The derived cache-version tag equals the module header's revision
    field when platform versioning is disabled.  With platform versioning
    enabled it follows the masking rule: bits 3..0 come from the SoC id,
    bits 7..4 from the board id and bits 31..8 from the revision, so that
    for a 32-bit revision the tag is the revision with its low byte
    replaced by [16 * (board mod 16) + SoC mod 16].  In particular revision
    0x00000005 yields 0x00000005 with versioning disabled, and 0x00000029
    with versioning enabled, board id 2 and SoC id 9. *)
Theorem fsp_memory_settings_version_masking_rule :
  forall (cfg : Config) (plat : Platform) (hdr : fsp_header),
    (FSP_PLATFORM_MEMORY_SETTINGS_VERSIONS cfg = false ->
     fsp_memory_settings_version cfg plat hdr = fsp_revision hdr) /\
    (FSP_PLATFORM_MEMORY_SETTINGS_VERSIONS cfg = true ->
     (forall n, 0 <= n ->
        Z.testbit (fsp_memory_settings_version cfg plat hdr) n =
          if n <? 4 then Z.testbit (fsp_memory_soc_version plat) n
          else if n <? 8
          then Z.testbit (fsp_memory_mainboard_version plat) (n - 4)
          else if n <? 32 then Z.testbit (fsp_revision hdr) n
          else false) /\
     (0 <= fsp_revision hdr < 2 ^ 32 ->
      fsp_memory_settings_version cfg plat hdr =
        256 * (fsp_revision hdr / 256) +
        16 * (fsp_memory_mainboard_version plat mod 16) +
        fsp_memory_soc_version plat mod 16)) /\
    (fsp_revision hdr = 0x00000005 ->
     (FSP_PLATFORM_MEMORY_SETTINGS_VERSIONS cfg = false ->
      fsp_memory_settings_version cfg plat hdr = 0x00000005) /\
     (FSP_PLATFORM_MEMORY_SETTINGS_VERSIONS cfg = true ->
      fsp_memory_mainboard_version plat = 2 ->
      fsp_memory_soc_version plat = 9 ->
      fsp_memory_settings_version cfg plat hdr = 0x00000029)).
Proof.
  intros cfg plat hdr. split; [|split].
  - intros Hv. unfold fsp_memory_settings_version. rewrite Hv. reflexivity.
  - intros Hv. split.
    + intros n Hn. apply fsp_memory_settings_version_bits; assumption.
    + apply fsp_memory_settings_version_closed_form. exact Hv.
  - intros Hrev. unfold fsp_memory_settings_version. rewrite Hrev. split.
    + intros ->. reflexivity.
    + intros -> -> ->. reflexivity.
Qed.

Lemma fsp_memory_settings_version_masking_rule_witness :
  fsp_memory_settings_version Variants.cfg_no_versioning
    (Board.plat (0, 0) 0) Board.hdr = 0x00000005 /\
  fsp_memory_settings_version Board.cfg (Board.plat (0, 0) 0) Board.hdr
    = 0x00000029 /\
  fsp_memory_settings_version Board.cfg (Board.plat (0, 0) 0)
    {| fsp_revision := 0x12345678; image_base := 0; cfg_region_offset := 0;
       memory_init_entry_offset := 0 |} =
    256 * (0x12345678 / 256) + 16 * (2 mod 16) + 9 mod 16.
Proof.
  split; [|split].
  - apply (proj1 (fsp_memory_settings_version_masking_rule
                    Variants.cfg_no_versioning (Board.plat (0, 0) 0)
                    Board.hdr)).
    reflexivity.
  - apply (proj2 (proj2 (fsp_memory_settings_version_masking_rule Board.cfg
                           (Board.plat (0, 0) 0) Board.hdr)));
      reflexivity.
  - apply (proj2 (proj1 (proj2 (fsp_memory_settings_version_masking_rule
                                  Board.cfg (Board.plat (0, 0) 0)
                                  {| fsp_revision := 0x12345678;
                                     image_base := 0;
                                     cfg_region_offset := 0;
                                     memory_init_entry_offset := 0 |}))
                    eq_refl)).
    simpl. lia.
Defined.

(** ** The cached-data pointer *)

Lemma fsp_fill_mrc_cache_spec (cfg : Config) (plat : Platform)
  (arch_upd : FSPM_ARCH_UPD) (fsp_version : Z) :
  let m := fsp_fill_mrc_cache cfg plat arch_upd fsp_version in
  (outcome m = Stop StopHlt /\
   CACHE_MRC_SETTINGS cfg = true /\ recovery_bypass cfg plat = false /\
   BOOT_DEVICE_MEMORY_MAPPED cfg = false /\ FATAL_ASSERTS cfg = true) \/
  outcome m =
    Ret (set_NvsBufferPtr arch_upd
           (if cache_usable cfg plat fsp_version
            then fst (mrc_cache_current_mmap_leak plat MRC_TRAINING_DATA
                        fsp_version)
            else NULL)).
Proof.
  unfold fsp_fill_mrc_cache, cache_usable, recovery_bypass, assert.
  destruct (mrc_cache_current_mmap_leak plat MRC_TRAINING_DATA fsp_version)
    as [data size].
  destruct (CACHE_MRC_SETTINGS cfg); [|right; reflexivity].
  destruct (vboot_recovery_mode_enabled plat),
    (HAS_RECOVERY_MRC_CACHE cfg), (get_recovery_mode_retrain_switch plat);
    simpl; try (right; reflexivity);
    destruct (BOOT_DEVICE_MEMORY_MAPPED cfg), (FATAL_ASSERTS cfg);
    try (left; repeat split; reflexivity);
    right; simpl;
    destruct (data =? NULL); try reflexivity;
    destruct (FSP2_0_USES_TPM_MRC_HASH cfg); try reflexivity;
    simpl; destruct (mrc_cache_verify_hash plat data size); reflexivity.
Qed.

Lemma fsp_fill_mrc_cache_initial_pointer (cfg : Config) (plat : Platform)
  (arch_upd : FSPM_ARCH_UPD) (fsp_version p : Z) :
  fsp_fill_mrc_cache cfg plat (set_NvsBufferPtr arch_upd p) fsp_version =
  fsp_fill_mrc_cache cfg plat arch_upd fsp_version.
Proof. reflexivity. Qed.

Lemma cache_usable_false_cases (cfg : Config) (plat : Platform) (v : Z) :
  CACHE_MRC_SETTINGS cfg = false \/
  recovery_bypass cfg plat = true \/
  fst (mrc_cache_current_mmap_leak plat MRC_TRAINING_DATA v) = NULL \/
  (FSP2_0_USES_TPM_MRC_HASH cfg = true /\
   mrc_cache_verify_hash plat
     (fst (mrc_cache_current_mmap_leak plat MRC_TRAINING_DATA v))
     (snd (mrc_cache_current_mmap_leak plat MRC_TRAINING_DATA v)) = false) ->
  cache_usable cfg plat v = false.
Proof.
  unfold cache_usable.
  destruct (mrc_cache_current_mmap_leak plat MRC_TRAINING_DATA v)
    as [data size]; simpl.
  intros H.
  destruct (CACHE_MRC_SETTINGS cfg), (recovery_bypass cfg plat),
    (data =? NULL) eqn:Hd, (FSP2_0_USES_TPM_MRC_HASH cfg),
    (mrc_cache_verify_hash plat data size);
    try reflexivity; exfalso;
    destruct H as [H|[H|[H|[H1 H2]]]]; try discriminate;
    apply Z.eqb_neq in Hd; contradiction.
Qed.

Lemma cache_usable_true (cfg : Config) (plat : Platform) (v : Z) :
  cache_usable cfg plat v = true ->
  CACHE_MRC_SETTINGS cfg = true /\
  recovery_bypass cfg plat = false /\
  fst (mrc_cache_current_mmap_leak plat MRC_TRAINING_DATA v) <> NULL /\
  (FSP2_0_USES_TPM_MRC_HASH cfg = true ->
   mrc_cache_verify_hash plat
     (fst (mrc_cache_current_mmap_leak plat MRC_TRAINING_DATA v))
     (snd (mrc_cache_current_mmap_leak plat MRC_TRAINING_DATA v)) = true).
Proof.
  unfold cache_usable.
  destruct (mrc_cache_current_mmap_leak plat MRC_TRAINING_DATA v)
    as [data size]; simpl.
  intros H. repeat (apply andb_prop in H; destruct H as [H ?]).
  repeat split.
  - exact H.
  - apply negb_true_iff; assumption.
  - apply Z.eqb_neq, negb_true_iff; assumption.
  - intros Hh. rewrite Hh in *. assumption.
Qed.

(** C9.  [fsp_fill_mrc_cache] clears the cached-data pointer first, so its
    result does not depend on the pointer it was given and touches no other
    field; whenever it returns after the cache was disabled, bypassed in
    recovery, missed, or failed hash verification, the pointer is null; and
    a non-null pointer on return is the address of a matching, verified
    cache entry. *)
Theorem fsp_fill_mrc_cache_pointer :
  forall (cfg : Config) (plat : Platform) (arch_upd : FSPM_ARCH_UPD)
         (fsp_version : Z) (arch_upd' : FSPM_ARCH_UPD),
    outcome (fsp_fill_mrc_cache cfg plat arch_upd fsp_version)
      = Ret arch_upd' ->
    let lookup :=
      mrc_cache_current_mmap_leak plat MRC_TRAINING_DATA fsp_version in
    (forall p,
        fsp_fill_mrc_cache cfg plat (set_NvsBufferPtr arch_upd p) fsp_version
        = fsp_fill_mrc_cache cfg plat arch_upd fsp_version) /\
    arch_upd' = set_NvsBufferPtr arch_upd (NvsBufferPtr arch_upd') /\
    (CACHE_MRC_SETTINGS cfg = false \/
     recovery_bypass cfg plat = true \/
     fst lookup = NULL \/
     (FSP2_0_USES_TPM_MRC_HASH cfg = true /\
      mrc_cache_verify_hash plat (fst lookup) (snd lookup) = false) ->
     NvsBufferPtr arch_upd' = NULL) /\
    (NvsBufferPtr arch_upd' <> NULL ->
     NvsBufferPtr arch_upd' = fst lookup /\
     CACHE_MRC_SETTINGS cfg = true /\
     recovery_bypass cfg plat = false /\
     (FSP2_0_USES_TPM_MRC_HASH cfg = true ->
      mrc_cache_verify_hash plat (fst lookup) (snd lookup) = true)).
Proof.
  intros cfg plat arch_upd v arch_upd' Hret lookup.
  destruct (fsp_fill_mrc_cache_spec cfg plat arch_upd v) as [[H _]|H];
    rewrite H in Hret; [discriminate|].
  injection Hret as <-.
  split; [intros p; apply fsp_fill_mrc_cache_initial_pointer|].
  split; [reflexivity|]. split.
  - intros Hc. rewrite (cache_usable_false_cases cfg plat v Hc). reflexivity.
  - destruct (cache_usable cfg plat v) eqn:Hu; simpl; [|congruence].
    intros _. split; [reflexivity|].
    destruct (cache_usable_true cfg plat v Hu) as (H1 & H2 & _ & H4).
    auto.
Qed.

Lemma fsp_fill_mrc_cache_pointer_witness :
  NvsBufferPtr
    (set_NvsBufferPtr Board.default_arch_upd 0xff000000) = 0xff000000 /\
  set_NvsBufferPtr Board.default_arch_upd 0xff000000 =
    set_NvsBufferPtr Board.default_arch_upd
      (NvsBufferPtr (set_NvsBufferPtr Board.default_arch_upd 0xff000000)).
Proof.
  split; [reflexivity|].
  apply (fsp_fill_mrc_cache_pointer Board.cfg
           (Board.plat (0xff000000, 128) 0) Board.default_arch_upd 41
           (set_NvsBufferPtr Board.default_arch_upd 0xff000000)
           eq_refl).
Defined.

(** ** The parameter builder *)

Lemma fsp_fill_common_arch_params_inv (cfg : Config) (sym : Symbols)
  (plat : Platform) (arch_upd : FSPM_ARCH_UPD) (s3wake : bool)
  (fsp_version : Z) (memmap : memranges) (arch_upd' : FSPM_ARCH_UPD) :
  outcome (fsp_fill_common_arch_params cfg sym plat arch_upd s3wake
             fsp_version memmap) = Ret (CB_SUCCESS, arch_upd') ->
  exists a1 a2,
    outcome (fsp_fill_mrc_cache cfg plat a1 fsp_version) = Ret a2 /\
    arch_upd' =
      set_BootMode a2
        (if s3wake then FSP_BOOT_ON_S3_RESUME
         else if negb (NvsBufferPtr a2 =? NULL)
         then FSP_BOOT_ASSUMING_NO_CONFIGURATION_CHANGES
         else FSP_BOOT_WITH_FULL_CONFIGURATION).
Proof.
  unfold fsp_fill_common_arch_params. intros H.
  assert (Hk : forall a1,
             outcome
               (arch <- fsp_fill_mrc_cache cfg plat a1 fsp_version ;;
                ret (CB_SUCCESS,
                     if s3wake then set_BootMode arch FSP_BOOT_ON_S3_RESUME
                     else if negb (NvsBufferPtr arch =? NULL)
                     then set_BootMode arch
                            FSP_BOOT_ASSUMING_NO_CONFIGURATION_CHANGES
                     else set_BootMode arch FSP_BOOT_WITH_FULL_CONFIGURATION))
             = Ret (CB_SUCCESS, arch_upd') ->
             exists a2,
               outcome (fsp_fill_mrc_cache cfg plat a1 fsp_version) = Ret a2 /\
               arch_upd' =
                 set_BootMode a2
                   (if s3wake then FSP_BOOT_ON_S3_RESUME
                    else if negb (NvsBufferPtr a2 =? NULL)
                    then FSP_BOOT_ASSUMING_NO_CONFIGURATION_CHANGES
                    else FSP_BOOT_WITH_FULL_CONFIGURATION)).
  { intros a1.
    destruct (fsp_fill_mrc_cache cfg plat a1 fsp_version)
      as [t [a2|s]]; simpl; [|discriminate].
    intros [= <-]. exists a2. split; [reflexivity|].
    destruct s3wake; [reflexivity|].
    destruct (NvsBufferPtr a2 =? NULL); reflexivity. }
  destruct (FSP_USES_CB_STACK cfg || negb (ENV_CACHE_AS_RAM cfg)).
  - eexists. apply Hk. exact H.
  - destruct (setup_fsp_stack_frame cfg sym arch_upd memmap) as [r a1].
    destruct r; simpl in H; [|discriminate].
    exists a1. apply Hk. exact H.
Qed.

Lemma fsp_fill_mrc_cache_outcome (cfg : Config) (plat : Platform)
  (arch_upd : FSPM_ARCH_UPD) (fsp_version : Z) :
  outcome (fsp_fill_mrc_cache cfg plat arch_upd fsp_version) =
    if CACHE_MRC_SETTINGS cfg && negb (recovery_bypass cfg plat) &&
       negb (BOOT_DEVICE_MEMORY_MAPPED cfg) && FATAL_ASSERTS cfg
    then Stop StopHlt
    else Ret (set_NvsBufferPtr arch_upd
                (if cache_usable cfg plat fsp_version
                 then fst (mrc_cache_current_mmap_leak plat MRC_TRAINING_DATA
                             fsp_version)
                 else NULL)).
Proof.
  unfold fsp_fill_mrc_cache, cache_usable, recovery_bypass, assert.
  destruct (mrc_cache_current_mmap_leak plat MRC_TRAINING_DATA fsp_version)
    as [data size].
  destruct (CACHE_MRC_SETTINGS cfg); [|reflexivity].
  destruct (vboot_recovery_mode_enabled plat),
    (HAS_RECOVERY_MRC_CACHE cfg), (get_recovery_mode_retrain_switch plat);
    simpl; try reflexivity;
    destruct (BOOT_DEVICE_MEMORY_MAPPED cfg), (FATAL_ASSERTS cfg);
    simpl; try reflexivity;
    destruct (data =? NULL); try reflexivity;
    destruct (FSP2_0_USES_TPM_MRC_HASH cfg); try reflexivity;
    simpl; destruct (mrc_cache_verify_hash plat data size); reflexivity.
Qed.

Lemma cache_usable_pointer (cfg : Config) (plat : Platform) (v : Z) :
  negb ((if cache_usable cfg plat v
         then fst (mrc_cache_current_mmap_leak plat MRC_TRAINING_DATA v)
         else NULL) =? NULL) = cache_usable cfg plat v.
Proof.
  destruct (cache_usable cfg plat v) eqn:Hu; [|reflexivity].
  destruct (cache_usable_true cfg plat v Hu) as (_ & _ & Hn & _).
  apply Z.eqb_neq in Hn. rewrite Hn. reflexivity.
Qed.

(** The result of the parameter builder, case by case. *)
Lemma fsp_fill_common_arch_params_outcome (cfg : Config) (sym : Symbols)
  (plat : Platform) (arch_upd : FSPM_ARCH_UPD) (s3wake : bool)
  (fsp_version : Z) (memmap : memranges) :
  let shared := FSP_USES_CB_STACK cfg || negb (ENV_CACHE_AS_RAM cfg) in
  let stack_end := uintptr cfg (_car_region_end sym) in
  let stack_begin := uintptr cfg (stack_end - StackSize arch_upd) in
  let stack_ok :=
    shared ||
    cb_err_eqb
      (check_region_overlap memmap "FSPM stack" stack_begin stack_end)
      CB_SUCCESS in
  let halts :=
    CACHE_MRC_SETTINGS cfg && negb (recovery_bypass cfg plat) &&
    negb (BOOT_DEVICE_MEMORY_MAPPED cfg) && FATAL_ASSERTS cfg in
  let hit := cache_usable cfg plat fsp_version in
  let a1 :=
    if shared
    then set_StackSize (set_StackBase arch_upd (temp_ram sym))
           (CONFIG_FSP_TEMP_RAM_SIZE cfg)
    else set_StackBase arch_upd stack_begin in
  let ptr :=
    if hit
    then fst (mrc_cache_current_mmap_leak plat MRC_TRAINING_DATA fsp_version)
    else NULL in
  let mode :=
    if s3wake then FSP_BOOT_ON_S3_RESUME
    else if hit then FSP_BOOT_ASSUMING_NO_CONFIGURATION_CHANGES
    else FSP_BOOT_WITH_FULL_CONFIGURATION in
  outcome (fsp_fill_common_arch_params cfg sym plat arch_upd s3wake
             fsp_version memmap) =
    if negb stack_ok then Ret (CB_ERR, arch_upd)
    else if halts then Stop StopHlt
    else Ret (CB_SUCCESS, set_BootMode (set_NvsBufferPtr a1 ptr) mode).
Proof.
  intros shared stack_end stack_begin stack_ok halts hit a1 ptr mode.
  assert (Hk : forall a,
             outcome
               (arch <- fsp_fill_mrc_cache cfg plat a fsp_version ;;
                ret (CB_SUCCESS,
                     if s3wake then set_BootMode arch FSP_BOOT_ON_S3_RESUME
                     else if negb (NvsBufferPtr arch =? NULL)
                     then set_BootMode arch
                            FSP_BOOT_ASSUMING_NO_CONFIGURATION_CHANGES
                     else set_BootMode arch FSP_BOOT_WITH_FULL_CONFIGURATION))
             = if halts then Stop StopHlt
               else Ret (CB_SUCCESS,
                         set_BootMode (set_NvsBufferPtr a ptr) mode)).
  { intros a.
    pose proof (fsp_fill_mrc_cache_outcome cfg plat a fsp_version) as Ho.
    fold halts in Ho. fold hit in Ho. fold ptr in Ho.
    destruct (fsp_fill_mrc_cache cfg plat a fsp_version) as [t [a2|s]];
      simpl in Ho; destruct halts; try discriminate; simpl.
    - injection Ho as ->. f_equal. f_equal. subst mode.
      destruct s3wake; [reflexivity|].
      simpl NvsBufferPtr. subst ptr hit.
      rewrite cache_usable_pointer.
      destruct (cache_usable cfg plat fsp_version); reflexivity.
    - injection Ho as ->. reflexivity. }
  unfold fsp_fill_common_arch_params. subst stack_ok a1. fold shared.
  destruct shared; simpl orb; simpl negb; cbv iota.
  - apply Hk.
  - unfold setup_fsp_stack_frame. fold stack_end. fold stack_begin.
    destruct (check_region_overlap memmap "FSPM stack" stack_begin stack_end);
      simpl.
    + apply Hk.
    + reflexivity.
Qed.

(** C3.  Boot-mode selection in the parameter builder is exactly
    three-way.  The builder succeeds whenever the stack step accepts and no
    fatal assertion stops the cache step, and then the mode it has set is
    the resume mode if [s3wake] is true, "assume no configuration changes"
    if [s3wake] is false and the cached-data pointer is non-null, and "full
    configuration" if [s3wake] is false and the pointer is null; the pointer
    is non-null exactly on a usable cache hit.  Whenever the builder
    succeeds, its mode is one of these three. *)
Theorem boot_mode_three_way :
  forall (cfg : Config) (sym : Symbols) (plat : Platform)
         (arch_upd : FSPM_ARCH_UPD) (s3wake : bool) (fsp_version : Z)
         (memmap : memranges),
    let shared := FSP_USES_CB_STACK cfg || negb (ENV_CACHE_AS_RAM cfg) in
    let stack_end := uintptr cfg (_car_region_end sym) in
    let stack_begin := uintptr cfg (stack_end - StackSize arch_upd) in
    let stack_ok :=
      shared ||
      cb_err_eqb
        (check_region_overlap memmap "FSPM stack" stack_begin stack_end)
        CB_SUCCESS in
    let halts :=
      CACHE_MRC_SETTINGS cfg && negb (recovery_bypass cfg plat) &&
      negb (BOOT_DEVICE_MEMORY_MAPPED cfg) && FATAL_ASSERTS cfg in
    let hit := cache_usable cfg plat fsp_version in
    let m :=
      fsp_fill_common_arch_params cfg sym plat arch_upd s3wake fsp_version
        memmap in
    (stack_ok = true -> halts = false ->
     exists arch_upd',
       outcome m = Ret (CB_SUCCESS, arch_upd') /\
       (NvsBufferPtr arch_upd' <> NULL <-> hit = true) /\
       (s3wake = true -> BootMode arch_upd' = FSP_BOOT_ON_S3_RESUME) /\
       (s3wake = false -> NvsBufferPtr arch_upd' <> NULL ->
        BootMode arch_upd' = FSP_BOOT_ASSUMING_NO_CONFIGURATION_CHANGES) /\
       (s3wake = false -> NvsBufferPtr arch_upd' = NULL ->
        BootMode arch_upd' = FSP_BOOT_WITH_FULL_CONFIGURATION)) /\
    (forall arch_upd',
        outcome m = Ret (CB_SUCCESS, arch_upd') ->
        stack_ok = true /\ halts = false /\
        (NvsBufferPtr arch_upd' <> NULL <-> hit = true) /\
        ((s3wake = true /\ BootMode arch_upd' = FSP_BOOT_ON_S3_RESUME) \/
         (s3wake = false /\ NvsBufferPtr arch_upd' <> NULL /\
          BootMode arch_upd' = FSP_BOOT_ASSUMING_NO_CONFIGURATION_CHANGES) \/
         (s3wake = false /\ NvsBufferPtr arch_upd' = NULL /\
          BootMode arch_upd' = FSP_BOOT_WITH_FULL_CONFIGURATION))).
Proof.
  intros cfg sym plat arch_upd s3wake v memmap shared stack_end stack_begin
         stack_ok halts hit m.
  pose proof (fsp_fill_common_arch_params_outcome cfg sym plat arch_upd
                s3wake v memmap) as Ho.
  cbv zeta in Ho. fold shared stack_end stack_begin in Ho.
  fold stack_ok halts hit m in Ho.
  set (ptr := if hit
              then fst (mrc_cache_current_mmap_leak plat MRC_TRAINING_DATA v)
              else NULL) in Ho.
  assert (Hptr : ptr <> NULL <-> hit = true).
  { pose proof (cache_usable_pointer cfg plat v) as Hp.
    fold hit in Hp. fold ptr in Hp. rewrite <- Hp.
    rewrite negb_true_iff, Z.eqb_neq. reflexivity. }
  split.
  - intros Hs Hh. rewrite Hs, Hh in Ho. simpl in Ho.
    eexists. split; [exact Ho|]. simpl. split; [exact Hptr|].
    split; [intros ->; reflexivity|]. split.
    + intros -> Hn. apply Hptr in Hn. rewrite Hn. reflexivity.
    + intros -> Hn. destruct hit; [|reflexivity].
      exfalso. apply (proj2 Hptr); auto.
  - intros arch_upd' Hret. rewrite Ho in Hret.
    destruct stack_ok; simpl in Hret; [|discriminate].
    destruct halts; [discriminate|].
    injection Hret as <-. simpl.
    split; [reflexivity|]. split; [reflexivity|]. split; [exact Hptr|].
    destruct s3wake; [left; split; reflexivity|right].
    destruct hit eqn:Hhit.
    + left. split; [reflexivity|]. split; [|reflexivity].
      apply Hptr. reflexivity.
    + right. split; [reflexivity|]. split; [|reflexivity].
      subst ptr. reflexivity.
Qed.

Lemma boot_mode_three_way_witness :
  (exists a,
      outcome (fsp_fill_common_arch_params Board.cfg Board.sym
                 (Board.plat (NULL, 0) 0) Board.default_arch_upd true 7
                 (memmap Board.context)) = Ret (CB_SUCCESS, a) /\
      BootMode a = FSP_BOOT_ON_S3_RESUME) /\
  (exists a,
      outcome (fsp_fill_common_arch_params Board.cfg Board.sym
                 (Board.plat (0xff000000, 128) 0) Board.default_arch_upd
                 false 7 (memmap Board.context)) = Ret (CB_SUCCESS, a) /\
      BootMode a = FSP_BOOT_ASSUMING_NO_CONFIGURATION_CHANGES) /\
  (exists a,
      outcome (fsp_fill_common_arch_params Board.cfg Board.sym
                 (Board.plat (NULL, 0) 0) Board.default_arch_upd false 7
                 (memmap Board.context)) = Ret (CB_SUCCESS, a) /\
      BootMode a = FSP_BOOT_WITH_FULL_CONFIGURATION).
Proof.
  split; [|split].
  - destruct (proj1 (boot_mode_three_way Board.cfg Board.sym
                       (Board.plat (NULL, 0) 0) Board.default_arch_upd true
                       7 (memmap Board.context)) eq_refl eq_refl)
      as (a & Ho & _ & Hm & _).
    exists a. split; [exact Ho|]. apply Hm. reflexivity.
  - destruct (proj1 (boot_mode_three_way Board.cfg Board.sym
                       (Board.plat (0xff000000, 128) 0)
                       Board.default_arch_upd false 7
                       (memmap Board.context)) eq_refl eq_refl)
      as (a & Ho & Hp & _ & Hm & _).
    exists a. split; [exact Ho|]. apply Hm; [reflexivity|].
    apply Hp. reflexivity.
  - destruct (proj1 (boot_mode_three_way Board.cfg Board.sym
                       (Board.plat (NULL, 0) 0) Board.default_arch_upd false
                       7 (memmap Board.context)) eq_refl eq_refl)
      as (a & Ho & Hp & _ & _ & Hm).
    exists a. split; [exact Ho|]. apply Hm; [reflexivity|].
    destruct (Z.eq_dec (NvsBufferPtr a) NULL) as [E|E]; [exact E|].
    apply Hp in E. discriminate E.
Defined.

(** C8.  In recovery mode without recovery-cache support, or with the
    retrain switch set, [fsp_fill_mrc_cache] returns with the cached-data
    pointer null and without consulting the cache; the decision precedes
    boot-mode selection, so a cold boot then selects full configuration.
    With integrity binding enabled, a payload that fails hash verification
    leaves the same result as a cache miss: the pointer stays null. *)
Theorem recovery_bypass_and_hash_failure :
  forall (cfg : Config) (sym : Symbols) (plat : Platform)
         (arch_upd : FSPM_ARCH_UPD) (s3wake : bool) (fsp_version : Z)
         (memmap : memranges),
    let lookup :=
      mrc_cache_current_mmap_leak plat MRC_TRAINING_DATA fsp_version in
    (vboot_recovery_mode_enabled plat = true ->
     HAS_RECOVERY_MRC_CACHE cfg = false \/
     get_recovery_mode_retrain_switch plat = true ->
     fsp_fill_mrc_cache cfg plat arch_upd fsp_version =
       ([], Ret (set_NvsBufferPtr arch_upd NULL)) /\
     forall arch_upd',
       outcome (fsp_fill_common_arch_params cfg sym plat arch_upd s3wake
                  fsp_version memmap) = Ret (CB_SUCCESS, arch_upd') ->
       NvsBufferPtr arch_upd' = NULL /\
       BootMode arch_upd' =
         (if s3wake then FSP_BOOT_ON_S3_RESUME
          else FSP_BOOT_WITH_FULL_CONFIGURATION)) /\
    (FSP2_0_USES_TPM_MRC_HASH cfg = true ->
     mrc_cache_verify_hash plat (fst lookup) (snd lookup) = false ->
     outcome (fsp_fill_mrc_cache cfg plat arch_upd fsp_version) =
       outcome (fsp_fill_mrc_cache cfg (with_cache_lookup plat cache_miss)
                  arch_upd fsp_version) /\
     forall arch_upd',
       outcome (fsp_fill_mrc_cache cfg plat arch_upd fsp_version)
         = Ret arch_upd' ->
       NvsBufferPtr arch_upd' = NULL).
Proof.
  intros cfg sym plat arch_upd s3wake v memmap lookup. split.
  - intros Hrec Hby.
    assert (Hfill : forall a,
               fsp_fill_mrc_cache cfg plat a v =
                 ([], Ret (set_NvsBufferPtr a NULL))).
    { intros a. unfold fsp_fill_mrc_cache. rewrite Hrec.
      destruct (CACHE_MRC_SETTINGS cfg); [|reflexivity]. simpl.
      destruct Hby as [-> | ->]; [reflexivity|].
      destruct (HAS_RECOVERY_MRC_CACHE cfg); reflexivity. }
    split; [apply Hfill|].
    intros arch_upd' H.
    destruct (fsp_fill_common_arch_params_inv _ _ _ _ _ _ _ _ H)
      as (a1 & a2 & Ha & ->).
    rewrite Hfill in Ha. injection Ha as <-.
    destruct s3wake; split; reflexivity.
  - intros Hhash Hver. split.
    + unfold fsp_fill_mrc_cache, with_cache_lookup, cache_miss; simpl.
      subst lookup. rewrite Hhash.
      destruct (mrc_cache_current_mmap_leak plat MRC_TRAINING_DATA v)
        as [data size]. simpl in Hver.
      destruct (CACHE_MRC_SETTINGS cfg); [|reflexivity].
      destruct (vboot_recovery_mode_enabled plat),
        (HAS_RECOVERY_MRC_CACHE cfg),
        (get_recovery_mode_retrain_switch plat); simpl; try reflexivity;
        unfold assert;
        destruct (BOOT_DEVICE_MEMORY_MAPPED cfg), (FATAL_ASSERTS cfg);
        simpl; try reflexivity;
        destruct (data =? NULL); try reflexivity;
        simpl; rewrite Hver; reflexivity.
    + intros arch_upd' H.
      destruct (fsp_fill_mrc_cache_spec cfg plat arch_upd v) as [[H' _]|H'];
        rewrite H' in H; [discriminate|].
      injection H as <-.
      rewrite cache_usable_false_cases; [reflexivity|].
      right. right. right. split; assumption.
Qed.

Lemma recovery_bypass_and_hash_failure_witness :
  fsp_fill_mrc_cache Board.cfg
    (Board.platform true false true (0xff000000, 128)
       (FSP_SUCCESS, Board.hobs) 0x7f000000)
    Board.default_arch_upd 41 =
    ([], Ret (set_NvsBufferPtr Board.default_arch_upd NULL)) /\
  outcome
    (fsp_fill_mrc_cache (Board.cfg_with true true)
       (Board.platform false false false (0xff000000, 128)
          (FSP_SUCCESS, Board.hobs) 0x7f000000)
       Board.default_arch_upd 41) =
  outcome
    (fsp_fill_mrc_cache (Board.cfg_with true true)
       (with_cache_lookup
          (Board.platform false false false (0xff000000, 128)
             (FSP_SUCCESS, Board.hobs) 0x7f000000)
          cache_miss)
       Board.default_arch_upd 41).
Proof.
  split.
  - apply (proj1 (recovery_bypass_and_hash_failure Board.cfg Board.sym
                    (Board.platform true false true (0xff000000, 128)
                       (FSP_SUCCESS, Board.hobs) 0x7f000000)
                    Board.default_arch_upd false 41 [])).
    + reflexivity.
    + left. reflexivity.
  - apply (proj2 (recovery_bypass_and_hash_failure (Board.cfg_with true true)
                    Board.sym
                    (Board.platform false false false (0xff000000, 128)
                       (FSP_SUCCESS, Board.hobs) 0x7f000000)
                    Board.default_arch_upd false 41 [])); reflexivity.
Defined.

(** ** The flow around the module call *)

Lemma filter_nil_weaken (p q : event -> bool) (t : list event) :
  (forall e, p e = true -> q e = true) ->
  filter q t = [] -> filter p t = [].
Proof.
  intros Hpq. induction t as [|e t IH]; simpl; [reflexivity|].
  destruct (q e) eqn:Hq; [discriminate|].
  destruct (p e) eqn:Hp; [rewrite (Hpq e Hp) in Hq; discriminate|].
  exact IH.
Qed.

Lemma filter_nil_not_In (p : event -> bool) (t : list event) (e : event) :
  filter p t = [] -> p e = true -> ~ In e t.
Proof.
  intros Hf Hp Hin.
  assert (H : In e (filter p t)) by (apply filter_In; auto).
  rewrite Hf in H. exact H.
Qed.

Section Splitting.

Variable entry : Z.
Variable Q : FSPM_UPD -> Prop.
Variable tail : FSPM_UPD -> M unit.

Lemma splits_prefix {A} (t : list event) (a : A) (f : A -> M unit) :
  filter from_module_call_on t = [] ->
  splits_at_module_call entry Q tail (f a) ->
  splits_at_module_call entry Q tail (bind (t, Ret a) f).
Proof.
  intros Ht [[Hfree [s Hs]]|(pre & upd & Hpre & HQ & Hm)]; rewrite bind_eta.
  - left. split; [|exists s; exact Hs].
    unfold free_of in *. simpl. rewrite filter_app, Ht, Hfree. reflexivity.
  - right. exists (t ++ pre), upd. split; [|split; [exact HQ|]].
    + rewrite filter_app, Ht, Hpre. reflexivity.
    + rewrite Hm. simpl. rewrite <- app_assoc. reflexivity.
Qed.

Lemma splits_emit (e : event) (f : unit -> M unit) :
  from_module_call_on e = false ->
  splits_at_module_call entry Q tail (f tt) ->
  splits_at_module_call entry Q tail (bind (emit e) f).
Proof.
  intros He. apply (splits_prefix [e] tt f). simpl. rewrite He. reflexivity.
Qed.

Lemma splits_stop (t : list event) (s : stop) :
  filter from_module_call_on t = [] ->
  splits_at_module_call entry Q tail (t, Stop s).
Proof. intros Ht. left. split; [exact Ht|exists s; reflexivity]. Qed.

Lemma splits_call (upd : FSPM_UPD) :
  Q upd ->
  splits_at_module_call entry Q tail
    (bind (emit (EvFspMemoryInit entry upd)) (fun _ => tail upd)).
Proof.
  intros HQ. right. exists [], upd. rewrite bind_emit.
  split; [reflexivity|]. split; [exact HQ|reflexivity].
Qed.

End Splitting.

Lemma fsp_fill_mrc_cache_before_call cfg plat a v :
  free_of from_module_call_on (fsp_fill_mrc_cache cfg plat a v).
Proof.
  unfold fsp_fill_mrc_cache, assert.
  destruct (mrc_cache_current_mmap_leak plat MRC_TRAINING_DATA v) as [d sz].
  destruct (CACHE_MRC_SETTINGS cfg), (vboot_recovery_mode_enabled plat),
    (HAS_RECOVERY_MRC_CACHE cfg), (get_recovery_mode_retrain_switch plat),
    (BOOT_DEVICE_MEMORY_MAPPED cfg), (FATAL_ASSERTS cfg), (d =? NULL),
    (FSP2_0_USES_TPM_MRC_HASH cfg), (mrc_cache_verify_hash plat d sz);
    reflexivity.
Qed.

Lemma fsp_fill_common_arch_params_before_call cfg sym plat a s3 v mm :
  free_of from_module_call_on
    (fsp_fill_common_arch_params cfg sym plat a s3 v mm).
Proof.
  unfold fsp_fill_common_arch_params.
  destruct (FSP_USES_CB_STACK cfg || negb (ENV_CACHE_AS_RAM cfg)).
  - apply free_of_bind; [apply fsp_fill_mrc_cache_before_call|].
    intros; apply free_of_ret.
  - destruct (setup_fsp_stack_frame cfg sym a mm) as [r a1].
    destruct r; simpl; [|apply free_of_ret].
    apply free_of_bind; [apply fsp_fill_mrc_cache_before_call|].
    intros; apply free_of_ret.
Qed.

Lemma do_fsp_memory_init_splits cfg sym plat context s3wake :
  let hdr := header context in
  let v := fsp_memory_settings_version cfg plat hdr in
  let entry := uintptr cfg (image_base hdr + memory_init_entry_offset hdr) in
  splits_at_module_call entry
    (fun upd => s3wake = true -> NvsBufferPtr (FspmArchUpd upd) <> NULL)
    (module_tail cfg plat s3wake v entry)
    (do_fsp_memory_init cfg sym plat context s3wake).
Proof.
  intros hdr v entry. unfold do_fsp_memory_init.
  fold hdr. fold v. fold entry.
  apply splits_emit; [reflexivity|].
  match goal with |- context [negb (Signature ?u =? _)] => set (upd := u) end.
  destruct (negb (Signature upd =? FSPM_UPD_SIGNATURE cfg)).
  { apply splits_stop. reflexivity. }
  rewrite bind_ret_nil.
  match goal with
  | |- context [fsp_fill_common_arch_params cfg sym plat ?a s3wake v ?mm] =>
      pose proof (fsp_fill_common_arch_params_before_call cfg sym plat a
                    s3wake v mm) as Hfree;
      destruct (fsp_fill_common_arch_params cfg sym plat a s3wake v mm)
        as [t [[r a']|s]]
  end.
  2:{ apply splits_stop. exact Hfree. }
  apply splits_prefix; [exact Hfree|]. simpl fst. simpl snd.
  destruct r; simpl negb; cbv iota.
  2:{ apply splits_stop. reflexivity. }
  rewrite bind_ret_nil.
  apply splits_emit; [reflexivity|].
  set (upd1 := platform_fsp_memory_init_params_cb plat
                 (set_FspmArchUpd upd a') v).
  destruct (s3wake && (NvsBufferPtr (FspmArchUpd upd1) =? NULL)) eqn:Hreset.
  { apply splits_stop. reflexivity. }
  rewrite bind_ret_nil.
  assert (Hnv : s3wake = true -> NvsBufferPtr (FspmArchUpd upd1) <> NULL).
  { intros ->. simpl in Hreset. apply Z.eqb_neq. exact Hreset. }
  destruct (MMA cfg).
  - match goal with
    | |- context [set_FspmConfig ?u ?c] =>
        apply (splits_prefix entry _ _ [EvSetupMma] (set_FspmConfig u c));
        [reflexivity|]
    end.
    do 4 (apply splits_emit; [reflexivity|]).
    apply (splits_call entry _ (module_tail cfg plat s3wake v entry)).
    exact Hnv.
  - rewrite bind_ret_nil.
    do 4 (apply splits_emit; [reflexivity|]).
    apply (splits_call entry _ (module_tail cfg plat s3wake v entry)).
    exact Hnv.
Qed.

Ltac free_step :=
  match goal with
  | |- free_of _ (bind _ _) => apply free_of_bind; [|intros]
  | |- free_of _ (ret _) => apply free_of_ret
  | |- free_of _ (if ?c then _ else _) => destruct c
  | |- free_of _ (let '(_, _) := ?x in _) => destruct x
  | |- free_of _ _ => reflexivity
  end.

Lemma after_module_call_no_module_call cfg plat status hobs s3wake v :
  free_of is_module_call (after_module_call cfg plat status hobs s3wake v).
Proof.
  unfold after_module_call, fsp_handle_reset, do_fsp_post_memory_init,
    save_memory_training_data.
  repeat free_step.
Qed.

Lemma after_module_call_resume_no_cache_write cfg plat status hobs v :
  free_of is_cache_write (after_module_call cfg plat status hobs true v).
Proof.
  unfold after_module_call, fsp_handle_reset, do_fsp_post_memory_init,
    save_memory_training_data.
  rewrite orb_true_r. simpl negb. cbv iota.
  repeat free_step.
Qed.

Lemma module_call_on_is_module_call e :
  is_module_call e = true -> from_module_call_on e = true.
Proof. destruct e; simpl; congruence. Qed.

Lemma module_call_on_is_cache_write e :
  is_cache_write e = true -> from_module_call_on e = true.
Proof. destruct e; simpl; congruence. Qed.

Lemma module_call_on_is_post_init e :
  is_post_init e = true -> from_module_call_on e = true.
Proof. destruct e; simpl; congruence. Qed.

Lemma module_call_on_is_stash e :
  is_stash e = true -> from_module_call_on e = true.
Proof. destruct e; simpl; congruence. Qed.

(** The one call into the module, and the shape of the trace around it. *)
Lemma do_fsp_memory_init_module_call cfg sym plat context s3wake
  entry upd status hobs :
  let m := do_fsp_memory_init cfg sym plat context s3wake in
  let v := fsp_memory_settings_version cfg plat (header context) in
  In (EvFspMemoryInit entry upd) (trace m) ->
  fsp_raminit plat entry upd = (status, hobs) ->
  exists pre,
    filter from_module_call_on pre = [] /\
    (s3wake = true -> NvsBufferPtr (FspmArchUpd upd) <> NULL) /\
    m = (pre ++ EvFspMemoryInit entry upd ::
           trace (after_module_call cfg plat status hobs s3wake v),
         outcome (after_module_call cfg plat status hobs s3wake v)).
Proof.
  intros m v Hin Hcall. subst m.
  destruct (do_fsp_memory_init_splits cfg sym plat context s3wake)
    as [[Hfree _]|(pre & upd0 & Hpre & HQ & Hm)].
  - exfalso. revert Hin. apply (filter_nil_not_In from_module_call_on).
    + exact Hfree.
    + reflexivity.
  - fold v in Hm. rewrite Hm in Hin |- *. simpl trace in Hin.
    set (entry0 := uintptr cfg _) in *.
    assert (Htail : ~ In (EvFspMemoryInit entry upd)
                      (trace (module_tail cfg plat s3wake v entry0 upd0))).
    { apply (filter_nil_not_In is_module_call); [|reflexivity].
      unfold module_tail. destruct (fsp_raminit plat entry0 upd0).
      apply after_module_call_no_module_call. }
    apply in_app_or in Hin. destruct Hin as [Hin|[Heq|Hin]].
    + exfalso. revert Hin.
      apply (filter_nil_not_In from_module_call_on); [exact Hpre|reflexivity].
    + injection Heq as -> ->. exists pre.
      split; [exact Hpre|]. split; [exact HQ|].
      unfold module_tail. rewrite Hcall. reflexivity.
    + contradiction.
Qed.

Lemma count_events_app p (t1 t2 : list event) :
  count_events p (t1 ++ t2) = (count_events p t1 + count_events p t2)%nat.
Proof. unfold count_events. rewrite filter_app, length_app. reflexivity. Qed.

Lemma count_events_free p (t : list event) :
  filter p t = [] -> count_events p t = 0%nat.
Proof. unfold count_events. intros ->. reflexivity. Qed.

(** C2.  On a resume boot the module is never entered with a null
    cached-data pointer; and when the pointer is null after the parameter
    builder and the platform callback have run, the flow issues a full reset
    right after the callback and stops there, without any call into the
    module. *)
Theorem resume_without_cache_resets_before_module :
  forall (cfg : Config) (sym : Symbols) (plat : Platform)
         (context : fspm_context),
    let hdr := header context in
    let v := fsp_memory_settings_version cfg plat hdr in
    let upd :=
      upd_region plat (uintptr cfg (cfg_region_offset hdr + image_base hdr)) in
    let m := do_fsp_memory_init cfg sym plat context true in
    (forall entry upd',
        In (EvFspMemoryInit entry upd') (trace m) ->
        NvsBufferPtr (FspmArchUpd upd') <> NULL) /\
    (forall t arch_upd',
        Signature upd = FSPM_UPD_SIGNATURE cfg ->
        fsp_fill_common_arch_params cfg sym plat
          (set_BootLoaderTolumSize (FspmArchUpd upd) (cbmem_overhead_size plat))
          true v (memmap context) = (t, Ret (CB_SUCCESS, arch_upd')) ->
        NvsBufferPtr
          (FspmArchUpd
             (platform_fsp_memory_init_params_cb plat
                (set_FspmArchUpd upd arch_upd') v)) = NULL ->
        m = (EvPostCode POST_MEM_PREINIT_PREP_START ::
               t ++ [EvPlatformCb v; EvFullReset],
             Stop StopFullReset) /\
        count_events is_module_call (trace m) = 0%nat).
Proof.
  intros cfg sym plat context hdr v upd m. split.
  - intros entry upd' Hin.
    destruct (fsp_raminit plat entry upd') as [status hobs] eqn:Hcall.
    destruct (do_fsp_memory_init_module_call cfg sym plat context true
                entry upd' status hobs Hin Hcall) as (pre & _ & HQ & _).
    apply HQ. reflexivity.
  - intros t arch_upd' Hsig Hfill Hnull.
    assert (Hm : m = (EvPostCode POST_MEM_PREINIT_PREP_START ::
                        t ++ [EvPlatformCb v; EvFullReset],
                      Stop StopFullReset)).
    { subst m. unfold do_fsp_memory_init.
      fold hdr. fold v. fold upd.
      unfold post_code at 1. rewrite bind_emit.
      rewrite Hsig, Z.eqb_refl. simpl negb. cbv iota.
      rewrite bind_ret_nil, Hfill, bind_eta. simpl fst. simpl snd.
      simpl negb. cbv iota.
      rewrite bind_ret_nil, bind_emit, Hnull. reflexivity. }
    split; [exact Hm|].
    rewrite Hm. simpl trace.
    pose proof (fsp_fill_common_arch_params_before_call cfg sym plat
                  (set_BootLoaderTolumSize (FspmArchUpd upd)
                     (cbmem_overhead_size plat))
                  true v (memmap context)) as Hfree.
    rewrite Hfill in Hfree. unfold free_of in Hfree. simpl in Hfree.
    change (EvPostCode POST_MEM_PREINIT_PREP_START ::
              t ++ [EvPlatformCb v; EvFullReset])
      with ([EvPostCode POST_MEM_PREINIT_PREP_START] ++
              t ++ [EvPlatformCb v; EvFullReset]).
    rewrite !count_events_app.
    rewrite (count_events_free is_module_call t).
    + reflexivity.
    + apply (filter_nil_weaken _ from_module_call_on);
        [exact module_call_on_is_module_call|exact Hfree].
Qed.

Lemma resume_without_cache_resets_before_module_witness :
  do_fsp_memory_init Board.cfg Board.sym (Board.plat (NULL, 0) 0)
    Board.context true =
    ([EvPostCode POST_MEM_PREINIT_PREP_START;
      EvMrcCacheLookup MRC_TRAINING_DATA 41;
      EvPlatformCb 41; EvFullReset],
     Stop StopFullReset).
Proof.
  apply (proj2 (resume_without_cache_resets_before_module Board.cfg Board.sym
                  (Board.plat (NULL, 0) 0) Board.context)
           [EvMrcCacheLookup MRC_TRAINING_DATA 41]
           (set_BootMode
              (set_StackBase
                 (set_BootLoaderTolumSize Board.default_arch_upd 0x1000)
                 0x1C000)
              FSP_BOOT_ON_S3_RESUME));
    reflexivity.
Defined.

(** C5.  On a resume boot neither [mrc_cache_stash_data] nor
    [mrc_cache_update_hash] is ever called, whatever the module returns and
    however the flow ends. *)
Theorem resume_never_writes_cache :
  forall (cfg : Config) (sym : Symbols) (plat : Platform)
         (hdr0 : fsp_header) (context : fspm_context),
    count_events is_stash
      (trace (fsp_memory_init cfg sym plat hdr0 true)) = 0%nat /\
    filter is_cache_write
      (trace (fsp_memory_init cfg sym plat hdr0 true)) = [] /\
    filter is_cache_write
      (trace (do_fsp_memory_init cfg sym plat context true)) = [].
Proof.
  intros cfg sym plat hdr0 context.
  assert (Hdo : forall ctx,
             free_of is_cache_write
               (do_fsp_memory_init cfg sym plat ctx true)).
  { intros ctx. unfold free_of.
    destruct (do_fsp_memory_init_splits cfg sym plat ctx true)
      as [[Hfree _]|(pre & upd & Hpre & _ & Hm)].
    - apply (filter_nil_weaken _ from_module_call_on);
        [exact module_call_on_is_cache_write|exact Hfree].
    - rewrite Hm. simpl trace. rewrite filter_app.
      rewrite (filter_nil_weaken _ from_module_call_on pre
                 module_call_on_is_cache_write Hpre).
      simpl. unfold module_tail.
      destruct (fsp_raminit plat _ upd) as [status hobs].
      apply after_module_call_resume_no_cache_write. }
  assert (Hall : free_of is_cache_write
                   (fsp_memory_init cfg sym plat hdr0 true)).
  { unfold fsp_memory_init.
    apply free_of_bind; [reflexivity|]. intros _.
    destruct (fsp_load_component cfg plat _) as [r ctx].
    apply free_of_bind; [destruct r; reflexivity|]. intros _.
    apply free_of_bind; [reflexivity|]. intros _.
    apply free_of_bind; [apply Hdo|]. intros _. reflexivity. }
  split; [|split; [exact Hall|apply Hdo]].
  apply count_events_free.
  apply (filter_nil_weaken _ is_cache_write); [|exact Hall].
  intros e; destruct e; simpl; congruence.
Qed.

Lemma after_module_call_reset_requested cfg plat status hobs s3wake v :
  fsp_reset_requested plat status = true ->
  after_module_call cfg plat status hobs s3wake v =
    ([EvPostCode POST_FSP_MEMORY_EXIT; EvTimestamp TS_FSP_MEMORY_INIT_END;
      EvFspHandleReset status; EvFullReset],
     Stop StopFullReset).
Proof.
  intros H. unfold after_module_call, fsp_handle_reset. rewrite H.
  reflexivity.
Qed.

Lemma after_module_call_failure cfg plat status hobs s3wake v :
  fsp_reset_requested plat status = false ->
  status <> FSP_SUCCESS ->
  after_module_call cfg plat status hobs s3wake v =
    ([EvPostCode POST_FSP_MEMORY_EXIT; EvTimestamp TS_FSP_MEMORY_INIT_END;
      EvFspHandleReset status; EvPostCode POST_RAM_FAILURE; EvDie],
     Stop (StopDie (Some POST_RAM_FAILURE))).
Proof.
  intros H Hs. unfold after_module_call, fsp_handle_reset. rewrite H.
  apply Z.eqb_neq in Hs. rewrite Hs. reflexivity.
Qed.

Lemma after_module_call_success cfg plat hobs s3wake v :
  fsp_reset_requested plat FSP_SUCCESS = false ->
  after_module_call cfg plat FSP_SUCCESS hobs s3wake v =
    ([EvPostCode POST_FSP_MEMORY_EXIT; EvTimestamp TS_FSP_MEMORY_INIT_END;
      EvFspHandleReset FSP_SUCCESS] ++
       trace (do_fsp_post_memory_init cfg plat hobs s3wake v ;;
              emit (EvDebugAfterMemoryInit FSP_SUCCESS)),
     outcome (do_fsp_post_memory_init cfg plat hobs s3wake v ;;
              emit (EvDebugAfterMemoryInit FSP_SUCCESS))).
Proof.
  intros H. unfold after_module_call, fsp_handle_reset. rewrite H.
  change (FSP_SUCCESS =? FSP_SUCCESS) with true. simpl negb. cbv iota.
  unfold post_code, timestamp_add_now.
  rewrite !bind_emit. cbn [trace outcome fst snd ret].
  rewrite bind_eta, bind_ret_nil. reflexivity.
Qed.

Lemma save_memory_training_data_cold cfg hobs v :
  save_memory_training_data cfg hobs false v =
    (if CACHE_MRC_SETTINGS cfg &&
        negb (fst (hob_nv_storage_data hobs) =? NULL)
     then EvMrcCacheStash MRC_TRAINING_DATA v
            (fst (hob_nv_storage_data hobs)) (snd (hob_nv_storage_data hobs))
          :: (if FSP2_0_USES_TPM_MRC_HASH cfg
              then [EvMrcCacheUpdateHash (fst (hob_nv_storage_data hobs))
                      (snd (hob_nv_storage_data hobs))]
              else [])
     else [],
     Ret tt).
Proof.
  unfold save_memory_training_data.
  destruct (hob_nv_storage_data hobs) as [data size]; simpl.
  destruct (CACHE_MRC_SETTINGS cfg); simpl; [|reflexivity].
  destruct (data =? NULL); simpl; [reflexivity|].
  destruct (FSP2_0_USES_TPM_MRC_HASH cfg); reflexivity.
Qed.

Lemma do_fsp_post_memory_init_cold cfg plat hobs v :
  do_fsp_post_memory_init cfg plat hobs false v =
    if range_entry_base (hob_reserved_memory hobs) =?
       cbmem_find plat CBMEM_ID_FSP_RESERVED_MEMORY
    then
      (EvCbmemInitializeEmpty CBMEM_ID_FSP_RESERVED_MEMORY
         (range_entry_size (hob_reserved_memory hobs))
       :: trace (save_memory_training_data cfg hobs false v) ++
          [EvRomstageHandoffInit false],
       Ret tt)
    else
      ([EvCbmemInitializeEmpty CBMEM_ID_FSP_RESERVED_MEMORY
          (range_entry_size (hob_reserved_memory hobs)); EvDie],
       Stop (StopDie None)).
Proof.
  unfold do_fsp_post_memory_init. simpl negb. cbv iota.
  rewrite bind_emit.
  destruct (range_entry_base (hob_reserved_memory hobs) =?
            cbmem_find plat CBMEM_ID_FSP_RESERVED_MEMORY).
  - simpl negb. cbv iota. rewrite bind_ret_nil.
    rewrite save_memory_training_data_cold. rewrite bind_eta.
    reflexivity.
  - reflexivity.
Qed.

(** C4, as stated, fails: three cold boots on the example board whose
    module call returns success and which make no cache-store call.  In the
    first, training-data caching is not built in; in the second, the module
    left no training-data blob; in the third, cbmem and the module disagree
    about the reserved region and the flow dies before the store. *)
Lemma successful_cold_boot_without_store :
  let no_cache :=
    fsp_memory_init (Board.cfg_with false false) Board.sym
      (Board.plat (NULL, 0) FSP_SUCCESS) Board.hdr false in
  let no_blob :=
    fsp_memory_init Board.cfg Board.sym
      (Board.platform false false true (NULL, 0)
         (FSP_SUCCESS, Board.hobs_without_training_data) 0x7f000000)
      Board.hdr false in
  let mismatch :=
    fsp_memory_init Board.cfg Board.sym
      (Board.platform false false true (NULL, 0)
         (FSP_SUCCESS, Board.hobs) 0x7e000000)
      Board.hdr false in
  (count_events is_module_call (trace no_cache) = 1%nat /\
   count_events is_stash (trace no_cache) = 0%nat /\
   outcome no_cache = Ret tt) /\
  (count_events is_module_call (trace no_blob) = 1%nat /\
   count_events is_stash (trace no_blob) = 0%nat /\
   outcome no_blob = Ret tt) /\
  (count_events is_module_call (trace mismatch) = 1%nat /\
   count_events is_stash (trace mismatch) = 0%nat /\
   outcome mismatch = Stop (StopDie None)).
Proof. vm_compute. repeat split. Qed.

(** C4 (amended).  On a cold boot whose module call returns success
    without a reset request, and on which cbmem holds the module's reserved
    region at the module's base, the flow completes and calls
    [mrc_cache_stash_data] exactly once, with kind [MRC_TRAINING_DATA], the
    derived version and the module's training-data blob, whatever the cache
    already holds, provided training-data caching is built in and the
    module left a training-data blob; otherwise no store is made.  When
    cbmem and the module disagree, the flow dies without a store. *)
Theorem cold_boot_success_stores_once :
  forall (cfg : Config) (sym : Symbols) (plat : Platform)
         (context : fspm_context) (entry : Z) (upd : FSPM_UPD)
         (hobs : hob_list),
    let m := do_fsp_memory_init cfg sym plat context false in
    let v := fsp_memory_settings_version cfg plat (header context) in
    let blob := hob_nv_storage_data hobs in
    In (EvFspMemoryInit entry upd) (trace m) ->
    fsp_raminit plat entry upd = (FSP_SUCCESS, hobs) ->
    fsp_reset_requested plat FSP_SUCCESS = false ->
    (range_entry_base (hob_reserved_memory hobs) =
       cbmem_find plat CBMEM_ID_FSP_RESERVED_MEMORY ->
     outcome m = Ret tt /\
     filter is_stash (trace m) =
       if CACHE_MRC_SETTINGS cfg && negb (fst blob =? NULL)
       then [EvMrcCacheStash MRC_TRAINING_DATA v (fst blob) (snd blob)]
       else []) /\
    (range_entry_base (hob_reserved_memory hobs) <>
       cbmem_find plat CBMEM_ID_FSP_RESERVED_MEMORY ->
     outcome m = Stop (StopDie None) /\
     filter is_stash (trace m) = []).
Proof.
  intros cfg sym plat context entry upd hobs m v blob Hin Hcall Hreq.
  destruct (do_fsp_memory_init_module_call cfg sym plat context false
              entry upd FSP_SUCCESS hobs Hin Hcall)
    as (pre & Hpre & _ & Hm).
  fold m in Hm. fold v in Hm.
  rewrite (after_module_call_success cfg plat hobs false v Hreq) in Hm.
  rewrite do_fsp_post_memory_init_cold in Hm.
  assert (Hpre' : filter is_stash pre = []).
  { apply (filter_nil_weaken _ from_module_call_on);
      [exact module_call_on_is_stash|exact Hpre]. }
  split; intros Hbase.
  - apply Z.eqb_eq in Hbase. rewrite Hbase in Hm.
    rewrite save_memory_training_data_cold in Hm.
    rewrite bind_eta in Hm. rewrite Hm. split; [reflexivity|].
    simpl trace. rewrite filter_app, Hpre'. fold blob.
    destruct (CACHE_MRC_SETTINGS cfg && negb (fst blob =? NULL));
      [|reflexivity].
    destruct (FSP2_0_USES_TPM_MRC_HASH cfg); reflexivity.
  - apply Z.eqb_neq in Hbase. rewrite Hbase in Hm.
    rewrite bind_stop in Hm. rewrite Hm. split; [reflexivity|].
    simpl trace. rewrite filter_app, Hpre'. reflexivity.
Qed.

Lemma cold_boot_success_stores_once_witness :
  outcome (do_fsp_memory_init Board.cfg Board.sym
             (Board.plat (0x7000000, 128) FSP_SUCCESS) Board.context false)
    = Ret tt /\
  filter is_stash
    (trace (do_fsp_memory_init Board.cfg Board.sym
              (Board.plat (0x7000000, 128) FSP_SUCCESS) Board.context false))
    = [EvMrcCacheStash MRC_TRAINING_DATA 41 0x7000000 128].
Proof.
  refine (proj1 (cold_boot_success_stores_once Board.cfg Board.sym
                   (Board.plat (0x7000000, 128) FSP_SUCCESS) Board.context
                   0x18200
                   (set_FspmArchUpd Board.default_upd
                      (set_BootMode
                         (set_NvsBufferPtr
                            (set_StackBase
                               (set_BootLoaderTolumSize
                                  Board.default_arch_upd 0x1000)
                               0x1C000)
                            0x7000000)
                         FSP_BOOT_ASSUMING_NO_CONFIGURATION_CHANGES))
                   Board.hobs _ eq_refl eq_refl) eq_refl).
  vm_compute. do 7 right. left. reflexivity.
Defined.

(** C7.  Once the module has returned, the next call of the flow besides
    the exit post code and timestamp is [fsp_handle_reset] with the status:
    if a reset is requested the flow resets there, whatever the status
    says; only otherwise is the status compared with [FSP_SUCCESS], and
    every other status makes the flow die with post code
    [POST_RAM_FAILURE], no step of the post-init reconciliation having
    run. *)
Theorem module_status_handling :
  forall (cfg : Config) (sym : Symbols) (plat : Platform)
         (context : fspm_context) (s3wake : bool) (entry : Z)
         (upd : FSPM_UPD) (status : Z) (hobs : hob_list),
    let m := do_fsp_memory_init cfg sym plat context s3wake in
    In (EvFspMemoryInit entry upd) (trace m) ->
    fsp_raminit plat entry upd = (status, hobs) ->
    exists pre post,
      trace m =
        pre ++
        [EvFspMemoryInit entry upd; EvPostCode POST_FSP_MEMORY_EXIT;
         EvTimestamp TS_FSP_MEMORY_INIT_END; EvFspHandleReset status] ++
        post /\
      filter from_module_call_on pre = [] /\
      (fsp_reset_requested plat status = true ->
       post = [EvFullReset] /\ outcome m = Stop StopFullReset) /\
      (fsp_reset_requested plat status = false -> status <> FSP_SUCCESS ->
       post = [EvPostCode POST_RAM_FAILURE; EvDie] /\
       outcome m = Stop (StopDie (Some POST_RAM_FAILURE)) /\
       count_events is_post_init (trace m) = 0%nat).
Proof.
  intros cfg sym plat context s3wake entry upd status hobs m Hin Hcall.
  destruct (do_fsp_memory_init_module_call cfg sym plat context s3wake
              entry upd status hobs Hin Hcall)
    as (pre & Hpre & _ & Hm).
  fold m in Hm.
  set (v := fsp_memory_settings_version cfg plat (header context)) in Hm.
  exists pre.
  destruct (fsp_reset_requested plat status) eqn:Hreq.
  - rewrite (after_module_call_reset_requested cfg plat status hobs s3wake v
               Hreq) in Hm.
    exists [EvFullReset]. rewrite Hm.
    split; [reflexivity|]. split; [exact Hpre|].
    split; [intros _; split; reflexivity|discriminate].
  - destruct (Z.eq_dec status FSP_SUCCESS) as [Hs|Hs].
    + subst status.
      rewrite (after_module_call_success cfg plat hobs s3wake v Hreq) in Hm.
      exists (trace (do_fsp_post_memory_init cfg plat hobs s3wake v ;;
                     emit (EvDebugAfterMemoryInit FSP_SUCCESS))).
      rewrite Hm. split; [reflexivity|]. split; [exact Hpre|].
      split; [discriminate|]. intros _ Habs. contradiction.
    + rewrite (after_module_call_failure cfg plat status hobs s3wake v
                 Hreq Hs) in Hm.
      exists [EvPostCode POST_RAM_FAILURE; EvDie]. rewrite Hm.
      split; [reflexivity|]. split; [exact Hpre|].
      split; [discriminate|]. intros _ _.
      split; [reflexivity|]. split; [reflexivity|].
      simpl trace. rewrite count_events_app.
      rewrite (count_events_free is_post_init pre); [reflexivity|].
      apply (filter_nil_weaken _ from_module_call_on);
        [exact module_call_on_is_post_init|exact Hpre].
Qed.

Lemma module_status_handling_witness :
  exists pre post,
    trace (do_fsp_memory_init Board.cfg Board.sym
             (Board.plat (NULL, 0) 0x80000007) Board.context false) =
      pre ++
      [EvFspMemoryInit 0x18200
         (set_FspmArchUpd Board.default_upd
            (set_StackBase
               (set_BootLoaderTolumSize Board.default_arch_upd 0x1000)
               0x1C000));
       EvPostCode POST_FSP_MEMORY_EXIT;
       EvTimestamp TS_FSP_MEMORY_INIT_END; EvFspHandleReset 0x80000007] ++
      post /\
    post = [EvPostCode POST_RAM_FAILURE; EvDie] /\
    outcome (do_fsp_memory_init Board.cfg Board.sym
               (Board.plat (NULL, 0) 0x80000007) Board.context false)
      = Stop (StopDie (Some POST_RAM_FAILURE)).
Proof.
  assert (Hin : In (EvFspMemoryInit 0x18200
                      (set_FspmArchUpd Board.default_upd
                         (set_StackBase
                            (set_BootLoaderTolumSize Board.default_arch_upd
                               0x1000)
                            0x1C000)))
                  (trace (do_fsp_memory_init Board.cfg Board.sym
                            (Board.plat (NULL, 0) 0x80000007)
                            Board.context false))).
  { vm_compute. do 7 right. left. reflexivity. }
  destruct (module_status_handling Board.cfg Board.sym
              (Board.plat (NULL, 0) 0x80000007) Board.context false
              0x18200 _ 0x80000007 Board.hobs Hin eq_refl)
    as (pre & post & Ht & _ & _ & Hfail).
  exists pre, post. split; [exact Ht|].
  destruct (Hfail eq_refl) as (Hp & Ho & _); [discriminate|].
  split; assumption.
Defined.

(** * Further properties of the code *)

(** ** The region map query, continued *)

(** X1.  The verdict of [check_region_overlap] depends only on which
    entries the map holds: neither their order, nor repetitions, nor the
    description string matter; and a map put together from two maps accepts
    a candidate exactly when both parts accept it. *)
Theorem check_region_overlap_set_of_entries :
  forall (l1 l2 : memranges) (d d' : string) (b e : Z),
    ((forall r, In r l1 <-> In r l2) ->
     check_region_overlap l1 d b e = check_region_overlap l2 d' b e) /\
    (check_region_overlap (l1 ++ l2) d b e = CB_SUCCESS <->
     check_region_overlap l1 d b e = CB_SUCCESS /\
     check_region_overlap l2 d b e = CB_SUCCESS).
Proof.
  intros l1 l2 d d' b e. split.
  - intros Hset.
    destruct (check_region_overlap l1 d b e) eqn:H1,
      (check_region_overlap l2 d' b e) eqn:H2; try reflexivity; exfalso.
    + rewrite check_region_overlap_success in H1.
      assert (H : check_region_overlap l2 d' b e = CB_SUCCESS).
      { apply check_region_overlap_success. intros r Hin.
        apply H1, Hset, Hin. }
      congruence.
    + rewrite check_region_overlap_success in H2.
      assert (H : check_region_overlap l1 d b e = CB_SUCCESS).
      { apply check_region_overlap_success. intros r Hin.
        apply H2, Hset, Hin. }
      congruence.
  - rewrite !check_region_overlap_success. split.
    + intros H. split; intros r Hin; apply H, in_or_app; auto.
    + intros [H1 H2] r Hin. apply in_app_or in Hin. destruct Hin; auto.
Qed.

Lemma check_region_overlap_set_of_entries_witness :
  check_region_overlap
    [{| re_base := 0x1000; re_size := 0x1000 |};
     {| re_base := 0x3000; re_size := 0x1000 |}] "FSPM" 0x2800 0x3800 =
  check_region_overlap
    [{| re_base := 0x3000; re_size := 0x1000 |};
     {| re_base := 0x1000; re_size := 0x1000 |};
     {| re_base := 0x3000; re_size := 0x1000 |}] "FSPM stack" 0x2800 0x3800.
Proof.
  apply (check_region_overlap_set_of_entries _ _ "FSPM"%string
           "FSPM stack"%string 0x2800 0x3800).
  intros r. simpl. tauto.
Defined.

(** X2.  Acceptance is monotone: a candidate that lies inside an accepted
    candidate is accepted, against the same map or any map whose entries
    all belong to it. *)
Theorem check_region_overlap_monotone :
  forall (l l' : memranges) (d d' : string) (b e b' e' : Z),
    check_region_overlap l d b e = CB_SUCCESS ->
    b <= b' -> e' <= e ->
    (forall r, In r l' -> In r l) ->
    check_region_overlap l' d' b' e' = CB_SUCCESS.
Proof.
  intros l l' d d' b e b' e' H Hb He Hincl.
  rewrite check_region_overlap_success in *.
  intros r Hin. destruct (H r (Hincl r Hin)); lia.
Qed.

Lemma check_region_overlap_monotone_witness :
  check_region_overlap [{| re_base := 0x10000; re_size := 0x4000 |}]
    "FSPM stack" 0x1C000 0x20000 = CB_SUCCESS.
Proof.
  apply (check_region_overlap_monotone (memmap Board.context) _
           "FSPM"%string _ 0x18000 0x20000).
  - reflexivity.
  - lia.
  - lia.
  - intros r [<-|[]]. left. reflexivity.
Defined.

(** ** Stack placement *)

(** X3.  When [setup_fsp_stack_frame] accepts, it has written the stack
    base and nothing else; the requested size is kept, and the stack ends
    at the top of cache-as-RAM: base plus size is [_car_region_end] modulo
    the pointer width, and exactly [_car_region_end] when the requested
    size does not exceed that address. *)
Theorem setup_fsp_stack_frame_top_of_car :
  forall (cfg : Config) (sym : Symbols) (arch_upd arch_upd' : FSPM_ARCH_UPD)
         (memmap : memranges),
    setup_fsp_stack_frame cfg sym arch_upd memmap = (CB_SUCCESS, arch_upd') ->
    arch_upd' = set_StackBase arch_upd (StackBase arch_upd') /\
    StackSize arch_upd' = StackSize arch_upd /\
    uintptr cfg (StackBase arch_upd' + StackSize arch_upd') =
      uintptr cfg (_car_region_end sym) /\
    (0 <= StackSize arch_upd <= _car_region_end sym ->
     _car_region_end sym < 2 ^ uintptr_bits cfg ->
     StackBase arch_upd' + StackSize arch_upd' = _car_region_end sym).
Proof.
  intros cfg sym arch_upd arch_upd' memmap. unfold setup_fsp_stack_frame.
  destruct (check_region_overlap _ _ _ _); simpl; [|discriminate].
  intros [= <-]. split; [reflexivity|]. split; [reflexivity|].
  simpl StackBase. simpl StackSize. unfold uintptr.
  set (m := 2 ^ uintptr_bits cfg). split.
  - rewrite Zplus_mod_idemp_l.
    replace (_car_region_end sym mod m - StackSize arch_upd +
             StackSize arch_upd) with (_car_region_end sym mod m) by lia.
    apply Zmod_mod.
  - intros Hsz Hend.
    rewrite (Z.mod_small (_car_region_end sym)) by lia.
    rewrite Z.mod_small by lia. lia.
Qed.

Lemma setup_fsp_stack_frame_top_of_car_witness :
  StackBase (set_StackBase Board.default_arch_upd 0x1C000) +
  StackSize (set_StackBase Board.default_arch_upd 0x1C000) =
  _car_region_end Board.sym.
Proof.
  apply (setup_fsp_stack_frame_top_of_car Board.cfg Board.sym
           Board.default_arch_upd _ (memmap Board.context) eq_refl).
  - simpl. lia.
  - reflexivity.
Defined.

(** X4.  When the module shares the caller's stack, or the stage does not
    run from cache-as-RAM, the parameter builder never fails and never
    looks at the region map: whatever the map, it hands the module the
    static [temp_ram] buffer with its configured size. *)
Theorem shared_stack_uses_temp_ram :
  forall (cfg : Config) (sym : Symbols) (plat : Platform)
         (arch_upd : FSPM_ARCH_UPD) (s3wake : bool) (fsp_version : Z)
         (memmap memmap' : memranges),
    FSP_USES_CB_STACK cfg || negb (ENV_CACHE_AS_RAM cfg) = true ->
    fsp_fill_common_arch_params cfg sym plat arch_upd s3wake fsp_version
      memmap =
    fsp_fill_common_arch_params cfg sym plat arch_upd s3wake fsp_version
      memmap' /\
    forall r arch_upd',
      outcome (fsp_fill_common_arch_params cfg sym plat arch_upd s3wake
                 fsp_version memmap) = Ret (r, arch_upd') ->
      r = CB_SUCCESS /\
      StackBase arch_upd' = temp_ram sym /\
      StackSize arch_upd' = CONFIG_FSP_TEMP_RAM_SIZE cfg /\
      BootLoaderTolumSize arch_upd' = BootLoaderTolumSize arch_upd.
Proof.
  intros cfg sym plat arch_upd s3wake v memmap memmap' Hshared.
  unfold fsp_fill_common_arch_params. rewrite Hshared.
  split; [reflexivity|].
  intros r arch_upd'.
  match goal with
  | |- context [fsp_fill_mrc_cache cfg plat ?a v] =>
      destruct (fsp_fill_mrc_cache_spec cfg plat a v) as [[H _]|H];
      destruct (fsp_fill_mrc_cache cfg plat a v) as [t [a2|s]]
  end; simpl in H; try discriminate; simpl.
  injection H as ->. intros [= <- <-].
  destruct s3wake; [repeat split|].
  simpl. destruct (_ =? NULL); repeat split.
Qed.

Lemma shared_stack_uses_temp_ram_witness :
  StackBase
    (set_BootMode
       (set_NvsBufferPtr
          (set_StackSize (set_StackBase Board.default_arch_upd 0x12000)
             0x4000) NULL)
       FSP_BOOT_WITH_FULL_CONFIGURATION) = temp_ram Board.sym.
Proof.
  apply (proj2 (shared_stack_uses_temp_ram
                  Variants.cfg_shared_stack
                  Board.sym (Board.plat (NULL, 0) 0) Board.default_arch_upd
                  false 41 (memmap Board.context) [] eq_refl)
           CB_SUCCESS _ eq_refl).
Defined.

(** ** Where the image goes *)

(** X5.  For an image that executes in place, [fspm_get_dest] returns 0
    exactly when the header validates and the mapped address equals the
    header's image base, and -1 otherwise; the region map, the size and the
    previous header play no part.  The destination is left alone when
    validation fails, but has already been overwritten with the mapped
    address when the address check fails. *)
Theorem fspm_get_dest_xip :
  forall (cfg : Config) (plat : Platform) (context : fspm_context)
         (dest size source : Z),
    FSP_M_XIP cfg = true ->
    let v := fst (fsp_validate_component plat source) in
    let hdr := snd (fsp_validate_component plat source) in
    let r := fspm_get_dest cfg plat context dest size source in
    (fst (fst r) = 0 <->
     v = CB_SUCCESS /\ uintptr cfg (rdev_mmap_full plat source) = image_base hdr) /\
    (fst (fst r) <> 0 -> fst (fst r) = -1) /\
    (v = CB_ERR -> snd (fst r) = dest) /\
    (v = CB_SUCCESS -> snd (fst r) = rdev_mmap_full plat source) /\
    snd r = {| header := hdr; memmap := memmap context |} /\
    (forall context' size',
        fst (fspm_get_dest cfg plat context' dest size' source) = fst r).
Proof.
  intros cfg plat context dest size source Hxip v hdr r.
  subst v hdr r. unfold fspm_get_dest. rewrite Hxip.
  destruct (fsp_validate_component plat source) as [v hdr]. simpl fst.
  simpl snd. destruct v; simpl.
  - destruct (Z.eqb_spec (uintptr cfg (rdev_mmap_full plat source))
                (image_base hdr)) as [E|E]; simpl.
    + repeat split; auto; try discriminate. intros H; contradiction.
    + repeat split; auto; try discriminate.
      * intros [_ H]. contradiction.
  - repeat split; auto; try discriminate. intros [H _]. discriminate.
Qed.

Lemma fspm_get_dest_xip_witness :
  fst (fst (fspm_get_dest
              Variants.cfg_xip
              (Board.plat (NULL, 0) 0) Board.context NULL 0x8000 1)) = 0.
Proof.
  apply (fspm_get_dest_xip Variants.cfg_xip (Board.plat (NULL, 0) 0) Board.context NULL
           0x8000 1 eq_refl).
  split; reflexivity.
Defined.

(** ** The cache-version tag, continued *)

Lemma testbit_above_32 (a n : Z) :
  0 <= a < 2 ^ 32 -> 32 <= n -> Z.testbit a n = false.
Proof.
  intros Ha Hn. rewrite <- (Z.mod_small a (2 ^ 32)) by exact Ha.
  apply Z.mod_pow2_bits_high. lia.
Qed.

(** X6.  With platform versioning enabled, two boots derive the same cache
    tag exactly when their module revisions agree above the low byte and
    the board and SoC hooks agree modulo 16.  So the build number in the low
    byte of the revision never reaches the tag, a change of either hook's
    low nibble always changes the tag, and a hook value of 16 or more is
    indistinguishable from its remainder. *)
Theorem fsp_memory_settings_version_equal_iff :
  forall (cfg : Config) (plat1 plat2 : Platform) (hdr1 hdr2 : fsp_header),
    FSP_PLATFORM_MEMORY_SETTINGS_VERSIONS cfg = true ->
    0 <= fsp_revision hdr1 < 2 ^ 32 ->
    0 <= fsp_revision hdr2 < 2 ^ 32 ->
    (fsp_memory_settings_version cfg plat1 hdr1 =
     fsp_memory_settings_version cfg plat2 hdr2 <->
     fsp_revision hdr1 / 256 = fsp_revision hdr2 / 256 /\
     fsp_memory_mainboard_version plat1 mod 16 =
       fsp_memory_mainboard_version plat2 mod 16 /\
     fsp_memory_soc_version plat1 mod 16 =
       fsp_memory_soc_version plat2 mod 16).
Proof.
  intros cfg plat1 plat2 hdr1 hdr2 Hv Hr1 Hr2.
  change 256 with (2 ^ 8). change 16 with (2 ^ 4).
  split.
  - intros Heq.
    assert (Hbit : forall n, 0 <= n ->
               Z.testbit (fsp_memory_settings_version cfg plat1 hdr1) n =
               Z.testbit (fsp_memory_settings_version cfg plat2 hdr2) n)
      by (intros; rewrite Heq; reflexivity).
    split; [|split]; apply Z.bits_inj'; intros n Hn.
    + rewrite !Z.div_pow2_bits by lia.
      destruct (Z.lt_ge_cases (n + 8) 32) as [Hlt|Hge].
      * specialize (Hbit (n + 8) ltac:(lia)).
        rewrite !fsp_memory_settings_version_bits in Hbit by (auto; lia).
        destruct (Z.ltb_spec (n + 8) 4); [lia|].
        destruct (Z.ltb_spec (n + 8) 8); [lia|].
        destruct (Z.ltb_spec (n + 8) 32); [|lia].
        exact Hbit.
      * rewrite !testbit_above_32 by (auto; lia). reflexivity.
    + destruct (Z.lt_ge_cases n 4) as [Hlt|Hge].
      * rewrite !Z.mod_pow2_bits_low by lia.
        specialize (Hbit (n + 4) ltac:(lia)).
        rewrite !fsp_memory_settings_version_bits in Hbit by (auto; lia).
        destruct (Z.ltb_spec (n + 4) 4); [lia|].
        destruct (Z.ltb_spec (n + 4) 8); [|lia].
        replace (n + 4 - 4) with n in Hbit by lia. exact Hbit.
      * rewrite !Z.mod_pow2_bits_high by lia. reflexivity.
    + destruct (Z.lt_ge_cases n 4) as [Hlt|Hge].
      * rewrite !Z.mod_pow2_bits_low by lia.
        specialize (Hbit n Hn).
        rewrite !fsp_memory_settings_version_bits in Hbit by (auto; lia).
        destruct (Z.ltb_spec n 4); [|lia]. exact Hbit.
      * rewrite !Z.mod_pow2_bits_high by lia. reflexivity.
  - intros (Hrev & Hmb & Hsoc). apply Z.bits_inj'. intros n Hn.
    rewrite !fsp_memory_settings_version_bits by (auto; lia).
    destruct (Z.ltb_spec n 4) as [H4|H4];
      [|destruct (Z.ltb_spec n 8) as [H8|H8];
        [|destruct (Z.ltb_spec n 32) as [H32|H32]; [|reflexivity]]].
    + rewrite <- (Z.mod_pow2_bits_low (fsp_memory_soc_version plat1) 4 n)
        by lia.
      rewrite <- (Z.mod_pow2_bits_low (fsp_memory_soc_version plat2) 4 n)
        by lia.
      rewrite Hsoc. reflexivity.
    + rewrite <- (Z.mod_pow2_bits_low (fsp_memory_mainboard_version plat1)
                    4 (n - 4)) by lia.
      rewrite <- (Z.mod_pow2_bits_low (fsp_memory_mainboard_version plat2)
                    4 (n - 4)) by lia.
      rewrite Hmb. reflexivity.
    + replace n with (n - 8 + 8) by lia.
      rewrite <- !Z.div_pow2_bits by lia. rewrite Hrev. reflexivity.
Qed.

Lemma fsp_memory_settings_version_equal_iff_witness :
  fsp_memory_settings_version Board.cfg (Board.plat (NULL, 0) 0) Board.hdr =
  fsp_memory_settings_version Board.cfg
    (Board.plat (NULL, 0) 0)
    {| fsp_revision := 0xC7; image_base := 0; cfg_region_offset := 0;
       memory_init_entry_offset := 0 |}.
Proof.
  apply (fsp_memory_settings_version_equal_iff Board.cfg
           (Board.plat (NULL, 0) 0) (Board.plat (NULL, 0) 0)).
  - reflexivity.
  - simpl. lia.
  - simpl. lia.
  - repeat split.
Defined.

(** ** Counting calls *)

Lemma count_events_bind {A B} p (m : M A) (f : A -> M B) (k : nat) :
  (forall a, (count_events p (trace (f a)) <= k)%nat) ->
  (count_events p (trace (bind m f)) <= count_events p (trace m) + k)%nat.
Proof.
  intros Hf. destruct m as [t [a|s]].
  - rewrite trace_bind_ret, count_events_app. simpl trace.
    specialize (Hf a). lia.
  - simpl. lia.
Qed.

Lemma count_events_bind_free {A B} p (m : M A) (f : A -> M B) (k : nat) :
  free_of p m ->
  (forall a, (count_events p (trace (f a)) <= k)%nat) ->
  (count_events p (trace (bind m f)) <= k)%nat.
Proof.
  intros Hm Hf. pose proof (count_events_bind p m f k Hf) as H.
  rewrite (count_events_free p (trace m) Hm) in H. exact H.
Qed.

Lemma count_events_bind_then_free {A B} p (m : M A) (f : A -> M B)
  (k : nat) :
  (count_events p (trace m) <= k)%nat ->
  (forall a, free_of p (f a)) ->
  (count_events p (trace (bind m f)) <= k)%nat.
Proof.
  intros Hm Hf.
  assert (H0 : forall a, (count_events p (trace (f a)) <= 0)%nat).
  { intros a. rewrite (count_events_free p _ (Hf a)). lia. }
  pose proof (count_events_bind p m f 0 H0) as H. lia.
Qed.

Lemma do_fsp_memory_init_one_call cfg sym plat context s3wake :
  (count_events is_module_call
     (trace (do_fsp_memory_init cfg sym plat context s3wake)) <= 1)%nat.
Proof.
  destruct (do_fsp_memory_init_splits cfg sym plat context s3wake)
    as [[Hfree _]|(pre & upd & Hpre & _ & Hm)].
  - rewrite count_events_free; [lia|].
    apply (filter_nil_weaken _ from_module_call_on);
      [exact module_call_on_is_module_call|exact Hfree].
  - rewrite Hm. simpl trace. rewrite count_events_app.
    rewrite (count_events_free is_module_call pre).
    + change (EvFspMemoryInit ?e upd :: ?t)
        with ([EvFspMemoryInit e upd] ++ t).
      unfold module_tail.
      match goal with
      | |- context [fsp_raminit plat ?e upd] =>
          destruct (fsp_raminit plat e upd) as [status hobs]
      end.
      simpl.
      pose proof (after_module_call_no_module_call cfg plat status hobs
                    s3wake
                    (fsp_memory_settings_version cfg plat (header context)))
        as Htail.
      unfold free_of in Htail. unfold count_events. simpl.
      rewrite Htail. simpl. lia.
    + apply (filter_nil_weaken _ from_module_call_on);
        [exact module_call_on_is_module_call|exact Hpre].
Qed.

(** X7.  The module is entered at most once per boot: whatever the build,
    the platform and the boot path, the trace of [fsp_memory_init] holds at
    most one call of the module's entry point. *)
Theorem module_called_at_most_once :
  forall (cfg : Config) (sym : Symbols) (plat : Platform)
         (hdr0 : fsp_header) (s3wake : bool),
    (count_events is_module_call
       (trace (fsp_memory_init cfg sym plat hdr0 s3wake)) <= 1)%nat.
Proof.
  intros cfg sym plat hdr0 s3wake. unfold fsp_memory_init.
  apply count_events_bind_free; [reflexivity|]. intros _.
  destruct (fsp_load_component cfg plat _) as [r ctx].
  apply count_events_bind_free; [destruct r; reflexivity|]. intros _.
  apply count_events_bind_free; [reflexivity|]. intros _.
  apply count_events_bind_then_free.
  - apply do_fsp_memory_init_one_call.
  - intros _. reflexivity.
Qed.

(** ** After the module has returned *)

Lemma do_fsp_post_memory_init_resume_eq cfg plat hobs v :
  let size := range_entry_size (hob_reserved_memory hobs) in
  do_fsp_post_memory_init cfg plat hobs true v =
    if negb (cbmem_initialize_id_size plat CBMEM_ID_FSP_RESERVED_MEMORY size
             =? 0) && HAVE_ACPI_RESUME cfg
    then ([EvCbmemInitialize CBMEM_ID_FSP_RESERVED_MEMORY size; EvFullReset],
          Stop StopFullReset)
    else if range_entry_base (hob_reserved_memory hobs) =?
            cbmem_find plat CBMEM_ID_FSP_RESERVED_MEMORY
    then ([EvCbmemInitialize CBMEM_ID_FSP_RESERVED_MEMORY size;
           EvRomstageHandoffInit true], Ret tt)
    else ([EvCbmemInitialize CBMEM_ID_FSP_RESERVED_MEMORY size; EvDie],
          Stop (StopDie None)).
Proof.
  intros size. unfold do_fsp_post_memory_init, save_memory_training_data.
  fold size. rewrite orb_true_r. simpl negb. cbv iota.
  destruct (cbmem_initialize_id_size plat CBMEM_ID_FSP_RESERVED_MEMORY size
            =? 0), (HAVE_ACPI_RESUME cfg),
    (range_entry_base (hob_reserved_memory hobs) =?
     cbmem_find plat CBMEM_ID_FSP_RESERVED_MEMORY); reflexivity.
Qed.

(** X8.  On a resume boot [do_fsp_post_memory_init] only ever tries to
    recover cbmem.  If recovery fails and resume support is built in, it
    resets at once.  If resume support is not built in, a failed recovery
    is not looked at: the flow goes on to the base check exactly as after a
    successful one, hands off with the resume flag when the base matches
    and dies when it does not. *)
Theorem resume_post_memory_init :
  forall (cfg : Config) (plat : Platform) (hobs : hob_list) (v : Z),
    let size := range_entry_size (hob_reserved_memory hobs) in
    let recovered :=
      cbmem_initialize_id_size plat CBMEM_ID_FSP_RESERVED_MEMORY size in
    let base_ok :=
      range_entry_base (hob_reserved_memory hobs) =?
      cbmem_find plat CBMEM_ID_FSP_RESERVED_MEMORY in
    let m := do_fsp_post_memory_init cfg plat hobs true v in
    filter is_cbmem_empty (trace m) = [] /\
    (recovered <> 0 -> HAVE_ACPI_RESUME cfg = true ->
     m = ([EvCbmemInitialize CBMEM_ID_FSP_RESERVED_MEMORY size; EvFullReset],
          Stop StopFullReset)) /\
    (recovered = 0 \/ HAVE_ACPI_RESUME cfg = false ->
     m = if base_ok
         then ([EvCbmemInitialize CBMEM_ID_FSP_RESERVED_MEMORY size;
                EvRomstageHandoffInit true], Ret tt)
         else ([EvCbmemInitialize CBMEM_ID_FSP_RESERVED_MEMORY size; EvDie],
               Stop (StopDie None))).
Proof.
  intros cfg plat hobs v size recovered base_ok m. subst m.
  rewrite do_fsp_post_memory_init_resume_eq. fold size. fold recovered.
  fold base_ok. split; [|split].
  - destruct (negb (recovered =? 0) && HAVE_ACPI_RESUME cfg), base_ok;
      reflexivity.
  - intros Hr Ha. apply Z.eqb_neq in Hr. rewrite Hr, Ha. reflexivity.
  - intros [Hr|Ha].
    + rewrite Hr. reflexivity.
    + rewrite Ha, andb_false_r. reflexivity.
Qed.

Lemma resume_post_memory_init_witness :
  do_fsp_post_memory_init (Board.cfg_with true false)
    (Board.plat (NULL, 0) 0) Board.hobs true 41 =
    ([EvCbmemInitialize CBMEM_ID_FSP_RESERVED_MEMORY 0x400000;
      EvRomstageHandoffInit true], Ret tt).
Proof.
  apply (resume_post_memory_init (Board.cfg_with true false)
           (Board.plat (NULL, 0) 0) Board.hobs 41).
  left. reflexivity.
Defined.

Lemma after_module_call_returns cfg plat status hobs s3wake v :
  outcome (after_module_call cfg plat status hobs s3wake v) = Ret tt ->
  status = FSP_SUCCESS /\
  fsp_reset_requested plat FSP_SUCCESS = false /\
  range_entry_base (hob_reserved_memory hobs) =
    cbmem_find plat CBMEM_ID_FSP_RESERVED_MEMORY /\
  count_events is_handoff
    (trace (after_module_call cfg plat status hobs s3wake v)) = 1%nat /\
  In (EvRomstageHandoffInit s3wake)
    (trace (after_module_call cfg plat status hobs s3wake v)) /\
  (s3wake = true ->
   cbmem_initialize_id_size plat CBMEM_ID_FSP_RESERVED_MEMORY
     (range_entry_size (hob_reserved_memory hobs)) = 0 \/
   HAVE_ACPI_RESUME cfg = false).
Proof.
  destruct (fsp_reset_requested plat status) eqn:Hreq.
  { rewrite (after_module_call_reset_requested _ _ _ _ _ _ Hreq).
    discriminate. }
  destruct (Z.eq_dec status FSP_SUCCESS) as [->|Hs].
  2:{ rewrite (after_module_call_failure _ _ _ _ _ _ Hreq Hs).
      discriminate. }
  rewrite (after_module_call_success _ _ _ _ _ Hreq).
  destruct s3wake.
  - rewrite do_fsp_post_memory_init_resume_eq.
    destruct (cbmem_initialize_id_size plat CBMEM_ID_FSP_RESERVED_MEMORY _
              =? 0) eqn:Hrec;
      destruct (HAVE_ACPI_RESUME cfg) eqn:Hacpi;
      destruct (Z.eqb_spec (range_entry_base (hob_reserved_memory hobs))
                  (cbmem_find plat CBMEM_ID_FSP_RESERVED_MEMORY)) as [E|E];
      simpl; try discriminate; intros _;
      (split; [reflexivity|]); (split; [exact Hreq|]);
      (split; [exact E|]); (split; [reflexivity|]);
      (split; [do 4 right; left; reflexivity|]); intros _.
    + left. apply Z.eqb_eq. exact Hrec.
    + left. apply Z.eqb_eq. exact Hrec.
    + right. reflexivity.
  - rewrite do_fsp_post_memory_init_cold.
    destruct (Z.eqb_spec (range_entry_base (hob_reserved_memory hobs))
                (cbmem_find plat CBMEM_ID_FSP_RESERVED_MEMORY)) as [E|E];
      [|simpl; discriminate].
    rewrite save_memory_training_data_cold, bind_eta. intros _.
    split; [reflexivity|]. split; [exact Hreq|]. split; [exact E|].
    simpl trace.
    destruct (CACHE_MRC_SETTINGS cfg &&
              negb (fst (hob_nv_storage_data hobs) =? NULL));
      [destruct (FSP2_0_USES_TPM_MRC_HASH cfg)|];
      (split; [reflexivity|]); (split; [|discriminate]); simpl; tauto.
Qed.

(** X9.  [do_fsp_memory_init] returns to its caller only after a complete,
    successful run: the module was called exactly once, it returned
    [FSP_SUCCESS] and no reset request, cbmem holds the module's reserved
    region at the module's base, and the hand-off was initialised exactly
    once, with the boot's resume flag. *)
Theorem returns_only_after_success :
  forall (cfg : Config) (sym : Symbols) (plat : Platform)
         (context : fspm_context) (s3wake : bool),
    let m := do_fsp_memory_init cfg sym plat context s3wake in
    outcome m = Ret tt ->
    exists entry upd hobs,
      In (EvFspMemoryInit entry upd) (trace m) /\
      count_events is_module_call (trace m) = 1%nat /\
      fsp_raminit plat entry upd = (FSP_SUCCESS, hobs) /\
      fsp_reset_requested plat FSP_SUCCESS = false /\
      range_entry_base (hob_reserved_memory hobs) =
        cbmem_find plat CBMEM_ID_FSP_RESERVED_MEMORY /\
      count_events is_handoff (trace m) = 1%nat /\
      In (EvRomstageHandoffInit s3wake) (trace m).
Proof.
  intros cfg sym plat context s3wake m Hret. subst m.
  destruct (do_fsp_memory_init_splits cfg sym plat context s3wake)
    as [[_ [s Hs]]|(pre & upd & Hpre & _ & Hm)].
  { rewrite Hs in Hret. discriminate. }
  set (v := fsp_memory_settings_version cfg plat (header context)) in *.
  set (entry := uintptr cfg _) in *.
  rewrite Hm in Hret |- *. simpl outcome in Hret. simpl trace.
  unfold module_tail in *.
  destruct (fsp_raminit plat entry upd) as [status hobs] eqn:Hcall.
  destruct (after_module_call_returns cfg plat status hobs s3wake v Hret)
    as (-> & Hreq & Hbase & Hcnt & Hin & _).
  exists entry, upd, hobs.
  assert (Hpre_h : filter is_handoff pre = []).
  { apply (filter_nil_weaken _ from_module_call_on); [|exact Hpre].
    intros e; destruct e; simpl; congruence. }
  assert (Hpre_m : filter is_module_call pre = []).
  { apply (filter_nil_weaken _ from_module_call_on);
      [exact module_call_on_is_module_call|exact Hpre]. }
  pose proof (after_module_call_no_module_call cfg plat FSP_SUCCESS hobs
                s3wake v) as Htail.
  unfold free_of in Htail.
  split; [apply in_or_app; right; left; reflexivity|].
  split.
  { rewrite count_events_app, (count_events_free _ _ Hpre_m).
    unfold count_events. simpl. rewrite Htail. reflexivity. }
  split; [exact Hcall|]. split; [exact Hreq|]. split; [exact Hbase|].
  split.
  { rewrite count_events_app, (count_events_free _ _ Hpre_h).
    unfold count_events in *. simpl. exact Hcnt. }
  apply in_or_app. right. right. exact Hin.
Qed.

Lemma returns_only_after_success_witness :
  exists entry upd hobs,
    In (EvFspMemoryInit entry upd)
      (trace (do_fsp_memory_init Board.cfg Board.sym
                (Board.plat (NULL, 0) FSP_SUCCESS) Board.context false)) /\
    fsp_raminit (Board.plat (NULL, 0) FSP_SUCCESS) entry upd =
      (FSP_SUCCESS, hobs).
Proof.
  destruct (returns_only_after_success Board.cfg Board.sym
              (Board.plat (NULL, 0) FSP_SUCCESS) Board.context false
              eq_refl)
    as (entry & upd & hobs & Hin & _ & Hcall & _).
  exists entry, upd, hobs. split; assumption.
Defined.

(** ** What the module is given *)

Lemma do_fsp_memory_init_to_module cfg sym plat context s3wake t a' :
  let hdr := header context in
  let v := fsp_memory_settings_version cfg plat hdr in
  let upd0 :=
    upd_region plat (uintptr cfg (cfg_region_offset hdr + image_base hdr)) in
  let entry := uintptr cfg (image_base hdr + memory_init_entry_offset hdr) in
  let cb := platform_fsp_memory_init_params_cb plat
              (set_FspmArchUpd upd0 a') v in
  let upd :=
    if MMA cfg
    then set_FspmConfig cb (setup_mma plat (FspmConfig cb)) else cb in
  Signature upd0 = FSPM_UPD_SIGNATURE cfg ->
  fsp_fill_common_arch_params cfg sym plat
    (set_BootLoaderTolumSize (FspmArchUpd upd0) (cbmem_overhead_size plat))
    s3wake v (memmap context) = (t, Ret (CB_SUCCESS, a')) ->
  s3wake && (NvsBufferPtr (FspmArchUpd cb) =? NULL) = false ->
  do_fsp_memory_init cfg sym plat context s3wake =
    (EvPostCode POST_MEM_PREINIT_PREP_START ::
       t ++ EvPlatformCb v ::
       (if MMA cfg then [EvSetupMma] else []) ++
       [EvPostCode POST_MEM_PREINIT_PREP_END; EvDebugBeforeMemoryInit;
        EvPostCode POST_FSP_MEMORY_INIT;
        EvTimestamp TS_FSP_MEMORY_INIT_START;
        EvFspMemoryInit entry upd] ++
       trace (module_tail cfg plat s3wake v entry upd),
     outcome (module_tail cfg plat s3wake v entry upd)).
Proof.
  intros hdr v upd0 entry cb upd Hsig Hfill Hreset.
  unfold do_fsp_memory_init. fold hdr. fold v. fold upd0. fold entry.
  unfold post_code at 1. rewrite bind_emit.
  rewrite Hsig, Z.eqb_refl. simpl negb. cbv iota.
  rewrite bind_ret_nil, Hfill, bind_eta. simpl fst. simpl snd.
  simpl negb. cbv iota.
  rewrite bind_ret_nil, bind_emit. fold cb. rewrite Hreset.
  rewrite bind_ret_nil.
  assert (Hrest : forall u,
    (post_code POST_MEM_PREINIT_PREP_END ;;
     emit EvDebugBeforeMemoryInit ;;
     post_code POST_FSP_MEMORY_INIT ;;
     timestamp_add_now TS_FSP_MEMORY_INIT_START ;;
     emit (EvFspMemoryInit entry u) ;;
     module_tail cfg plat s3wake v entry u) =
    ([EvPostCode POST_MEM_PREINIT_PREP_END; EvDebugBeforeMemoryInit;
      EvPostCode POST_FSP_MEMORY_INIT;
      EvTimestamp TS_FSP_MEMORY_INIT_START;
      EvFspMemoryInit entry u] ++
     trace (module_tail cfg plat s3wake v entry u),
     outcome (module_tail cfg plat s3wake v entry u))).
  { intros u. unfold post_code, timestamp_add_now.
    rewrite !bind_emit. reflexivity. }
  subst upd. destruct (MMA cfg).
  - change (emit EvSetupMma ;;
            ret (set_FspmConfig cb (setup_mma plat (FspmConfig cb))))
      with ([EvSetupMma],
            Ret (set_FspmConfig cb (setup_mma plat (FspmConfig cb)))).
    rewrite bind_eta.
    change (post_code POST_MEM_PREINIT_PREP_END ;; _)
      with (post_code POST_MEM_PREINIT_PREP_END ;;
            emit EvDebugBeforeMemoryInit ;;
            post_code POST_FSP_MEMORY_INIT ;;
            timestamp_add_now TS_FSP_MEMORY_INIT_START ;;
            emit (EvFspMemoryInit entry
                    (set_FspmConfig cb (setup_mma plat (FspmConfig cb)))) ;;
            module_tail cfg plat s3wake v entry
              (set_FspmConfig cb (setup_mma plat (FspmConfig cb)))).
    rewrite Hrest. reflexivity.
  - rewrite bind_ret_nil.
    change (post_code POST_MEM_PREINIT_PREP_END ;; _)
      with (post_code POST_MEM_PREINIT_PREP_END ;;
            emit EvDebugBeforeMemoryInit ;;
            post_code POST_FSP_MEMORY_INIT ;;
            timestamp_add_now TS_FSP_MEMORY_INIT_START ;;
            emit (EvFspMemoryInit entry cb) ;;
            module_tail cfg plat s3wake v entry cb).
    rewrite Hrest. reflexivity.
Qed.

Lemma do_fsp_memory_init_reached cfg sym plat context s3wake entry upd :
  let hdr := header context in
  let v := fsp_memory_settings_version cfg plat hdr in
  let upd0 :=
    upd_region plat (uintptr cfg (cfg_region_offset hdr + image_base hdr)) in
  In (EvFspMemoryInit entry upd)
    (trace (do_fsp_memory_init cfg sym plat context s3wake)) ->
  exists t a',
    Signature upd0 = FSPM_UPD_SIGNATURE cfg /\
    fsp_fill_common_arch_params cfg sym plat
      (set_BootLoaderTolumSize (FspmArchUpd upd0) (cbmem_overhead_size plat))
      s3wake v (memmap context) = (t, Ret (CB_SUCCESS, a')) /\
    s3wake &&
    (NvsBufferPtr
       (FspmArchUpd
          (platform_fsp_memory_init_params_cb plat
             (set_FspmArchUpd upd0 a') v)) =? NULL) = false.
Proof.
  intros hdr v upd0.
  pose proof (fsp_fill_common_arch_params_before_call cfg sym plat
                (set_BootLoaderTolumSize (FspmArchUpd upd0)
                   (cbmem_overhead_size plat))
                s3wake v (memmap context)) as Hfree.
  unfold do_fsp_memory_init. fold hdr. fold v. fold upd0.
  unfold post_code at 1. rewrite bind_emit.
  destruct (Z.eqb_spec (Signature upd0) (FSPM_UPD_SIGNATURE cfg)) as [Hs|Hs].
  2:{ simpl. intros [H|[H|[H|[]]]]; discriminate. }
  simpl negb. cbv iota. rewrite bind_ret_nil.
  destruct (fsp_fill_common_arch_params cfg sym plat _ s3wake v
              (memmap context)) as [t [[r a']|s]] eqn:Hfill.
  2:{ rewrite bind_stop. simpl. intros [H|H]; [discriminate|].
      exfalso. revert H.
      apply (filter_nil_not_In from_module_call_on); [exact Hfree|].
      reflexivity. }
  assert (Ht : ~ In (EvFspMemoryInit entry upd) t).
  { apply (filter_nil_not_In from_module_call_on); [exact Hfree|].
    reflexivity. }
  rewrite bind_eta. simpl fst. simpl snd.
  destruct r; simpl negb; cbv iota.
  2:{ simpl. intros [H|H]; [discriminate|].
      apply in_app_or in H. destruct H as [H|[H|[H|[]]]];
        [contradiction|discriminate|discriminate]. }
  rewrite bind_ret_nil, bind_emit.
  destruct (s3wake && _) eqn:Hreset.
  { simpl. intros [H|H]; [discriminate|].
    apply in_app_or in H. destruct H as [H|[H|[H|[]]]];
      [contradiction|discriminate|discriminate]. }
  intros _. exists t, a'. auto.
Qed.

Lemma fsp_fill_mrc_cache_no_callback cfg plat a v :
  free_of is_platform_cb (fsp_fill_mrc_cache cfg plat a v).
Proof.
  unfold fsp_fill_mrc_cache, assert.
  destruct (mrc_cache_current_mmap_leak plat MRC_TRAINING_DATA v) as [d sz].
  destruct (CACHE_MRC_SETTINGS cfg), (vboot_recovery_mode_enabled plat),
    (HAS_RECOVERY_MRC_CACHE cfg), (get_recovery_mode_retrain_switch plat),
    (BOOT_DEVICE_MEMORY_MAPPED cfg), (FATAL_ASSERTS cfg), (d =? NULL),
    (FSP2_0_USES_TPM_MRC_HASH cfg), (mrc_cache_verify_hash plat d sz);
    reflexivity.
Qed.

Lemma fsp_fill_common_arch_params_no_callback cfg sym plat a s3 v mm :
  free_of is_platform_cb
    (fsp_fill_common_arch_params cfg sym plat a s3 v mm).
Proof.
  unfold fsp_fill_common_arch_params.
  destruct (FSP_USES_CB_STACK cfg || negb (ENV_CACHE_AS_RAM cfg)).
  - apply free_of_bind; [apply fsp_fill_mrc_cache_no_callback|].
    intros; apply free_of_ret.
  - destruct (setup_fsp_stack_frame cfg sym a mm) as [r a1].
    destruct r; simpl; [|apply free_of_ret].
    apply free_of_bind; [apply fsp_fill_mrc_cache_no_callback|].
    intros; apply free_of_ret.
Qed.

Lemma module_tail_no_callback cfg plat s3wake v entry upd :
  free_of is_platform_cb (module_tail cfg plat s3wake v entry upd).
Proof.
  unfold module_tail. destruct (fsp_raminit plat entry upd) as [status hobs].
  unfold after_module_call, fsp_handle_reset, do_fsp_post_memory_init,
    save_memory_training_data.
  repeat free_step.
Qed.

(** X10.  Whenever the module is entered, the parameter builder had
    succeeded on a valid configuration region, the platform callback ran
    exactly once, after the builder and before the module, and the module
    is given exactly what the callback returned (with [setup_mma] applied
    to its configuration block when MMA is built in): nothing the callback
    wrote, boot mode and cached-data pointer included, is recomputed.  The
    module is entered at [image_base + memory_init_entry_offset]. *)
Theorem module_receives_callback_output :
  forall (cfg : Config) (sym : Symbols) (plat : Platform)
         (context : fspm_context) (s3wake : bool) (entry : Z)
         (upd : FSPM_UPD),
    let hdr := header context in
    let v := fsp_memory_settings_version cfg plat hdr in
    let upd0 :=
      upd_region plat (uintptr cfg (cfg_region_offset hdr + image_base hdr)) in
    let m := do_fsp_memory_init cfg sym plat context s3wake in
    In (EvFspMemoryInit entry upd) (trace m) ->
    exists t a' rest,
      Signature upd0 = FSPM_UPD_SIGNATURE cfg /\
      fsp_fill_common_arch_params cfg sym plat
        (set_BootLoaderTolumSize (FspmArchUpd upd0)
           (cbmem_overhead_size plat))
        s3wake v (memmap context) = (t, Ret (CB_SUCCESS, a')) /\
      let cb := platform_fsp_memory_init_params_cb plat
                  (set_FspmArchUpd upd0 a') v in
      entry = uintptr cfg (image_base hdr + memory_init_entry_offset hdr) /\
      upd = (if MMA cfg
             then set_FspmConfig cb (setup_mma plat (FspmConfig cb))
             else cb) /\
      FspmArchUpd upd = FspmArchUpd cb /\
      trace m =
        EvPostCode POST_MEM_PREINIT_PREP_START ::
          t ++ EvPlatformCb v :: rest /\
      In (EvFspMemoryInit entry upd) rest /\
      count_events is_platform_cb (trace m) = 1%nat.
Proof.
  intros cfg sym plat context s3wake entry upd hdr v upd0 m Hin.
  destruct (do_fsp_memory_init_reached cfg sym plat context s3wake entry upd
              Hin) as (t & a' & Hsig & Hfill & Hreset).
  fold hdr in Hsig, Hfill, Hreset. fold v in Hfill, Hreset.
  fold upd0 in Hsig, Hfill, Hreset.
  pose proof (do_fsp_memory_init_to_module cfg sym plat context s3wake t a'
                Hsig Hfill Hreset) as Hm.
  fold hdr in Hm. fold v in Hm. fold upd0 in Hm. fold m in Hm.
  set (cb := platform_fsp_memory_init_params_cb plat
               (set_FspmArchUpd upd0 a') v) in *.
  set (entry0 := uintptr cfg
                   (image_base hdr + memory_init_entry_offset hdr)) in *.
  set (upd1 := if MMA cfg then _ else cb) in *.
  pose proof (fsp_fill_common_arch_params_before_call cfg sym plat
                (set_BootLoaderTolumSize (FspmArchUpd upd0)
                   (cbmem_overhead_size plat))
                s3wake v (memmap context)) as Hfree.
  pose proof (fsp_fill_common_arch_params_no_callback cfg sym plat
                (set_BootLoaderTolumSize (FspmArchUpd upd0)
                   (cbmem_overhead_size plat))
                s3wake v (memmap context)) as Hfree_cb.
  rewrite Hfill in Hfree, Hfree_cb. unfold free_of in Hfree, Hfree_cb.
  simpl trace in Hfree, Hfree_cb.
  pose proof (module_tail_no_callback cfg plat s3wake v entry0 upd1)
    as Htail_cb. unfold free_of in Htail_cb.
  assert (Htail : ~ In (EvFspMemoryInit entry upd)
                    (trace (module_tail cfg plat s3wake v entry0 upd1))).
  { apply (filter_nil_not_In is_module_call); [|reflexivity].
    unfold module_tail. destruct (fsp_raminit plat entry0 upd1).
    apply after_module_call_no_module_call. }
  assert (Heq : entry = entry0 /\ upd = upd1).
  { rewrite Hm in Hin. simpl trace in Hin.
    destruct Hin as [H|H]; [discriminate|].
    apply in_app_or in H. destruct H as [H|H].
    { exfalso. revert H.
      apply (filter_nil_not_In from_module_call_on); [exact Hfree|].
      reflexivity. }
    destruct H as [H|H]; [discriminate|].
    apply in_app_or in H. destruct H as [H|H].
    { destruct (MMA cfg); simpl in H; intuition discriminate. }
    destruct H as [H|[H|[H|[H|[H|H]]]]]; try discriminate.
    - injection H as <- <-. split; reflexivity.
    - exfalso. exact (Htail H). }
  destruct Heq as [-> ->].
  exists t, a'.
  exists ((if MMA cfg then [EvSetupMma] else []) ++
          [EvPostCode POST_MEM_PREINIT_PREP_END; EvDebugBeforeMemoryInit;
           EvPostCode POST_FSP_MEMORY_INIT;
           EvTimestamp TS_FSP_MEMORY_INIT_START;
           EvFspMemoryInit entry0 upd1] ++
          trace (module_tail cfg plat s3wake v entry0 upd1)).
  split; [exact Hsig|]. split; [exact Hfill|].
  split; [reflexivity|]. split; [reflexivity|].
  split; [subst upd1; destruct (MMA cfg); reflexivity|].
  split; [rewrite Hm; reflexivity|].
  split.
  { apply in_or_app. right. apply in_or_app. left.
    do 4 right. left. reflexivity. }
  rewrite Hm. unfold trace in *. cbn [fst].
  change (EvPostCode POST_MEM_PREINIT_PREP_START :: t ++ ?x)
    with ([EvPostCode POST_MEM_PREINIT_PREP_START] ++ t ++ x).
  change (EvPlatformCb v :: ?x) with ([EvPlatformCb v] ++ x).
  rewrite !count_events_app.
  rewrite (count_events_free _ _ Hfree_cb), (count_events_free _ _ Htail_cb).
  destruct (MMA cfg); reflexivity.
Qed.

Lemma module_receives_callback_output_witness :
  exists t a' rest,
    trace (do_fsp_memory_init Board.cfg Board.sym
             (Board.plat (NULL, 0) FSP_SUCCESS) Board.context false) =
      EvPostCode POST_MEM_PREINIT_PREP_START ::
        t ++ EvPlatformCb 41 :: rest /\
    fsp_fill_common_arch_params Board.cfg Board.sym
      (Board.plat (NULL, 0) FSP_SUCCESS)
      (set_BootLoaderTolumSize Board.default_arch_upd 0x1000) false 41
      (memmap Board.context) = (t, Ret (CB_SUCCESS, a')).
Proof.
  assert (Hin : In (EvFspMemoryInit 0x18200
                      (set_FspmArchUpd Board.default_upd
                         (set_StackBase
                            (set_BootLoaderTolumSize Board.default_arch_upd
                               0x1000)
                            0x1C000)))
                  (trace (do_fsp_memory_init Board.cfg Board.sym
                            (Board.plat (NULL, 0) FSP_SUCCESS)
                            Board.context false))).
  { vm_compute. do 7 right. left. reflexivity. }
  destruct (module_receives_callback_output Board.cfg Board.sym
              (Board.plat (NULL, 0) FSP_SUCCESS) Board.context false
              _ _ Hin)
    as (t & a' & rest & _ & Hfill & _ & _ & _ & Ht & _).
  exists t, a', rest. split; assumption.
Defined.

(** ** What fails before the module is reached *)

(** X11.  The two validation failures of [do_fsp_memory_init] end alike
    and early: a configuration region without the expected signature, and
    a stack carve that touches the region map, each make the flow die with
    post code [POST_INVALID_VENDOR_BINARY] right after the first post code,
    before the cache is consulted and before any platform callback. *)
Theorem validation_failures_die_early :
  forall (cfg : Config) (sym : Symbols) (plat : Platform)
         (context : fspm_context) (s3wake : bool),
    let hdr := header context in
    let upd0 :=
      upd_region plat (uintptr cfg (cfg_region_offset hdr + image_base hdr)) in
    let stack_end := uintptr cfg (_car_region_end sym) in
    let stack_begin :=
      uintptr cfg (stack_end - StackSize (FspmArchUpd upd0)) in
    let died :=
      ([EvPostCode POST_MEM_PREINIT_PREP_START;
        EvPostCode POST_INVALID_VENDOR_BINARY; EvDie],
       Stop (StopDie (Some POST_INVALID_VENDOR_BINARY))) in
    (Signature upd0 <> FSPM_UPD_SIGNATURE cfg ->
     do_fsp_memory_init cfg sym plat context s3wake = died) /\
    (Signature upd0 = FSPM_UPD_SIGNATURE cfg ->
     FSP_USES_CB_STACK cfg || negb (ENV_CACHE_AS_RAM cfg) = false ->
     (exists r, In r (memmap context) /\
                intersects stack_begin stack_end
                  (range_entry_base r) (range_entry_end r)) ->
     do_fsp_memory_init cfg sym plat context s3wake = died).
Proof.
  intros cfg sym plat context s3wake hdr upd0 stack_end stack_begin died.
  split.
  - intros Hs. apply Z.eqb_neq in Hs.
    unfold do_fsp_memory_init. fold hdr. fold upd0.
    unfold post_code at 1. rewrite bind_emit, Hs. reflexivity.
  - intros Hs Hcar [r [Hin Hint]].
    unfold do_fsp_memory_init. fold hdr. fold upd0.
    unfold post_code at 1. rewrite bind_emit, Hs, Z.eqb_refl.
    simpl negb. cbv iota. rewrite bind_ret_nil.
    unfold fsp_fill_common_arch_params. rewrite Hcar.
    unfold setup_fsp_stack_frame. simpl StackSize.
    fold stack_end. fold stack_begin.
    rewrite (check_region_overlap_rejects _ _ _ _ r Hin Hint).
    reflexivity.
Qed.

Lemma validation_failures_die_early_witness :
  do_fsp_memory_init Board.cfg Board.sym
    (Board.plat (NULL, 0) 0)
    {| header := Board.hdr;
       memmap := [{| re_base := 0x1F000; re_size := 0x1000 |}] |} false =
    ([EvPostCode POST_MEM_PREINIT_PREP_START;
      EvPostCode POST_INVALID_VENDOR_BINARY; EvDie],
     Stop (StopDie (Some POST_INVALID_VENDOR_BINARY))).
Proof.
  apply (validation_failures_die_early Board.cfg Board.sym
           (Board.plat (NULL, 0) 0)
           {| header := Board.hdr;
              memmap := [{| re_base := 0x1F000; re_size := 0x1000 |}] |}
           false).
  - reflexivity.
  - reflexivity.
  - exists {| re_base := 0x1F000; re_size := 0x1000 |}. split.
    + left. reflexivity.
    + exists 0x1F000. vm_compute. repeat split; discriminate.
Defined.

(** ** Cache accesses *)

Lemma Forall_trace_bind {A B} (P : event -> Prop) (m : M A) (f : A -> M B) :
  Forall P (trace m) -> (forall a, Forall P (trace (f a))) ->
  Forall P (trace (bind m f)).
Proof.
  destruct m as [t [a|s]]; intros Hm Hf.
  - rewrite trace_bind_ret. apply Forall_app. split; [exact Hm|apply Hf].
  - exact Hm.
Qed.

Ltac all_step :=
  match goal with
  | |- Forall _ (trace (bind _ _)) => apply Forall_trace_bind; [|intros]
  | |- Forall _ (trace (if ?c then _ else _)) => destruct c
  | |- Forall _ (trace (let '(_, _) := ?x in _)) => destruct x
  | |- Forall _ (trace _) => simpl; repeat constructor; simpl; auto
  end.

Lemma fsp_fill_mrc_cache_lookups cfg plat a v :
  Forall (lookup_is_for v) (trace (fsp_fill_mrc_cache cfg plat a v)) /\
  (count_events is_cache_lookup
     (trace (fsp_fill_mrc_cache cfg plat a v)) <= 1)%nat.
Proof.
  unfold fsp_fill_mrc_cache, assert.
  destruct (mrc_cache_current_mmap_leak plat MRC_TRAINING_DATA v) as [d sz].
  destruct (CACHE_MRC_SETTINGS cfg), (vboot_recovery_mode_enabled plat),
    (HAS_RECOVERY_MRC_CACHE cfg), (get_recovery_mode_retrain_switch plat),
    (BOOT_DEVICE_MEMORY_MAPPED cfg), (FATAL_ASSERTS cfg), (d =? NULL),
    (FSP2_0_USES_TPM_MRC_HASH cfg), (mrc_cache_verify_hash plat d sz);
    (split; [simpl; repeat constructor; simpl; auto
            |unfold count_events; simpl; lia]).
Qed.

Lemma fsp_fill_common_arch_params_lookups cfg sym plat a s3 v mm :
  Forall (lookup_is_for v)
    (trace (fsp_fill_common_arch_params cfg sym plat a s3 v mm)) /\
  (count_events is_cache_lookup
     (trace (fsp_fill_common_arch_params cfg sym plat a s3 v mm)) <= 1)%nat.
Proof.
  unfold fsp_fill_common_arch_params.
  assert (Hk : forall a1 (k : FSPM_ARCH_UPD -> cb_err * FSPM_ARCH_UPD),
             Forall (lookup_is_for v)
               (trace (x <- fsp_fill_mrc_cache cfg plat a1 v ;; ret (k x))) /\
             (count_events is_cache_lookup
                (trace (x <- fsp_fill_mrc_cache cfg plat a1 v ;; ret (k x)))
              <= 1)%nat).
  { intros a1 k.
    destruct (fsp_fill_mrc_cache_lookups cfg plat a1 v) as [H1 H2]. split.
    - apply Forall_trace_bind; [exact H1|]. intros; constructor.
    - apply count_events_bind_then_free; [exact H2|]. intros; reflexivity. }
  destruct (FSP_USES_CB_STACK cfg || negb (ENV_CACHE_AS_RAM cfg)).
  - apply Hk.
  - destruct (setup_fsp_stack_frame cfg sym a mm) as [r a1].
    destruct r; simpl negb; cbv iota.
    + apply Hk.
    + split; [constructor|unfold count_events; simpl; lia].
Qed.

(** X12.  The training cache is looked up at most once per boot, and every
    lookup asks for the kind [MRC_TRAINING_DATA] under the version derived
    from the module header in use. *)
Theorem cache_looked_up_at_most_once :
  forall (cfg : Config) (sym : Symbols) (plat : Platform)
         (context : fspm_context) (hdr0 : fsp_header) (s3wake : bool),
    (count_events is_cache_lookup
       (trace (fsp_memory_init cfg sym plat hdr0 s3wake)) <= 1)%nat /\
    (count_events is_cache_lookup
       (trace (do_fsp_memory_init cfg sym plat context s3wake)) <= 1)%nat /\
    Forall
      (lookup_is_for
         (fsp_memory_settings_version cfg plat (header context)))
      (trace (do_fsp_memory_init cfg sym plat context s3wake)).
Proof.
  intros cfg sym plat context hdr0 s3wake.
  assert (Hcount : forall ctx,
             (count_events is_cache_lookup
                (trace (do_fsp_memory_init cfg sym plat ctx s3wake)) <= 1)%nat).
  { intros ctx. unfold do_fsp_memory_init.
    apply count_events_bind_free; [reflexivity|]. intros _.
    apply count_events_bind_free; [destruct (negb _); reflexivity|].
    intros _.
    apply count_events_bind_then_free.
    - apply fsp_fill_common_arch_params_lookups.
    - intros ra. unfold fsp_handle_reset, do_fsp_post_memory_init,
        save_memory_training_data.
      repeat free_step. }
  split; [|split; [apply Hcount|]].
  - unfold fsp_memory_init.
    apply count_events_bind_free; [reflexivity|]. intros _.
    destruct (fsp_load_component cfg plat _) as [r ctx].
    apply count_events_bind_free; [destruct r; reflexivity|]. intros _.
    apply count_events_bind_free; [reflexivity|]. intros _.
    apply count_events_bind_then_free; [apply Hcount|].
    intros _. reflexivity.
  - unfold do_fsp_memory_init.
    apply Forall_trace_bind; [repeat constructor|]. intros _.
    apply Forall_trace_bind;
      [destruct (negb _); simpl; repeat constructor|]. intros _.
    apply Forall_trace_bind;
      [apply fsp_fill_common_arch_params_lookups|]. intros ra.
    unfold fsp_handle_reset, do_fsp_post_memory_init,
      save_memory_training_data.
    repeat all_step.
Qed.




(** ** The board reset hook *)

(** X14.  [cse_board_reset] asks the EC for a reset only after it has
    cleaned the data cache and written the full-reset bit to the reset
    control register, in that order; it halts exactly when the firmware is
    an old one and the EC accepted the request (returned 0), and returns to
    its caller in every other case; on a firmware that is new enough it
    returns without touching the cache, the register or the EC. *)
Theorem cse_board_reset_behaviour :
  forall (b : Cse.Board),
    let v := Cse.cr50_version b in
    let new_enough :=
      Cse.epoch v <> 0 \/ Cse.major v > 4 \/
      (Cse.major v >= 3 /\ Cse.minor v >= 20) in
    let r := Cse.cse_board_reset b in
    (new_enough ->
     r = ([Cse.EvTlclLibInit; Cse.EvCr50GetFirmwareVersion], Cse.Returned)) /\
    (~ new_enough ->
     exists tail,
       fst r = [Cse.EvTlclLibInit; Cse.EvCr50GetFirmwareVersion;
                Cse.EvDcacheCleanAll;
                Cse.EvOutb (Cse.FULL_RST b) (Cse.RST_CNT b);
                Cse.EvGoogleChromeecApReset] ++ tail /\
       (Cse.google_chromeec_ap_reset b = 0 ->
        tail = [Cse.EvHalt] /\ snd r = Cse.Halted) /\
       (Cse.google_chromeec_ap_reset b <> 0 ->
        tail = [] /\ snd r = Cse.Returned)) /\
    (snd r = Cse.Halted <->
     ~ new_enough /\ Cse.google_chromeec_ap_reset b = 0).
Proof.
  intros b v new_enough r. subst r. unfold Cse.cse_board_reset. fold v.
  assert (Hdec : negb (Cse.epoch v =? 0) || (Cse.major v >? 4) ||
                 ((Cse.major v >=? 3) && (Cse.minor v >=? 20)) = true <->
                 new_enough).
  { subst new_enough.
    rewrite !orb_true_iff, andb_true_iff, negb_true_iff, Z.eqb_neq.
    rewrite Z.gtb_ltb, Z.ltb_lt, !Z.geb_le. lia. }
  destruct (negb (Cse.epoch v =? 0) || (Cse.major v >? 4) ||
            ((Cse.major v >=? 3) && (Cse.minor v >=? 20))) eqn:Hc.
  - assert (Hn : new_enough) by (apply Hdec; reflexivity).
    split; [intros _; reflexivity|]. split; [intros H; contradiction|].
    simpl. split; [discriminate|]. intros [H _]. contradiction.
  - assert (Hn : ~ new_enough).
    { intros H. apply Hdec in H. discriminate. }
    split; [intros H; contradiction|].
    destruct (Z.eqb_spec (Cse.google_chromeec_ap_reset b) 0) as [E|E];
      simpl.
    + split.
      * intros _. exists [Cse.EvHalt]. split; [reflexivity|].
        split; [auto|intros H; contradiction].
      * split; auto.
    + split.
      * intros _. exists []. split; [reflexivity|].
        split; [intros H; contradiction|auto].
      * split; [discriminate|]. intros [_ H]. contradiction.
Qed.

Lemma cse_board_reset_behaviour_witness :
  Cse.cse_board_reset
    {| Cse.RST_CNT := 0xcf9; Cse.FULL_RST := 8;
       Cse.cr50_version := {| Cse.epoch := 0; Cse.major := 3;
                              Cse.minor := 20 |};
       Cse.google_chromeec_ap_reset := 0 |} =
    ([Cse.EvTlclLibInit; Cse.EvCr50GetFirmwareVersion], Cse.Returned).
Proof.
  apply (cse_board_reset_behaviour
           {| Cse.RST_CNT := 0xcf9; Cse.FULL_RST := 8;
              Cse.cr50_version := {| Cse.epoch := 0; Cse.major := 3;
                                     Cse.minor := 20 |};
              Cse.google_chromeec_ap_reset := 0 |}).
  right. right. simpl. lia.
Defined.

Lemma cse_board_reset_skips_iff (b : Cse.Board) :
  Cse.cse_board_reset b =
    ([Cse.EvTlclLibInit; Cse.EvCr50GetFirmwareVersion], Cse.Returned) <->
  (Cse.epoch (Cse.cr50_version b) <> 0 \/
   Cse.major (Cse.cr50_version b) > 4 \/
   (Cse.major (Cse.cr50_version b) >= 3 /\
    Cse.minor (Cse.cr50_version b) >= 20)).
Proof.
  unfold Cse.cse_board_reset.
  set (v := Cse.cr50_version b).
  assert (Hdec : negb (Cse.epoch v =? 0) || (Cse.major v >? 4) ||
                 ((Cse.major v >=? 3) && (Cse.minor v >=? 20)) = true <->
                 (Cse.epoch v <> 0 \/ Cse.major v > 4 \/
                  (Cse.major v >= 3 /\ Cse.minor v >= 20))).
  { rewrite !orb_true_iff, andb_true_iff, negb_true_iff, Z.eqb_neq.
    rewrite Z.gtb_ltb, Z.ltb_lt, !Z.geb_le. lia. }
  destruct (negb (Cse.epoch v =? 0) || (Cse.major v >? 4) ||
            ((Cse.major v >=? 3) && (Cse.minor v >=? 20))).
  - split; [intros _; apply Hdec; reflexivity|reflexivity].
  - split.
    + destruct (Cse.google_chromeec_ap_reset b =? 0); discriminate.
    + intros H. apply Hdec in H. discriminate.
Qed.

(** X15.  The firmware test of [cse_board_reset] is upward closed in the
    major and the minor number: if a version needs no EC reset, neither
    does a version of the same epoch whose major and minor numbers are at
    least as large.  It is not a comparison of version numbers: with epoch
    0 and a major number up to 4, every minor number below 20 takes the EC
    path, 0.4.0 included. *)
Theorem cse_board_reset_threshold :
  forall (b b' : Cse.Board),
    let v := Cse.cr50_version b in
    let v' := Cse.cr50_version b' in
    let skipped :=
      ([Cse.EvTlclLibInit; Cse.EvCr50GetFirmwareVersion], Cse.Returned) in
    (Cse.cse_board_reset b = skipped ->
     Cse.epoch v' = Cse.epoch v ->
     Cse.major v <= Cse.major v' ->
     Cse.minor v <= Cse.minor v' ->
     Cse.cse_board_reset b' = skipped) /\
    (Cse.epoch v = 0 -> Cse.major v <= 4 -> Cse.minor v < 20 ->
     In Cse.EvGoogleChromeecApReset (fst (Cse.cse_board_reset b))).
Proof.
  intros b b' v v' skipped. split.
  - intros Hs He Hma Hmi. subst skipped.
    apply cse_board_reset_skips_iff in Hs. apply cse_board_reset_skips_iff.
    fold v in Hs. fold v'. lia.
  - intros He Hma Hmi.
    destruct (Cse.cse_board_reset b) as [t e] eqn:Hr.
    unfold Cse.cse_board_reset in Hr. fold v in Hr.
    replace (negb (Cse.epoch v =? 0) || (Cse.major v >? 4) ||
             ((Cse.major v >=? 3) && (Cse.minor v >=? 20))) with false in Hr.
    + destruct (Cse.google_chromeec_ap_reset b =? 0);
        injection Hr as <- _; simpl; tauto.
    + symmetry. rewrite He. simpl.
      rewrite orb_false_iff, andb_false_iff.
      rewrite Z.gtb_ltb, Z.ltb_ge, !Z.geb_leb, !Z.leb_gt. lia.
Qed.

Lemma cse_board_reset_threshold_witness :
  In Cse.EvGoogleChromeecApReset
    (fst (Cse.cse_board_reset
            {| Cse.RST_CNT := 0xcf9; Cse.FULL_RST := 8;
               Cse.cr50_version := {| Cse.epoch := 0; Cse.major := 4;
                                      Cse.minor := 0 |};
               Cse.google_chromeec_ap_reset := 0 |})).
Proof.
  apply (cse_board_reset_threshold
           {| Cse.RST_CNT := 0xcf9; Cse.FULL_RST := 8;
              Cse.cr50_version := {| Cse.epoch := 0; Cse.major := 4;
                                     Cse.minor := 0 |};
              Cse.google_chromeec_ap_reset := 0 |}
           {| Cse.RST_CNT := 0xcf9; Cse.FULL_RST := 8;
              Cse.cr50_version := {| Cse.epoch := 0; Cse.major := 4;
                                     Cse.minor := 0 |};
              Cse.google_chromeec_ap_reset := 0 |}).
  - reflexivity.
  - simpl. lia.
  - simpl. lia.
Defined.

(** ** Resets *)

(** Every way [do_fsp_memory_init] can go up to the call of the module. *)
Lemma do_fsp_memory_init_cases cfg sym plat context s3wake :
  let hdr := header context in
  let v := fsp_memory_settings_version cfg plat hdr in
  let upd0 :=
    upd_region plat (uintptr cfg (cfg_region_offset hdr + image_base hdr)) in
  let entry := uintptr cfg (image_base hdr + memory_init_entry_offset hdr) in
  let fill :=
    fsp_fill_common_arch_params cfg sym plat
      (set_BootLoaderTolumSize (FspmArchUpd upd0) (cbmem_overhead_size plat))
      s3wake v (memmap context) in
  let m := do_fsp_memory_init cfg sym plat context s3wake in
  m = ([EvPostCode POST_MEM_PREINIT_PREP_START;
        EvPostCode POST_INVALID_VENDOR_BINARY; EvDie],
       Stop (StopDie (Some POST_INVALID_VENDOR_BINARY))) \/
  (exists t s, fill = (t, Stop s) /\
     m = (EvPostCode POST_MEM_PREINIT_PREP_START :: t, Stop s)) \/
  (exists t a, fill = (t, Ret (CB_ERR, a)) /\
     m = (EvPostCode POST_MEM_PREINIT_PREP_START ::
            t ++ [EvPostCode POST_INVALID_VENDOR_BINARY; EvDie],
          Stop (StopDie (Some POST_INVALID_VENDOR_BINARY)))) \/
  (exists t a', fill = (t, Ret (CB_SUCCESS, a')) /\
     s3wake = true /\
     NvsBufferPtr
       (FspmArchUpd
          (platform_fsp_memory_init_params_cb plat
             (set_FspmArchUpd upd0 a') v)) = NULL /\
     m = (EvPostCode POST_MEM_PREINIT_PREP_START ::
            t ++ [EvPlatformCb v; EvFullReset], Stop StopFullReset)) \/
  (exists t a',
     let cb := platform_fsp_memory_init_params_cb plat
                 (set_FspmArchUpd upd0 a') v in
     let upd :=
       if MMA cfg
       then set_FspmConfig cb (setup_mma plat (FspmConfig cb)) else cb in
     fill = (t, Ret (CB_SUCCESS, a')) /\
     (s3wake = true -> NvsBufferPtr (FspmArchUpd cb) <> NULL) /\
     m = (EvPostCode POST_MEM_PREINIT_PREP_START ::
            t ++ EvPlatformCb v ::
            (if MMA cfg then [EvSetupMma] else []) ++
            [EvPostCode POST_MEM_PREINIT_PREP_END; EvDebugBeforeMemoryInit;
             EvPostCode POST_FSP_MEMORY_INIT;
             EvTimestamp TS_FSP_MEMORY_INIT_START;
             EvFspMemoryInit entry upd] ++
            trace (module_tail cfg plat s3wake v entry upd),
          outcome (module_tail cfg plat s3wake v entry upd))).
Proof.
  intros hdr v upd0 entry fill m.
  destruct (Z.eqb_spec (Signature upd0) (FSPM_UPD_SIGNATURE cfg)) as [Hs|Hs].
  2:{ left. subst m. unfold do_fsp_memory_init. fold hdr. fold upd0.
      unfold post_code at 1. rewrite bind_emit.
      apply Z.eqb_neq in Hs. rewrite Hs. reflexivity. }
  right.
  destruct fill as [t [[r a']|s]] eqn:Hfill; subst fill.
  2:{ left. exists t, s. split; [reflexivity|].
      subst m. unfold do_fsp_memory_init. fold hdr. fold v. fold upd0.
      unfold post_code at 1. rewrite bind_emit, Hs, Z.eqb_refl.
      simpl negb. cbv iota. rewrite bind_ret_nil, Hfill. reflexivity. }
  right. destruct r.
  2:{ left. exists t, a'. split; [reflexivity|].
      subst m. unfold do_fsp_memory_init. fold hdr. fold v. fold upd0.
      unfold post_code at 1. rewrite bind_emit, Hs, Z.eqb_refl.
      simpl negb. cbv iota. rewrite bind_ret_nil, Hfill, bind_eta.
      reflexivity. }
  right.
  destruct (s3wake &&
            (NvsBufferPtr
               (FspmArchUpd
                  (platform_fsp_memory_init_params_cb plat
                     (set_FspmArchUpd upd0 a') v)) =? NULL)) eqn:Hreset.
  - left. exists t, a'. split; [reflexivity|].
    apply andb_prop in Hreset. destruct Hreset as [-> Hn].
    apply Z.eqb_eq in Hn. split; [reflexivity|]. split; [exact Hn|].
    subst m. unfold do_fsp_memory_init. fold hdr. fold v. fold upd0.
    unfold post_code at 1. rewrite bind_emit, Hs, Z.eqb_refl.
    simpl negb. cbv iota. rewrite bind_ret_nil, Hfill, bind_eta.
    simpl fst. simpl snd. simpl negb. cbv iota.
    rewrite bind_ret_nil, bind_emit, Hn. reflexivity.
  - right. exists t, a'. cbv zeta. split; [reflexivity|]. split.
    + intros ->. simpl in Hreset. apply Z.eqb_neq. exact Hreset.
    + exact (do_fsp_memory_init_to_module cfg sym plat context s3wake t a'
               Hs Hfill Hreset).
Qed.

Lemma fsp_fill_common_arch_params_stops cfg sym plat a s3 v mm :
  free_of is_full_reset
    (fsp_fill_common_arch_params cfg sym plat a s3 v mm) /\
  (forall s,
      outcome (fsp_fill_common_arch_params cfg sym plat a s3 v mm) = Stop s ->
      s = StopHlt).
Proof.
  assert (Hc : forall a1,
             free_of is_full_reset (fsp_fill_mrc_cache cfg plat a1 v) /\
             (forall s, outcome (fsp_fill_mrc_cache cfg plat a1 v) = Stop s ->
                        s = StopHlt)).
  { intros a1. unfold fsp_fill_mrc_cache, assert.
    destruct (mrc_cache_current_mmap_leak plat MRC_TRAINING_DATA v)
      as [d sz].
    destruct (CACHE_MRC_SETTINGS cfg), (vboot_recovery_mode_enabled plat),
      (HAS_RECOVERY_MRC_CACHE cfg), (get_recovery_mode_retrain_switch plat),
      (BOOT_DEVICE_MEMORY_MAPPED cfg), (FATAL_ASSERTS cfg), (d =? NULL),
      (FSP2_0_USES_TPM_MRC_HASH cfg), (mrc_cache_verify_hash plat d sz);
      (split; [reflexivity|simpl; intros s H; congruence]). }
  assert (Hk : forall a1 (k : FSPM_ARCH_UPD -> cb_err * FSPM_ARCH_UPD),
             free_of is_full_reset
               (x <- fsp_fill_mrc_cache cfg plat a1 v ;; ret (k x)) /\
             (forall s,
                 outcome (x <- fsp_fill_mrc_cache cfg plat a1 v ;; ret (k x))
                   = Stop s -> s = StopHlt)).
  { intros a1 k. destruct (Hc a1) as [H1 H2]. split.
    - apply free_of_bind; [exact H1|]. intros; reflexivity.
    - destruct (fsp_fill_mrc_cache cfg plat a1 v) as [t [a2|s']]; simpl.
      + discriminate.
      + intros s [= <-]. apply H2. reflexivity. }
  unfold fsp_fill_common_arch_params.
  destruct (FSP_USES_CB_STACK cfg || negb (ENV_CACHE_AS_RAM cfg)).
  - apply Hk.
  - destruct (setup_fsp_stack_frame cfg sym a mm) as [r a1].
    destruct r; simpl negb; cbv iota.
    + apply Hk.
    + split; [reflexivity|]. simpl. discriminate.
Qed.

Lemma fsp_fill_common_arch_params_pointer cfg sym plat a s3 v mm t a' :
  fsp_fill_common_arch_params cfg sym plat a s3 v mm
    = (t, Ret (CB_SUCCESS, a')) ->
  NvsBufferPtr a' =
    if cache_usable cfg plat v
    then fst (mrc_cache_current_mmap_leak plat MRC_TRAINING_DATA v)
    else NULL.
Proof.
  intros H.
  assert (Ho : outcome (fsp_fill_common_arch_params cfg sym plat a s3 v mm)
               = Ret (CB_SUCCESS, a')) by (rewrite H; reflexivity).
  destruct (fsp_fill_common_arch_params_inv _ _ _ _ _ _ _ _ Ho)
    as (a1 & a2 & Ha & ->).
  destruct (fsp_fill_mrc_cache_spec cfg plat a1 v) as [[H' _]|H'];
    rewrite H' in Ha; [discriminate|].
  injection Ha as <-. reflexivity.
Qed.

(** X16.  A resume boot needs a usable cache entry: when training-data
    caching is disabled, bypassed, misses or fails its hash check, and the
    platform callback does not supply a cached-data pointer of its own, a
    resume boot never enters the module; the flow ends in a full reset, or
    earlier in one of the fatal stops. *)
Theorem resume_needs_usable_cache :
  forall (cfg : Config) (sym : Symbols) (plat : Platform)
         (context : fspm_context),
    let v := fsp_memory_settings_version cfg plat (header context) in
    let m := do_fsp_memory_init cfg sym plat context true in
    cache_usable cfg plat v = false ->
    (forall u ver,
        NvsBufferPtr
          (FspmArchUpd (platform_fsp_memory_init_params_cb plat u ver)) =
        NvsBufferPtr (FspmArchUpd u)) ->
    count_events is_module_call (trace m) = 0%nat /\
    (outcome m = Stop StopFullReset \/
     outcome m = Stop (StopDie (Some POST_INVALID_VENDOR_BINARY)) \/
     outcome m = Stop StopHlt).
Proof.
  intros cfg sym plat context v m Hu Hcb.
  set (upd0 := upd_region plat
                 (uintptr cfg (cfg_region_offset (header context) +
                               image_base (header context)))).
  pose proof (fsp_fill_common_arch_params_before_call cfg sym plat
                (set_BootLoaderTolumSize (FspmArchUpd upd0)
                   (cbmem_overhead_size plat))
                true v (memmap context)) as Hfree.
  pose proof (fsp_fill_common_arch_params_stops cfg sym plat
                (set_BootLoaderTolumSize (FspmArchUpd upd0)
                   (cbmem_overhead_size plat))
                true v (memmap context)) as [_ Hstop].
  unfold free_of in Hfree.
  assert (Hcount : forall t post,
             filter from_module_call_on t = [] ->
             filter is_module_call post = [] ->
             count_events is_module_call
               (EvPostCode POST_MEM_PREINIT_PREP_START :: t ++ post)
             = 0%nat).
  { intros t post Ht Hp. apply count_events_free. simpl.
    rewrite filter_app, Hp.
    rewrite (filter_nil_weaken _ from_module_call_on t
               module_call_on_is_module_call Ht).
    reflexivity. }
  destruct (do_fsp_memory_init_cases cfg sym plat context true)
    as [Hm|[(t & s & Hfill & Hm)|[(t & a & Hfill & Hm)
       |[(t & a' & Hfill & _ & _ & Hm)|(t & a' & Hfill & Hnn & _)]]]];
    try (fold v in Hfill; fold upd0 in Hfill).
  - fold m in Hm. rewrite Hm. split; [reflexivity|]. right. left.
    reflexivity.
  - fold m in Hm. rewrite Hm. rewrite Hfill in Hfree, Hstop.
    simpl in Hfree. split.
    + rewrite <- (app_nil_r t). apply Hcount; [exact Hfree|reflexivity].
    + right. right. simpl. f_equal. apply Hstop. reflexivity.
  - fold m in Hm. rewrite Hm. rewrite Hfill in Hfree. simpl in Hfree.
    split; [apply Hcount; [exact Hfree|reflexivity]|].
    right. left. reflexivity.
  - fold m in Hm. rewrite Hm. rewrite Hfill in Hfree. simpl in Hfree.
    split; [apply Hcount; [exact Hfree|reflexivity]|].
    left. reflexivity.
  - exfalso. cbv zeta in Hnn. apply (Hnn eq_refl).
    rewrite Hcb. simpl.
    rewrite (fsp_fill_common_arch_params_pointer _ _ _ _ _ _ _ _ _ Hfill).
    rewrite Hu. reflexivity.
Qed.

Lemma resume_needs_usable_cache_witness :
  count_events is_module_call
    (trace (do_fsp_memory_init (Board.cfg_with false false) Board.sym
              (Board.plat (0xff000000, 128) 0) Board.context true))
  = 0%nat.
Proof.
  apply (resume_needs_usable_cache (Board.cfg_with false false) Board.sym
           (Board.plat (0xff000000, 128) 0) Board.context).
  - reflexivity.
  - intros u ver. reflexivity.
Defined.

Lemma after_module_call_cold_reset cfg plat status hobs v :
  In EvFullReset (trace (after_module_call cfg plat status hobs false v)) ->
  fsp_reset_requested plat status = true.
Proof.
  destruct (fsp_reset_requested plat status) eqn:Hreq; [reflexivity|].
  destruct (Z.eq_dec status FSP_SUCCESS) as [->|Hs].
  2:{ rewrite (after_module_call_failure _ _ _ _ _ _ Hreq Hs).
      simpl. intuition discriminate. }
  rewrite (after_module_call_success _ _ _ _ _ Hreq).
  rewrite do_fsp_post_memory_init_cold.
  destruct (_ =? cbmem_find plat CBMEM_ID_FSP_RESERVED_MEMORY).
  2:{ simpl. intuition discriminate. }
  rewrite save_memory_training_data_cold, bind_eta. simpl trace.
  destruct (CACHE_MRC_SETTINGS cfg &&
            negb (fst (hob_nv_storage_data hobs) =? NULL));
    [destruct (FSP2_0_USES_TPM_MRC_HASH cfg)|];
    simpl; intuition discriminate.
Qed.

(** X17.  On a cold boot the flow performs a full reset only at the
    module's request: a [full_reset] in the trace means that the module was
    called and returned a status that is a reset request, and the reset
    ends the flow. *)
Theorem cold_boot_resets_only_on_request :
  forall (cfg : Config) (sym : Symbols) (plat : Platform)
         (context : fspm_context),
    let m := do_fsp_memory_init cfg sym plat context false in
    In EvFullReset (trace m) ->
    exists entry upd,
      In (EvFspMemoryInit entry upd) (trace m) /\
      fsp_reset_requested plat (fst (fsp_raminit plat entry upd)) = true /\
      outcome m = Stop StopFullReset.
Proof.
  intros cfg sym plat context m Hin. subst m.
  set (v := fsp_memory_settings_version cfg plat (header context)).
  set (upd0 := upd_region plat
                 (uintptr cfg (cfg_region_offset (header context) +
                               image_base (header context)))).
  pose proof (fsp_fill_common_arch_params_stops cfg sym plat
                (set_BootLoaderTolumSize (FspmArchUpd upd0)
                   (cbmem_overhead_size plat))
                false v (memmap context)) as [Hfree _].
  unfold free_of in Hfree.
  destruct (do_fsp_memory_init_cases cfg sym plat context false)
    as [Hm|[(t & s & Hfill & Hm)|[(t & a & Hfill & Hm)
       |[(t & a' & Hfill & Hs & _)|(t & a' & Hfill & _ & Hm)]]]];
    try (fold v in Hfill; fold upd0 in Hfill);
    try (fold v in Hm; fold upd0 in Hm);
    try (rewrite Hfill in Hfree; simpl in Hfree);
    try discriminate.
  - rewrite Hm in Hin. simpl in Hin. intuition discriminate.
  - rewrite Hm in Hin. simpl in Hin. destruct Hin as [H|H]; [discriminate|].
    exfalso. revert H.
    apply (filter_nil_not_In is_full_reset); [exact Hfree|reflexivity].
  - rewrite Hm in Hin. simpl in Hin. destruct Hin as [H|H]; [discriminate|].
    apply in_app_or in H. destruct H as [H|H].
    + exfalso. revert H.
      apply (filter_nil_not_In is_full_reset); [exact Hfree|reflexivity].
    + simpl in H. intuition discriminate.
  - cbv zeta in Hm.
    set (cb := platform_fsp_memory_init_params_cb plat
                 (set_FspmArchUpd upd0 a') v) in *.
    set (upd := if MMA cfg then _ else cb) in *.
    set (entry := uintptr cfg
                    (image_base (header context) +
                     memory_init_entry_offset (header context))) in *.
    exists entry, upd.
    assert (Htail : In EvFullReset
                      (trace (module_tail cfg plat false v entry upd))).
    { rewrite Hm in Hin. simpl trace in Hin.
      destruct Hin as [H|H]; [discriminate|].
      apply in_app_or in H. destruct H as [H|H].
      { exfalso. revert H.
        apply (filter_nil_not_In is_full_reset); [exact Hfree|reflexivity]. }
      destruct H as [H|H]; [discriminate|].
      apply in_app_or in H. destruct H as [H|H].
      { destruct (MMA cfg); simpl in H; intuition discriminate. }
      destruct H as [H|[H|[H|[H|[H|H]]]]]; try discriminate. exact H. }
    split; [|split].
    + rewrite Hm. simpl trace. right. apply in_or_app. right. right.
      apply in_or_app. right. do 4 right. left. reflexivity.
    + unfold module_tail in Htail.
      destruct (fsp_raminit plat entry upd) as [status hobs]. simpl.
      exact (after_module_call_cold_reset cfg plat status hobs v Htail).
    + rewrite Hm. simpl outcome. unfold module_tail in *.
      destruct (fsp_raminit plat entry upd) as [status hobs].
      rewrite (after_module_call_reset_requested cfg plat status hobs false v
                 (after_module_call_cold_reset cfg plat status hobs v Htail)).
      reflexivity.
Qed.

Lemma cold_boot_resets_only_on_request_witness :
  outcome (do_fsp_memory_init Board.cfg Board.sym
             (Board.plat (NULL, 0) 0x40000001) Board.context false)
  = Stop StopFullReset.
Proof.
  destruct (cold_boot_resets_only_on_request Board.cfg Board.sym
              (Board.plat (NULL, 0) 0x40000001) Board.context)
    as (entry & upd & _ & _ & Ho).
  - vm_compute. do 11 right. left. reflexivity.
  - exact Ho.
Defined.

(** ** Address arithmetic of the image destination *)


